(** * deepresearch: the report workflow of [deep_ai/agent.py] and the search
      aggregator of [deep_ai/util.py]

    The Python code is embedded function by function, under the names it has
    in the source.

    - A [str] is the list of its Unicode code points.
    - A value of the search provider (JSON-like, dynamically typed) is a
      [pyval]; a dict that is iterated keeps its insertion order, so it is an
      association list; the name-to-content dict of the compile step is only
      looked up, so it is a finite map.
    - A call that may raise returns a [result]; [try]/[except Exception] is
      [try_except]. What is printed is not modelled.
    - The chat model and the search client are constructed on demand at every
      node; what the construction and the calls do is given by the
      environment of the run ([World], [ChatModel], [TavilySearch]).
    - Of langgraph the development uses this much: the nodes run in the order
      of the edges, a conditional edge starts one branch for every [Send] it
      returns and none when it returns the empty list, the branches of one
      fan-out run concurrently, the lists they return under
      [completed_sections] are appended ([operator.add]), and an exception
      of a node ends the run: of the branches that raise, the one that
      raises first in time. *)

From Stdlib Require Import NArith ZArith Strings.Ascii Strings.String DecimalString.
From stdpp Require Import base option list gmap.

#[global] Set Warnings "-register-all".

Local Open Scope N_scope.
Local Open Scope list_scope.

(** ** Python strings *)

Module PyStr.

(** A Python [str]: the sequence of its code points. *)
Abbreviation str := (list N).

(** A literal of the source (all of them are ASCII). *)
Definition lit (s : string) : str := map N_of_ascii (list_ascii_of_string s).

(** The line feed of the Python escape [\n]. *)
Definition NL : str := [10].

(** [s.startswith(p)]. *)
Fixpoint starts_with (p s : str) : bool :=
  match p, s with
  | [], _ => true
  | _ :: _, [] => false
  | a :: p', b :: s' => if decide (a = b) then starts_with p' s' else false
  end.

(** The scan of [str.replace] for a non-empty pattern: left to right, an
    occurrence of [old] is replaced and the scan resumes behind it ([skip]
    counts the characters of the occurrence still to pass over). *)
Fixpoint replace_from (old new : str) (skip : nat) (s : str) : str :=
  match s with
  | [] => []
  | c :: s' =>
      match skip with
      | S k => replace_from old new k s'
      | O =>
          if starts_with old s
          then new ++ replace_from old new (length old - 1) s'
          else c :: replace_from old new 0 s'
      end
  end.

(** [s.replace(old, new)]; with an empty [old] Python puts [new] before every
    character and at the end. *)
Definition replace (old new s : str) : str :=
  match old with
  | [] => new ++ flat_map (fun c => c :: new) s
  | _ :: _ => replace_from old new 0 s
  end.

(** [sep.join(parts)]. *)
Fixpoint join (sep : str) (parts : list str) : str :=
  match parts with
  | [] => []
  | [p] => p
  | p :: rest => p ++ sep ++ join sep rest
  end.

(** [c.isspace()] on a code point, the characters [str.strip()] removes. *)
Definition isspace (c : N) : bool :=
  ((9 <=? c) && (c <=? 13)) || ((28 <=? c) && (c <=? 32))
  || (c =? 133) || (c =? 160) || (c =? 5760)
  || ((8192 <=? c) && (c <=? 8202))
  || (c =? 8232) || (c =? 8233) || (c =? 8239) || (c =? 8287) || (c =? 12288).

Fixpoint lstrip (s : str) : str :=
  match s with
  | c :: s' => if isspace c then lstrip s' else s
  | [] => []
  end.

Definition rstrip (s : str) : str := reverse (lstrip (reverse s)).

(** [s.strip()]. *)
Definition strip (s : str) : str := rstrip (lstrip s).

(** [old] occurs in [s] ([old in s]). *)
Definition occurs (old s : str) : Prop := exists a b, s = a ++ old ++ b.

End PyStr.
Import PyStr.

(** ** Exceptions and calls that may raise *)

(** The exceptions of the model; all of them are instances of Python's
    [Exception], so an [except Exception] clause catches each of them.
    [ExternalError] stands for whatever a provider library raises. *)
Inductive exn :=
| KeyError (key : str)
| RuntimeError (msg : str)
| UnboundLocalError (var : str)
| TypeError (msg : str)
| ExternalError (tag : N).

Inductive result (A : Type) :=
| Return (a : A)
| Raise (e : exn).
Arguments Return {A} a.
Arguments Raise {A} e.

#[global] Instance result_ret : MRet result := fun A a => Return a.
#[global] Instance result_bind : MBind result :=
  fun A B f r => match r with Return a => f a | Raise e => Raise e end.

(** [try: body except Exception as e: handler]. *)
Definition try_except {A} (body : result A) (handler : exn -> result A) : result A :=
  match body with
  | Return a => Return a
  | Raise e => handler e
  end.

Definition raises {A} (r : result A) : Prop := exists e, r = Raise e.

(** ** Python values of the search provider's responses *)

(** The JSON-like values a response is made of; a dict keeps its items in
    insertion order. *)
Inductive pyval :=
| PNone
| PBool (b : bool)
| PInt (z : Z)
| PStr (s : str)
| PList (l : list pyval)
| PDict (d : list (str * pyval)).

Abbreviation pydict := (list (str * pyval)).

(** [k in d] and [d[k]]: the value under key [k], if any. *)
Fixpoint dict_get (k : str) (d : pydict) : option pyval :=
  match d with
  | [] => None
  | (k', v) :: d' => if decide (k' = k) then Some v else dict_get k d'
  end.

(** [d.get(k, default)]. *)
Definition dict_get_default (k : str) (dflt : pyval) (d : pydict) : pyval :=
  default dflt (dict_get k d).

(** Truth value of [if v:]. *)
Definition truthy (v : pyval) : bool :=
  match v with
  | PNone => false
  | PBool b => b
  | PInt z => negb (z =? 0)%Z
  | PStr s => negb (bool_decide (s = []))
  | PList l => match l with [] => false | _ => true end
  | PDict d => match d with [] => false | _ => true end
  end.

(** What [list.extend(v)] iterates over; a value that is not iterable raises. *)
Definition py_iter (v : pyval) : result (list pyval) :=
  match v with
  | PList l => Return l
  | PStr s => Return (map (fun c => PStr [c]) s)
  | PDict d => Return (map (fun kv => PStr kv.1) d)
  | _ => Raise (TypeError (lit "object is not iterable"))
  end.

(** Lists and dicts cannot be dict keys. *)
Definition hashable (v : pyval) : bool :=
  match v with
  | PList _ | PDict _ => false
  | _ => true
  end.

(** Equality of two hashable values as dict keys ([True == 1]). *)
Definition key_eqb (a b : pyval) : bool :=
  match a, b with
  | PNone, PNone => true
  | PStr x, PStr y => bool_decide (x = y)
  | PInt x, PInt y => bool_decide (x = y)
  | PBool x, PBool y => bool_decide (x = y)
  | PBool x, PInt y | PInt y, PBool x => bool_decide (y = if x then 1 else 0)%Z
  | _, _ => false
  end.

(** ** deep_ai/util.py: the search aggregator *)

Module util.

(** The dataclass [SearchQuery] of util.py, and what a caller may put in the
    list of queries: a string, a [SearchQuery] of this module, [None], or any
    other object, which is given by its [str()]; an object of the pydantic
    class [SearchQuery] of agent.py is such an other object. *)
Record SearchQuery := { search_query : str }.

Inductive query_like :=
| QStr (s : str)
| QSearchQuery (q : SearchQuery)
| QNone
| QObject (text : str).

(** [query.search_query if isinstance(query, SearchQuery) else str(query)]. *)
Definition query_str (query : query_like) : str :=
  match query with
  | QSearchQuery q => search_query q
  | QStr s => s
  | QNone => lit "None"
  | QObject text => text
  end.

(** What becomes of one call of [raw_results_async]: building the task may
    raise, and the awaited task raises or returns the response. *)
Inductive search_task :=
| CreateRaises (e : exn)
| Task (outcome : result pyval).

(** The search provider client:
    [raw_results_async(query, max_results, include_raw_content)], with
    [search_depth='advanced'] and [include_answer=False] fixed by the caller. *)
Record TavilySearch := {
  raw_results_async : str -> Z -> bool -> search_task
}.

Definition TAVILY_KEY_MESSAGE : str :=
  lit "Tavily API key not found or invalid. Please set the TAVILY_API_KEY environment variable.".

(** [get_tavily_search()]; the argument is what constructing
    [TavilySearchAPIWrapper()] does at this moment. *)
Definition get_tavily_search (wrapper : result TavilySearch) : result TavilySearch :=
  try_except wrapper (fun _ => Raise (RuntimeError TAVILY_KEY_MESSAGE)).

(** The loop that builds [search_tasks]. *)
Fixpoint create_search_tasks (tavily_search : TavilySearch)
    (search_queries : list query_like) (num_results : Z) (include_raw_content : bool)
    : list (result pyval) :=
  match search_queries with
  | [] => []
  | query :: rest =>
      let rest_tasks :=
        create_search_tasks tavily_search rest num_results include_raw_content in
      match raw_results_async tavily_search (query_str query) num_results include_raw_content with
      | CreateRaises _ => rest_tasks
      | Task outcome => outcome :: rest_tasks
      end
  end.

(** [asyncio.gather] with [return_exceptions=True] over the tasks, followed by
    the filter on [isinstance(doc, Exception)]. *)
Definition valid_results (search_docs : list (result pyval)) : list pyval :=
  omap (fun doc => match doc with Return d => Some d | Raise _ => None end) search_docs.

Definition run_search_queries (wrapper : result TavilySearch)
    (search_queries : list query_like) (num_results : Z) (include_raw_content : bool)
    : result (list pyval) :=
  match get_tavily_search wrapper with
  | Raise _ => Return []
  | Return tavily_search =>
      let search_tasks :=
        create_search_tasks tavily_search search_queries num_results include_raw_content in
      try_except
        (match search_tasks with
         | [] => Return []
         | _ => Return (valid_results search_tasks)
         end)
        (fun _ => Return [])
  end.

(** Python's [str()] of a value that is not a string (inside an f-string). *)
Record Rendering := {
  py_str : pyval -> str
}.

(** The encoding object of tiktoken:
    [decode(encode(text, disallowed_special=())[:max_tokens])]. *)
Record Encoding := {
  truncate_tokens : Z -> str -> str
}.

(** [f"{v}"]. *)
Definition fstr (R : Rendering) (v : pyval) : str :=
  match v with
  | PStr s => s
  | _ => py_str R v
  end.

Definition RESULTS : str := lit "results".
Definition URL : str := lit "url".
Definition NO_SEARCH_RESULTS : str := lit "No search results found.".
Definition CONTENT_HEADER : str := lit "Content from web search:" ++ NL ++ NL.
Definition RULE : str := NL ++ lit "===" ++ NL.

(** The body shared by the two dict branches: extend with the nested
    ['results'], or append the dict itself. *)
Definition add_response (response : pydict) (sources_list : list pyval)
    : result (list pyval) :=
  match dict_get RESULTS response with
  | Some results => items ← py_iter results; Return (sources_list ++ items)
  | None => Return (sources_list ++ [PDict response])
  end.

Fixpoint add_responses (search_response : list pyval) (sources_list : list pyval)
    : result (list pyval) :=
  match search_response with
  | [] => Return sources_list
  | response :: rest =>
      match response with
      | PDict d => sources_list' ← add_response d sources_list; add_responses rest sources_list'
      | PList l => add_responses rest (sources_list ++ l)
      | _ => add_responses rest sources_list
      end
  end.

(** Lines 93-111: the flattening into [sources_list]. *)
Definition flatten_sources (search_response : pyval) : result (list pyval) :=
  match search_response with
  | PDict d => add_response d []
  | PList l => add_responses l []
  | _ => Return []
  end.

(** [source['url']] for a source that is a dict with that key. *)
Definition source_url (source : pyval) : option pyval :=
  match source with
  | PDict d => dict_get URL d
  | _ => None
  end.

(** The dict [unique_sources]: url and source, in insertion order. *)
Abbreviation ordered_dict := (list (pyval * pydict)).

(** [key in unique_sources]. *)
Definition key_in (key : pyval) (keys : list pyval) : bool :=
  existsb (key_eqb key) keys.

(** Lines 117-121: the deduplication loop. *)
Fixpoint deduplicate (sources_list : list pyval) (unique_sources : ordered_dict)
    : result ordered_dict :=
  match sources_list with
  | [] => Return unique_sources
  | source :: rest =>
      match source with
      | PDict d =>
          match dict_get URL d with
          | Some url =>
              if hashable url then
                if key_in url (unique_sources.*1)
                then deduplicate rest unique_sources
                else deduplicate rest (unique_sources ++ [(url, d)])
              else Raise (TypeError (lit "unhashable type"))
          | None => deduplicate rest unique_sources
          end
      | _ => deduplicate rest unique_sources
      end
  end.

(** Lines 126-137: the block of one source. *)
Definition format_source (R : Rendering) (encoding : Encoding) (max_tokens : Z)
    (include_raw_content : bool) (source : pydict) : result str :=
  let block :=
    lit "Source " ++ fstr R (dict_get_default (lit "title") (PStr (lit "Untitled")) source)
      ++ lit ":" ++ RULE
    ++ lit "URL: " ++ fstr R (dict_get_default URL PNone source) ++ RULE
    ++ lit "Most relevant content from source: "
      ++ fstr R (dict_get_default (lit "content") (PStr (lit "No content available")) source)
      ++ RULE in
  if include_raw_content then
    let raw_content := dict_get_default (lit "raw_content") (PStr []) source in
    if truthy raw_content then
      match raw_content with
      | PStr text =>
          Return (block ++ lit "Raw Content: " ++ truncate_tokens encoding max_tokens text
                  ++ NL ++ NL)
      | _ => Raise (TypeError (lit "expected string"))
      end
    else Return block
  else Return block.

Fixpoint format_sources (R : Rendering) (encoding : Encoding) (max_tokens : Z)
    (include_raw_content : bool) (sources : list pydict) (formatted_text : str)
    : result str :=
  match sources with
  | [] => Return formatted_text
  | source :: rest =>
      block ← format_source R encoding max_tokens include_raw_content source;
      format_sources R encoding max_tokens include_raw_content rest (formatted_text ++ block)
  end.

(** [format_search_query_results]; [tiktoken] is what
    [tiktoken.encoding_for_model("gpt-4")] does at this call: it is the first
    statement of the function, before the response is looked at, and nothing
    in the function catches what it raises. *)
Definition format_search_query_results (R : Rendering) (tiktoken : result Encoding)
    (search_response : pyval) (max_tokens : Z) (include_raw_content : bool)
    : result str :=
  encoding ← tiktoken;
  sources_list ← flatten_sources search_response;
  match sources_list with
  | [] => Return NO_SEARCH_RESULTS
  | _ =>
      unique_sources ← deduplicate sources_list [];
      formatted_text ←
        format_sources R encoding max_tokens include_raw_content (unique_sources.*2)
          CONTENT_HEADER;
      Return (strip formatted_text)
  end.

(** The batch the specification speaks of when duplicates are "already
    removed": a source whose url was seen before is dropped, every other
    source stays where it is. *)
Fixpoint drop_later_duplicates (seen : list pyval) (sources_list : list pyval)
    : list pyval :=
  match sources_list with
  | [] => []
  | source :: rest =>
      match source_url source with
      | Some url =>
          if key_in url seen then drop_later_duplicates seen rest
          else source :: drop_later_duplicates (seen ++ [url]) rest
      | None => source :: drop_later_duplicates seen rest
      end
  end.

(** [isinstance(source, dict) and 'url' in source]. *)
Definition has_url (source : pyval) : bool :=
  match source_url source with
  | Some _ => true
  | None => false
  end.

(** The sources the specification keeps: the first occurrence of each url,
    in first-seen order. *)
Definition first_occurrences (sources_list : list pyval) : list pyval :=
  filter (fun source => has_url source = true) (drop_later_duplicates [] sources_list).

(** An earlier and a later source do not have the same url. *)
Definition different_urls (earlier later : pyval) : Prop :=
  forall k k', source_url earlier = Some k -> source_url later = Some k' ->
    key_eqb k' k = false.

(** The response to a query whose task was built and returned. *)
Definition response_of (tavily_search : TavilySearch) (num_results : Z)
    (include_raw_content : bool) (query : query_like) : option pyval :=
  match raw_results_async tavily_search (query_str query) num_results include_raw_content with
  | Task (Return doc) => Some doc
  | _ => None
  end.

End util.

(** ** deep_ai/agent.py: the report workflow *)

Module agent.

(** [class Section(BaseModel)]. *)
Record ReportSection := {
  name : str;
  description : str;
  research : bool;
  content : str
}.

#[global] Instance ReportSection_eq_dec : EqDecision ReportSection.
Proof. solve_decision. Defined.

(** [section.content = c]. *)
Definition set_content (c : str) (section : ReportSection) : ReportSection :=
  {| name := name section; description := description section;
     research := research section; content := c |}.

(** [class SearchQuery(BaseModel)]: [search_query] defaults to [None]. *)
Record SearchQuery := { search_query : option str }.

Definition query_text (query : SearchQuery) : util.query_like :=
  match search_query query with
  | Some s => util.QStr s
  | None => util.QNone
  end.

(** [class ReportState(TypedDict)]; [final_report] is absent until the compile
    step writes it. *)
Record ReportState := {
  topic : str;
  sections : list ReportSection;
  completed_sections : list ReportSection;
  report_sections_from_research : str;
  final_report : option str
}.

Inductive Message :=
| SystemMessage (content : str)
| HumanMessage (content : str).

(** The chat model [ChatOpenAI(...)]: [invoke(messages).content], and the
    [invoke] of [with_structured_output(Queries)] and of
    [with_structured_output(Sections)], giving the [queries] and the
    [sections] of the object returned. *)
Record ChatModel := {
  invoke : list Message -> result str;
  invoke_Queries : list Message -> result (list SearchQuery);
  invoke_Sections : list Message -> result (list ReportSection)
}.

(** The templates of prompts.py, each with its [.format(...)]. *)
Record Prompts := {
  DEFAULT_REPORT_STRUCTURE : str;
  REPORT_PLAN_QUERY_GENERATOR_PROMPT : str -> str -> Z -> str;
  REPORT_PLAN_SECTION_GENERATOR_PROMPT : str -> str -> str -> str;
  REPORT_SECTION_QUERY_GENERATOR_PROMPT : str -> Z -> str;
  SECTION_WRITER_PROMPT : str -> str -> str -> str;
  FINAL_SECTION_WRITER_PROMPT : str -> str -> str -> str
}.

Definition OPENAI_KEY_MESSAGE : str :=
  lit "OpenAI API key not found or invalid. Please set the OPENAI_API_KEY environment variable.".

(** [get_llm()]; the argument is what constructing [ChatOpenAI(...)] does at
    this moment. *)
Definition get_llm (chat_openai : result ChatModel) : result ChatModel :=
  try_except chat_openai (fun _ => Raise (RuntimeError OPENAI_KEY_MESSAGE)).

(** The [try] block of [generate_report_plan] (lines 106-149). *)
Definition plan_sections (P : Prompts) (R : util.Rendering) (llm : ChatModel)
    (wrapper : result util.TavilySearch) (tiktoken : result util.Encoding) (topic : str)
    : result (list ReportSection) :=
  let report_structure := DEFAULT_REPORT_STRUCTURE P in
  let number_of_queries := 4%Z in
  let system_instructions_query :=
    REPORT_PLAN_QUERY_GENERATOR_PROMPT P topic report_structure number_of_queries in
  results ← invoke_Queries llm
    [SystemMessage system_instructions_query;
     HumanMessage (lit "Generate search queries that will help with planning the sections of the report.")];
  let query_list := map query_text results in
  search_docs ← util.run_search_queries wrapper query_list 4 false;
  search_context ←
    match search_docs with
    | [] => Return (lit "No search results available.")
    | _ => util.format_search_query_results R tiktoken (PList search_docs) 2500 false
    end;
  let system_instructions_sections :=
    REPORT_PLAN_SECTION_GENERATOR_PROMPT P topic report_structure search_context in
  report_sections ← invoke_Sections llm
    [SystemMessage system_instructions_sections;
     HumanMessage (lit "Generate the sections of the report. Your response must include a 'sections' field containing a list of sections. Each section must have: name, description, plan, research, and content fields.")];
  Return report_sections.

(** [generate_report_plan]: the value of ["sections"] in the update returned. *)
Definition generate_report_plan (P : Prompts) (R : util.Rendering)
    (chat_openai : result ChatModel) (wrapper : result util.TavilySearch)
    (tiktoken : result util.Encoding) (topic : str) : result (list ReportSection) :=
  match get_llm chat_openai with
  | Raise _ => Return []
  | Return llm =>
      try_except (plan_sections P R llm wrapper tiktoken topic) (fun _ => Return [])
  end.

(** [generate_queries]: the value of ["search_queries"]. *)
Definition generate_queries (P : Prompts) (chat_openai : result ChatModel)
    (section : ReportSection) : result (list SearchQuery) :=
  match get_llm chat_openai with
  | Raise _ => Return []
  | Return llm =>
      let number_of_queries := 4%Z in
      let system_instructions :=
        REPORT_SECTION_QUERY_GENERATOR_PROMPT P (description section) number_of_queries in
      let user_instruction := lit "Generate search queries on the provided topic." in
      search_queries ← invoke_Queries llm
        [SystemMessage system_instructions; HumanMessage user_instruction];
      Return search_queries
  end.

(** [search_web]: the value of ["source_str"]. *)
Definition search_web (R : util.Rendering) (wrapper : result util.TavilySearch)
    (tiktoken : result util.Encoding) (search_queries : list SearchQuery) : result str :=
  let query_list := map query_text search_queries in
  search_docs ← util.run_search_queries wrapper query_list 4 true;
  search_context ←
    util.format_search_query_results R tiktoken (PList search_docs) 4000 true;
  Return search_context.

Definition API_ERROR_CONTENT : str :=
  lit "Error: Could not generate content due to API issues.".

(** [write_section]: the value of ["completed_sections"]. *)
Definition write_section (P : Prompts) (chat_openai : result ChatModel)
    (section : ReportSection) (source_str : str) : result (list ReportSection) :=
  match get_llm chat_openai with
  | Raise _ => Return [set_content API_ERROR_CONTENT section]
  | Return llm =>
      let system_instructions :=
        SECTION_WRITER_PROMPT P (name section) (description section) source_str in
      let user_instruction :=
        lit "Generate a report section based on the provided sources." in
      section_content ← invoke llm
        [SystemMessage system_instructions; HumanMessage user_instruction];
      Return [set_content section_content section]
  end.

(** [write_final_sections]: the handler of the [try] around [get_llm()] only
    prints, so the local [llm] may be unbound when [llm.invoke] is reached. *)
Definition write_final_sections (P : Prompts) (chat_openai : result ChatModel)
    (section : ReportSection) (completed_report_sections : str)
    : result (list ReportSection) :=
  let llm : option ChatModel :=
    match get_llm chat_openai with
    | Return llm => Some llm
    | Raise _ => None
    end in
  let system_instructions :=
    FINAL_SECTION_WRITER_PROMPT P (name section) (description section)
      completed_report_sections in
  let user_instruction := lit "Craft a report section based on the provided sources." in
  section_content ←
    match llm with
    | Some llm =>
        invoke llm [SystemMessage system_instructions; HumanMessage user_instruction]
    | None => Raise (UnboundLocalError (lit "llm"))
    end;
  Return [set_content section_content section].

(** [parallelize_section_writing]: the sections sent to the section builder. *)
Definition parallelize_section_writing (state : ReportState) : list ReportSection :=
  filter (fun s => research s = true) (sections state).

(** [parallelize_final_section_writing]. *)
Definition parallelize_final_section_writing (state : ReportState) : list ReportSection :=
  filter (fun s => research s = false) (sections state).

(** [str(n)] of a non-negative int. *)
Definition decimal (n : N) : str := lit (NilEmpty.string_of_uint (N.to_uint n)).

Definition BANNER : str := replicate 60 61.

(** One turn of the loop of [format_sections]. *)
Definition format_section (idx : N) (section : ReportSection) : str :=
  NL ++ BANNER ++ NL
  ++ lit "Section " ++ decimal idx ++ lit ": " ++ name section ++ NL
  ++ BANNER ++ NL
  ++ lit "Description:" ++ NL
  ++ description section ++ NL
  ++ lit "Requires Research:" ++ NL
  ++ (if research section then lit "True" else lit "False") ++ NL
  ++ NL
  ++ lit "Content:" ++ NL
  ++ (match content section with [] => lit "[Not yet written]" | c => c end) ++ NL
  ++ NL.

Fixpoint format_sections_from (idx : N) (sections : list ReportSection) : str :=
  match sections with
  | [] => []
  | section :: rest => format_section idx section ++ format_sections_from (N.succ idx) rest
  end.

Definition format_sections (sections : list ReportSection) : str :=
  format_sections_from 1 sections.

(** [format_completed_sections]: the value of
    ["report_sections_from_research"]. *)
Definition format_completed_sections (state : ReportState) : str :=
  format_sections (completed_sections state).

(** ** The escaping pass of [compile_final_report] (agent.py, lines 383-385) *)

Definition TEMP_PLACEHOLDER : str := lit "TEMP_PLACEHOLDER".
(** The Python literal ["\\$"]: a backslash and a dollar. *)
Definition ESCAPED_DOLLAR : str := [92; 36].
Definition DOLLAR : str := [36].

Definition escape_dollars (all_sections : str) : str :=
  let formatted_sections := replace ESCAPED_DOLLAR TEMP_PLACEHOLDER all_sections in
  let formatted_sections := replace DOLLAR ESCAPED_DOLLAR formatted_sections in
  let formatted_sections := replace TEMP_PLACEHOLDER ESCAPED_DOLLAR formatted_sections in
  formatted_sections.

(** The report after the first two of the three replacements. *)
Definition marked (all_sections : str) : str :=
  replace DOLLAR ESCAPED_DOLLAR (replace ESCAPED_DOLLAR TEMP_PLACEHOLDER all_sections).

(** The escaping the specification describes, in one pass: a dollar that
    follows a backslash is copied with it, every other dollar gets one
    backslash, every other character is copied. *)
Fixpoint escape_once (s : str) : str :=
  match s with
  | [] => []
  | c :: s' =>
      if decide (c = 36) then 92 :: 36 :: escape_once s'
      else
        match s' with
        | d :: s'' =>
            if decide (c = 92 /\ d = 36) then 92 :: 36 :: escape_once s''
            else c :: escape_once s'
        | [] => [c]
        end
  end.


(** [{s.name: s.content for s in completed_sections}]: a later section
    overwrites an earlier one of the same name. *)
Definition content_by_name (completed_sections : list ReportSection) : gmap str str :=
  foldl (fun m s => <[name s := content s]> m) ∅ completed_sections.

(** The loop [for section in sections: section.content =
    completed_sections[section.name]]; a name that is not a key raises
    [KeyError]. *)
Fixpoint assign_contents (completed_sections : gmap str str)
    (sections : list ReportSection) : result (list ReportSection) :=
  match sections with
  | [] => Return []
  | section :: rest =>
      match completed_sections !! name section with
      | None => Raise (KeyError (name section))
      | Some c =>
          rest' ← assign_contents completed_sections rest;
          Return (set_content c section :: rest')
      end
  end.

(** [compile_final_report] on the values of the state: the state after it,
    with the sections updated and ["final_report"] written. The other keys
    are read as they were on entry; what the assignment does to an object
    that [sections] and [completed_sections] share is the subject of
    [objects.compile_final_report] below. *)
Definition compile_final_report (state : ReportState) : result ReportState :=
  let completed_sections := content_by_name (completed_sections state) in
  sections ← assign_contents completed_sections (sections state);
  let all_sections := join (NL ++ NL) (map content sections) in
  let formatted_sections := escape_dollars all_sections in
  Return {| topic := topic state;
            sections := sections;
            completed_sections := agent.completed_sections state;
            report_sections_from_research := report_sections_from_research state;
            final_report := Some formatted_sections |}.

(** *** The compile step on the objects of the state

    The [Section] objects are mutable: the loop of [compile_final_report]
    assigns to the [content] of the objects in [sections], and an object in
    [completed_sections] may be one of them (a writer returns the object it
    was sent). Here an object is known by its address, and the heap gives the
    object at each address. *)

Module objects.

Definition heap := nat -> ReportSection.

(** [section.content = c] for the object at address [section]. *)
Definition store_content (section : nat) (c : str) (h : heap) : heap :=
  fun l => if decide (l = section) then set_content c (h section) else h l.

(** The loop of lines 377-378; a [KeyError] leaves the loop with the objects
    assigned so far. *)
Fixpoint assign_contents (completed_sections : gmap str str) (sections : list nat)
    (h : heap) : heap * result unit :=
  match sections with
  | [] => (h, Return ())
  | section :: rest =>
      match completed_sections !! name (h section) with
      | None => (h, Raise (KeyError (name (h section))))
      | Some c => assign_contents completed_sections rest (store_content section c h)
      end
  end.

(** [compile_final_report]: the heap after it, and the value of
    ["final_report"]. The dict is built from the contents before the first
    assignment. *)
Definition compile_final_report (h : heap) (sections completed_sections : list nat)
    : heap * result str :=
  let completed_sections := content_by_name (h <$> completed_sections) in
  let (h', outcome) := assign_contents completed_sections sections h in
  (h', _ ← outcome;
       let all_sections := join (NL ++ NL) (map (fun s => content (h' s)) sections) in
       Return (escape_dollars all_sections)).

End objects.

(** *** The graph *)

(** Where a provider client is constructed: each node constructs its own, on
    demand, so the outcome may differ from one node to the next. *)
Inductive call_site :=
| AtPlan
| AtQueries (section : ReportSection)
| AtSearch (section : ReportSection)
| AtWrite (section : ReportSection)
| AtFinal (section : ReportSection).

(** The environment of one run: what constructing the chat model and the
    search client and loading the tokenizer do at each node, the order in
    which the results of the parallel branches of one fan-out are appended to
    [completed_sections], and, of the exceptions of the branches of a fan-out
    that raise (listed in the order of the sends), the position of the one
    raised first in time. *)
Record World := {
  ChatOpenAI : call_site -> result ChatModel;
  TavilySearchAPIWrapper : call_site -> result util.TavilySearch;
  encoding_for_model : call_site -> result util.Encoding;
  arrival : list ReportSection -> list ReportSection;
  earliest : list exn -> nat
}.

(** The sub-graph [section_builder]: generate_queries, search_web,
    write_section. *)
Definition section_builder (P : Prompts) (R : util.Rendering) (W : World)
    (section : ReportSection) : result (list ReportSection) :=
  search_queries ← generate_queries P (ChatOpenAI W (AtQueries section)) section;
  source_str ← search_web R (TavilySearchAPIWrapper W (AtSearch section))
                 (encoding_for_model W (AtSearch section)) search_queries;
  write_section P (ChatOpenAI W (AtWrite section)) section source_str.

(** What the branches that returned have returned, and the exceptions of the
    branches that raised, both in the order of the sends. *)
Definition returned {A} (outcomes : list (result A)) : list A :=
  omap (fun outcome => match outcome with Return a => Some a | Raise _ => None end) outcomes.

Definition raised {A} (outcomes : list (result A)) : list exn :=
  omap (fun outcome => match outcome with Raise e => Some e | Return _ => None end) outcomes.

(** The branches of one fan-out. When all of them return, their lists are
    appended. When some raise, the run ends with the exception raised first
    in time, which is one of theirs: the one at position [earliest], or the
    first of them when there is no such position. *)
Definition fan_out (earliest : list exn -> nat)
    (branch : ReportSection -> result (list ReportSection))
    (sends : list ReportSection) : result (list ReportSection) :=
  let outcomes := map branch sends in
  match raised outcomes with
  | [] => Return (concat (returned outcomes))
  | e :: es => Raise (default e ((e :: es) !! earliest (e :: es)))
  end.

(** The compiled graph [reporter_agent] run on a topic: the value of
    ["final_report"] in the last state streamed, if the key is there. A
    conditional edge that sends nothing starts no node, and the run ends. *)
Definition reporter_agent (P : Prompts) (R : util.Rendering) (W : World)
    (topic : str) : result (option str) :=
  planned ← generate_report_plan P R (ChatOpenAI W AtPlan) (TavilySearchAPIWrapper W AtPlan)
              (encoding_for_model W AtPlan) topic;
  let state :=
    {| topic := topic; sections := planned; completed_sections := [];
       report_sections_from_research := []; final_report := None |} in
  match parallelize_section_writing state with
  | [] => Return None
  | sends =>
      completed ← fan_out (earliest W) (section_builder P R W) sends;
      let state :=
        {| topic := topic; sections := planned;
           completed_sections := arrival W completed;
           report_sections_from_research := []; final_report := None |} in
      let state :=
        {| topic := topic; sections := planned;
           completed_sections := completed_sections state;
           report_sections_from_research := format_completed_sections state;
           final_report := None |} in
      match parallelize_final_section_writing state with
      | [] => Return None
      | sends =>
          completed ←
            fan_out (earliest W)
              (fun s => write_final_sections P (ChatOpenAI W (AtFinal s)) s
                          (report_sections_from_research state)) sends;
          let state :=
            {| topic := topic; sections := planned;
               completed_sections := completed_sections state ++ arrival W completed;
               report_sections_from_research := report_sections_from_research state;
               final_report := None |} in
          state ← compile_final_report state;
          Return (final_report state)
      end
  end.

End agent.

(** ** app.py: the caller of the workflow *)

(** [run_agent]: without one of the two API keys in the environment it returns
    [None]; otherwise [report_content] starts as the empty string, takes the
    value of every ["final_report"] streamed, and an exception of the run
    gives [None]. *)
Definition run_agent (P : agent.Prompts) (R : util.Rendering) (W : agent.World)
    (openai_api_key tavily_api_key : bool) (topic : str) : option str :=
  if negb openai_api_key then None
  else if negb tavily_api_key then None
  else
    match agent.reporter_agent P R W topic with
    | Raise _ => None
    | Return (Some v) => Some v
    | Return None => Some []
    end.

(** ** Sample data for the worked instances *)

Module sample.
Import util agent.

Definition rendering : Rendering :=
  {| py_str := fun _ => lit "<value>" |}.

Definition encoding : Encoding :=
  {| truncate_tokens := fun max_tokens text => take (Z.to_nat max_tokens) text |}.

Definition source (title url : string) : pyval :=
  PDict [(lit "title", PStr (lit title)); (URL, PStr (lit url));
         (lit "content", PStr (lit "text"))].

(** One response with a duplicate url, and the same with the duplicate
    removed. *)
Definition batch : pyval :=
  PList [PDict [(RESULTS, PList [source "A" "http://a"; source "B" "http://b"])];
         PDict [(RESULTS, PList [source "A2" "http://a"; PStr (lit "stray")])]].

Definition batch_deduplicated : pyval :=
  PList [PDict [(RESULTS, PList [source "A" "http://a"; source "B" "http://b";
                                 PStr (lit "stray")])]].

(** Sources none of which has a url. *)
Definition batch_without_url : pyval :=
  PList [PDict [(lit "title", PStr (lit "A"))]; PList [PInt 3]].

(** A report state as the compile step receives it: three planned sections,
    completed in another order. *)
Definition planned (name description : string) (research : bool) : ReportSection :=
  {| name := lit name; description := lit description; research := research;
     content := [] |}.

Definition plan_abc : list ReportSection :=
  [planned "A" "first" true; planned "B" "second" true; planned "C" "third" false].

Definition contents_abc : list str := [lit "alpha"; lit "beta costs $5"; lit "gamma"].

Definition state_abc : ReportState :=
  {| topic := lit "topic";
     sections := plan_abc;
     completed_sections :=
       [set_content (lit "beta costs $5") (planned "B" "second" true);
        set_content (lit "gamma") (planned "C" "third" false);
        set_content (lit "alpha") (planned "A" "first" true)];
     report_sections_from_research := [];
     final_report := None |}.

(** The same state when the writer of section B lost its result. *)
Definition state_abc_lost : ReportState :=
  {| topic := lit "topic";
     sections := plan_abc;
     completed_sections :=
       [set_content (lit "gamma") (planned "C" "third" false);
        set_content (lit "alpha") (planned "A" "first" true)];
     report_sections_from_research := [];
     final_report := None |}.

(** A run of the whole workflow: templates, a chat model that plans four
    sections and writes a text with a price, a search client, and a world in
    which the branches of a fan-out arrive in reverse order. *)
Definition prompts : Prompts :=
  {| DEFAULT_REPORT_STRUCTURE := lit "structure";
     REPORT_PLAN_QUERY_GENERATOR_PROMPT := fun topic _ _ => lit "plan queries: " ++ topic;
     REPORT_PLAN_SECTION_GENERATOR_PROMPT := fun topic _ _ => lit "plan sections: " ++ topic;
     REPORT_SECTION_QUERY_GENERATOR_PROMPT := fun section_topic _ => lit "queries: " ++ section_topic;
     SECTION_WRITER_PROMPT := fun section_title _ _ => lit "On " ++ section_title;
     FINAL_SECTION_WRITER_PROMPT := fun section_title _ _ => lit "Closing " ++ section_title |}.

Definition plan_ev : list ReportSection :=
  [planned "Introduction" "overview" false;
   planned "Battery Supply Chains" "batteries" true;
   planned "Charging Infrastructure" "chargers" true;
   planned "Conclusion" "summary" false].

Definition writer : ChatModel :=
  {| invoke := fun messages =>
       match messages with
       | SystemMessage prompt :: _ => Return (prompt ++ lit ": about $5")
       | _ => Return []
       end;
     invoke_Queries := fun _ => Return [ {| search_query := Some (lit "ev") |} ];
     invoke_Sections := fun _ => Return plan_ev |}.

Definition failing_writer : ChatModel :=
  {| invoke := fun _ => Raise (ExternalError 1);
     invoke_Queries := invoke_Queries writer;
     invoke_Sections := invoke_Sections writer |}.

Definition search : TavilySearch :=
  {| raw_results_async := fun _ _ _ =>
       Task (Return (PDict [(RESULTS, PList [source "T" "http://t"])])) |}.

Definition world : World :=
  {| ChatOpenAI := fun _ => Return writer;
     TavilySearchAPIWrapper := fun _ => Return search;
     encoding_for_model := fun _ => Return encoding;
     arrival := reverse;
     earliest := fun _ => 0%nat |}.

(** The chat model raises when a research section is written. *)
Definition world_writer_fails : World :=
  {| ChatOpenAI := fun site =>
       match site with
       | AtWrite _ => Return failing_writer
       | _ => Return writer
       end;
     TavilySearchAPIWrapper := fun _ => Return search;
     encoding_for_model := fun _ => Return encoding;
     arrival := reverse;
     earliest := fun _ => 0%nat |}.

(** No chat model can be constructed at the planning node. *)
Definition world_no_planner : World :=
  {| ChatOpenAI := fun site =>
       match site with
       | AtPlan => Raise (ExternalError 0)
       | _ => Return writer
       end;
     TavilySearchAPIWrapper := fun _ => Return search;
     encoding_for_model := fun _ => Return encoding;
     arrival := reverse;
     earliest := fun _ => 0%nat |}.

(** No chat model can be constructed when a final section is written. *)
Definition world_no_final_writer : World :=
  {| ChatOpenAI := fun site =>
       match site with
       | AtFinal _ => Raise (ExternalError 0)
       | _ => Return writer
       end;
     TavilySearchAPIWrapper := fun _ => Return search;
     encoding_for_model := fun _ => Return encoding;
     arrival := reverse;
     earliest := fun _ => 0%nat |}.

Definition topic_ev : str := lit "Impact of electric vehicles on urban infrastructure".

(** A state in which a writer produced the marker of the escaping pass. *)
Definition state_marker : ReportState :=
  {| topic := lit "topic";
     sections := [planned "A" "first" true];
     completed_sections :=
       [set_content (lit "see TEMP_PLACEHOLDER here") (planned "A" "first" true)];
     report_sections_from_research := [];
     final_report := None |}.

(** A plan in which the planner used one name twice, with the two sections
    completed in one order and in the other. *)
Definition state_twins (completed : list ReportSection) : ReportState :=
  {| topic := lit "topic";
     sections := [planned "A" "first" true; planned "A" "second" true];
     completed_sections := completed;
     report_sections_from_research := [];
     final_report := None |}.

Definition twin_one : ReportSection := set_content (lit "one") (planned "A" "first" true).
Definition twin_two : ReportSection := set_content (lit "two") (planned "A" "second" true).

End sample.

(** ** app.py: the thread that runs the workflow *)

Module app.
Import agent.

(** Truth value of [os.environ.get(key)] and of a key kept in the session
    state: absent or empty is false. *)
Definition key_set (value : option str) : bool :=
  match value with
  | Some (_ :: _) => true
  | _ => false
  end.

(** The two assignments at the head of [process_report]: a key missing from
    the environment is taken from the session state. *)
Definition ensure_key (environ session : option str) : option str :=
  if negb (key_set environ) && key_set session then session else environ.

(** [process_report]: the value returned, and what is put on [result_queue];
    [run_agent] sees the environment after the two assignments. The handler
    of the outer [try] returns [False] too, and [run_agent] lets no exception
    out. *)
Definition process_report (P : Prompts) (R : util.Rendering) (W : World)
    (environ_openai environ_tavily session_openai session_tavily : option str)
    (topic : str) : bool * option str :=
  let environ_openai := ensure_key environ_openai session_openai in
  let environ_tavily := ensure_key environ_tavily session_tavily in
  let report_content :=
    run_agent P R W (key_set environ_openai) (key_set environ_tavily) topic in
  match report_content with
  | Some (c :: rest) => (true, Some (c :: rest))
  | _ => (false, None)
  end.

End app.

(** ** utils/storage.py: where a report is stored *)

Module storage.

(** [sub in s]. *)
Fixpoint contains (sub s : str) : bool :=
  starts_with sub s
  || match s with
     | [] => false
     | _ :: s' => contains sub s'
     end.

(** The paths of [save_report]; [ts] is the time stamp
    [datetime.now().strftime("%Y%m%d_%H%M%S")]. *)
Definition safe_topic (topic : str) : str :=
  replace (lit "/") (lit "_") (replace (lit " ") (lit "_") topic).

Definition file_name (topic ts : str) : str :=
  safe_topic topic ++ lit "_" ++ ts ++ lit ".md".

Definition user_folder (user_id : str) : str := user_id ++ lit "/".

Definition file_path (user_id topic ts : str) : str :=
  user_folder user_id ++ file_name topic ts.

Definition metadata_path (user_id topic ts : str) : str :=
  user_folder user_id ++ file_name topic ts ++ lit ".meta.json".

(** The path of [get_report_content] and of [delete_report]: a file name with
    a slash is taken as the full path. *)
Definition resolve_path (user_id filename : str) : str :=
  if contains (lit "/") filename then filename
  else user_id ++ lit "/" ++ filename.

(** [meta_path] of [delete_report]. *)
Definition meta_path (user_id filename : str) : str :=
  resolve_path user_id filename ++ lit ".meta.json".

End storage.

(** ** More sample data *)

Module sample_more.
Import util agent.

(** A plan without a section to research, and one without a final section. *)
Definition planner (plan : list ReportSection) : ChatModel :=
  {| invoke := invoke sample.writer;
     invoke_Queries := invoke_Queries sample.writer;
     invoke_Sections := fun _ => Return plan |}.

Definition world_with_plan (plan : list ReportSection) : World :=
  {| ChatOpenAI := fun site =>
       match site with
       | AtPlan => Return (planner plan)
       | _ => Return sample.writer
       end;
     TavilySearchAPIWrapper := fun _ => Return sample.search;
     encoding_for_model := fun _ => Return sample.encoding;
     arrival := reverse;
     earliest := fun _ => 0%nat |}.

Definition plan_final_only : list ReportSection :=
  [sample.planned "Introduction" "overview" false;
   sample.planned "Conclusion" "summary" false].

Definition plan_research_only : list ReportSection :=
  [sample.planned "Battery Supply Chains" "batteries" true].

(** No chat model can be constructed in the branch of a research section. *)
Definition world_no_section_llm : World :=
  {| ChatOpenAI := fun site =>
       match site with
       | AtQueries _ | AtWrite _ => Raise (ExternalError 0)
       | _ => Return sample.writer
       end;
     TavilySearchAPIWrapper := fun _ => Return sample.search;
     encoding_for_model := fun _ => Return sample.encoding;
     arrival := reverse;
     earliest := fun _ => 0%nat |}.

(** The state [sample.state_abc] with one more completed section, of a name
    the plan does not have. *)
Definition unplanned : ReportSection :=
  set_content (lit "stray") (sample.planned "Z" "unplanned" true).

Definition state_abc_unplanned : ReportState :=
  {| topic := lit "topic";
     sections := sample.plan_abc;
     completed_sections :=
       [set_content (lit "beta costs $5") (sample.planned "B" "second" true);
        unplanned;
        set_content (lit "gamma") (sample.planned "C" "third" false);
        set_content (lit "alpha") (sample.planned "A" "first" true)];
     report_sections_from_research := [];
     final_report := None |}.

(** Two planned sections of one name as objects, the first at address 0 and
    the second at every other address. *)
Definition heap_twins : objects.heap :=
  fun l => match l with
           | O => sample.twin_one
           | _ => sample.twin_two
           end.

(** A search client all of whose searches raise. *)
Definition failing_search : TavilySearch :=
  {| raw_results_async := fun _ _ _ => Task (Raise (ExternalError 2)) |}.

End sample_more.
(** * Properties *)

Import util agent.

(** A decidable fact about literals, by evaluation. *)
Ltac by_evaluation := apply (bool_decide_unpack _); by vm_compute.

(** ** [str.replace] *)

Example replace_python_doc :
  replace (lit "ab") (lit "X") (lit "ababa") = lit "XXa" /\
  replace (lit "aa") (lit "b") (lit "aaa") = lit "ba" /\
  replace [] (lit "-") (lit "abc") = lit "-a-b-c-".
Proof. vm_compute. done. Qed.

Example escape_dollars_example :
  escape_dollars (lit "\$5 and $10") = lit "\$5 and \$10".
Proof. vm_compute. done. Qed.

#[global] Arguments replace : simpl never.

Section replace_facts.
Implicit Types old new s a b w : str.

Lemma starts_with_app old b : starts_with old (old ++ b) = true.
Proof. induction old as [|c old IH]; simpl; [done|]. by rewrite decide_True. Qed.

Lemma starts_with_cons t u c s :
  starts_with (t :: u) (c :: s) = if decide (t = c) then starts_with u s else false.
Proof. reflexivity. Qed.

Lemma starts_with_length old s :
  starts_with old s = true -> (length old <= length s)%nat.
Proof.
  revert s. induction old as [|c old IH]; intros [|d s]; simpl; try done; try lia.
  case_decide; [|done]. intros Hs. apply IH in Hs. lia.
Qed.

Lemma starts_with_take_drop old s :
  starts_with old s = true -> s = old ++ drop (length old) s.
Proof.
  revert s. induction old as [|c old IH]; intros [|d s]; simpl; try done.
  case_decide; [|done]. intros Hs. subst. f_equal. by apply IH.
Qed.

(** A character foreign to the pattern cuts every match attempt. *)
Lemma starts_with_cut old a c b :
  c ∉ old -> starts_with old (a ++ c :: b) = starts_with old a.
Proof.
  revert a. induction old as [|d old IH]; intros a Hc; [done|].
  apply not_elem_of_cons in Hc as [Hcd Hc].
  destruct a as [|e a]; simpl.
  - by rewrite decide_False.
  - case_decide; [by apply IH|done].
Qed.

Lemma replace_from_skip old new k s :
  replace_from old new k s = replace_from old new 0 (drop k s).
Proof.
  revert k. induction s as [|c s IH]; intros [|k]; try done. simpl. apply IH.
Qed.

(** The equation of the scan. *)
Lemma replace_unfold old new s :
  old <> [] ->
  replace old new s =
    if starts_with old s then new ++ replace old new (drop (length old) s)
    else match s with [] => [] | c :: s' => c :: replace old new s' end.
Proof.
  intros Hold. destruct old as [|o old]; [done|]. unfold replace.
  destruct s as [|c s]; [done|].
  cbn [replace_from]. destruct (starts_with (o :: old) (c :: s)); [|done].
  rewrite replace_from_skip. simpl. by rewrite Nat.sub_0_r.
Qed.

Lemma replace_nil old new : old <> [] -> replace old new [] = [].
Proof. by destruct old. Qed.

(** A character foreign to the pattern is copied, and the text on its two
    sides is rewritten independently. *)
Lemma replace_app_foreign old new a c b :
  old <> [] -> c ∉ old ->
  replace old new (a ++ c :: b) = replace old new a ++ c :: replace old new b.
Proof.
  intros Hold Hc. remember (length a) as n eqn:Hn. revert a Hn.
  induction n as [n IH] using lt_wf_ind. intros a ->.
  rewrite (replace_unfold old new (a ++ _)), (replace_unfold old new a) by done.
  rewrite starts_with_cut by done.
  destruct (starts_with old a) eqn:Hsw.
  - pose proof (starts_with_length _ _ Hsw) as Hlen.
    rewrite drop_app_le by done. rewrite <- app_assoc. f_equal.
    eapply IH; [|done]. rewrite length_drop.
    destruct old; [done|]. simpl in *. lia.
  - destruct a as [|e a]; simpl; [done|]. f_equal.
    eapply IH; [|done]. simpl. lia.
Qed.

Lemma replace_app_foreign_word old new a w b :
  old <> [] -> w <> [] -> (forall c, c ∈ w -> c ∉ old) ->
  replace old new (a ++ w ++ b) = replace old new a ++ w ++ replace old new b.
Proof.
  intros Hold Hw Hf. revert a Hw Hf. induction w as [|c w IH]; intros a Hw Hf; [done|].
  change ((c :: w) ++ b) with (c :: (w ++ b)).
  rewrite replace_app_foreign; [|done|apply Hf; left].
  f_equal. change ((c :: w) ++ replace old new b) with (c :: (w ++ replace old new b)).
  f_equal. destruct w as [|d w]; [done|].
  specialize (IH [] ltac:(done) ltac:(intros; apply Hf; by right)).
  rewrite app_nil_l in IH. rewrite IH. by rewrite replace_nil.
Qed.

(** A pattern whose first character does not come back in it cannot overlap
    itself: an occurrence is replaced wherever it stands. *)
Lemma replace_app_occurrence t u new a b :
  t ∉ u ->
  replace (t :: u) new (a ++ (t :: u) ++ b)
  = replace (t :: u) new a ++ new ++ replace (t :: u) new b.
Proof.
  intros Ht. remember (length a) as n eqn:Hn. revert a Hn.
  induction n as [n IH] using lt_wf_ind. intros a ->.
  destruct a as [|e a].
  - rewrite replace_nil by done. simpl app at 1 3.
    rewrite replace_unfold by done.
    change (t :: u ++ b) with ((t :: u) ++ b).
    by rewrite starts_with_app, drop_app_length.
  - rewrite (replace_unfold _ new ((e :: a) ++ _)), (replace_unfold _ new (e :: a)) by done.
    assert (starts_with (t :: u) ((e :: a) ++ (t :: u) ++ b)
            = starts_with (t :: u) (e :: a)) as ->.
    { simpl. case_decide; [|done]. by apply starts_with_cut. }
    destruct (starts_with (t :: u) (e :: a)) eqn:Hsw.
    + pose proof (starts_with_length _ _ Hsw) as Hlen.
      rewrite drop_app_le by done. rewrite <- app_assoc. f_equal.
      eapply IH; [|done]. rewrite length_drop. simpl in *. lia.
    + simpl. f_equal. eapply IH; [|done]. simpl. lia.
Qed.

(** A one-character pattern is rewritten character by character. *)
Lemma replace_char_app c new a b :
  replace [c] new (a ++ b) = replace [c] new a ++ replace [c] new b.
Proof.
  induction a as [|e a IH]; [done|].
  rewrite (replace_unfold [c] new ((e :: a) ++ b)), (replace_unfold [c] new (e :: a)) by done.
  simpl. case_decide; simpl.
  - rewrite drop_0, <- app_assoc. by rewrite IH.
  - by rewrite IH.
Qed.

(** Without an occurrence of the pattern nothing changes. *)
Lemma replace_absent old new s :
  old <> [] -> ~ occurs old s -> replace old new s = s.
Proof.
  intros Hold. induction s as [|c s IH]; intros Hno; [by apply replace_nil|].
  rewrite replace_unfold by done.
  destruct (starts_with old (c :: s)) eqn:Hsw.
  - exfalso. apply Hno. exists [], (drop (length old) (c :: s)).
    by apply starts_with_take_drop.
  - f_equal. apply IH. intros (a & b & ->). apply Hno. by exists (c :: a), b.
Qed.
Lemma last_drop_Some n s y : last (drop n s) = Some y -> last s = Some y.
Proof.
  revert s. induction n as [|n IH]; intros [|c s]; simpl; try done.
  intros Hy. rewrite last_cons, (IH _ Hy). done.
Qed.

(** The last character of the result is the last character of the text or of
    the replacement. *)
Lemma last_replace old new s :
  old <> [] -> new <> [] ->
  last (replace old new s) = last s \/ last (replace old new s) = last new.
Proof.
  intros Hold Hnew. remember (length s) as n eqn:Hn. revert s Hn.
  induction n as [n IH] using lt_wf_ind. intros s ->.
  destruct s as [|c s]; [left; by rewrite replace_nil|].
  rewrite replace_unfold by done.
  destruct (starts_with old (c :: s)) eqn:Hsw.
  - pose proof (starts_with_length _ _ Hsw) as Hlen.
    destruct (IH (length (drop (length old) (c :: s)))) with (s := drop (length old) (c :: s))
      as [Hl|Hl]; [|done| |].
    + rewrite length_drop. destruct old; [done|]. simpl in *. lia.
    + rewrite last_app, Hl.
      destruct (last (drop (length old) (c :: s))) as [y|] eqn:Hy; [|by right].
      left. symmetry. by apply last_drop_Some in Hy.
    + rewrite last_app, Hl. right. by destruct (last new).
  - rewrite last_cons.
    destruct (IH (length s) ltac:(simpl; lia) s eq_refl) as [Hl|Hl]; rewrite Hl.
    + left. by rewrite last_cons.
    + right. destruct (last new) eqn:Hy; [done|]. by apply last_None in Hy.
Qed.
End replace_facts.

(** ** The escaping pass *)

Section escaping.
Implicit Types s a b : str.

Lemma TEMP_PLACEHOLDER_cons : TEMP_PLACEHOLDER = 84 :: lit "EMP_PLACEHOLDER".
Proof. reflexivity. Qed.

Lemma TEMP_PLACEHOLDER_no_border : 84 ∉ lit "EMP_PLACEHOLDER".
Proof. by_evaluation. Qed.

Lemma TEMP_PLACEHOLDER_no_dollar c :
  c ∈ TEMP_PLACEHOLDER -> c ∉ ESCAPED_DOLLAR.
Proof.
  revert c. apply Forall_forall. by_evaluation.
Qed.

Lemma backslash_not_in_marker : 92 ∉ TEMP_PLACEHOLDER.
Proof. by_evaluation. Qed.

Lemma dollar_not_in_marker : 36 ∉ TEMP_PLACEHOLDER.
Proof. by_evaluation. Qed.

(** The marking step leaves a dollar that follows no backslash alone. *)
Lemma mark_bare_dollar new a b :
  last a <> Some 92 ->
  replace ESCAPED_DOLLAR new (a ++ 36 :: b)
  = replace ESCAPED_DOLLAR new a ++ 36 :: replace ESCAPED_DOLLAR new b.
Proof.
  remember (length a) as n eqn:Hn. revert a Hn.
  induction n as [n IH] using lt_wf_ind. intros a -> Hlast.
  destruct a as [|e [|d a]].
  - rewrite app_nil_l, replace_unfold by done. by rewrite replace_nil.
  - assert (e <> 92) as He by (intros ->; by apply Hlast).
    rewrite (replace_unfold _ _ ([e] ++ _)), (replace_unfold _ _ [e]) by done.
    simpl. destruct (decide (92 = e)) as [Heq|_]; [by rewrite Heq in He|].
    simpl. f_equal.
  - assert (last a <> Some 92) as Hlast'.
    { destruct a as [|x a]; [done|]. by rewrite !last_cons_cons in Hlast. }
    rewrite (replace_unfold _ _ ((e :: d :: a) ++ _)),
      (replace_unfold _ _ (e :: d :: a)) by done.
    unfold ESCAPED_DOLLAR at 1 4. simpl starts_with.
    destruct (decide (92 = e)), (decide (36 = d)); simpl.
    + rewrite <- app_assoc. f_equal.
      by apply (IH (length a) ltac:(simpl; lia) a).
    + f_equal. apply (IH (length (d :: a)) ltac:(simpl; lia) (d :: a)); [done|].
      by rewrite last_cons_cons in Hlast.
    + f_equal. apply (IH (length (d :: a)) ltac:(simpl; lia) (d :: a)); [done|].
      by rewrite last_cons_cons in Hlast.
    + f_equal. apply (IH (length (d :: a)) ltac:(simpl; lia) (d :: a)); [done|].
      by rewrite last_cons_cons in Hlast.
Qed.

(** The escaping step works character by character. *)
Lemma escape_step_app a b :
  replace DOLLAR ESCAPED_DOLLAR (a ++ b)
  = replace DOLLAR ESCAPED_DOLLAR a ++ replace DOLLAR ESCAPED_DOLLAR b.
Proof. apply replace_char_app. Qed.

(** The restoring step rewrites the marker wherever it stands. *)
Lemma restore_marker a b :
  replace TEMP_PLACEHOLDER ESCAPED_DOLLAR (a ++ TEMP_PLACEHOLDER ++ b)
  = replace TEMP_PLACEHOLDER ESCAPED_DOLLAR a ++ ESCAPED_DOLLAR
    ++ replace TEMP_PLACEHOLDER ESCAPED_DOLLAR b.
Proof.
  rewrite TEMP_PLACEHOLDER_cons.
  apply replace_app_occurrence, TEMP_PLACEHOLDER_no_border.
Qed.

(** An escaped dollar, wherever it stands, comes out as it is. *)
Lemma escape_dollars_escaped a b :
  escape_dollars (a ++ ESCAPED_DOLLAR ++ b)
  = escape_dollars a ++ ESCAPED_DOLLAR ++ escape_dollars b.
Proof.
  unfold escape_dollars. cbv zeta.
  unfold ESCAPED_DOLLAR at 1.
  rewrite (replace_app_occurrence 92 [36]) by by_evaluation.
  rewrite !escape_step_app.
  assert (replace DOLLAR ESCAPED_DOLLAR TEMP_PLACEHOLDER = TEMP_PLACEHOLDER) as ->
    by by vm_compute.
  apply restore_marker.
Qed.

(** A dollar that follows no backslash comes out with one. *)
Lemma escape_dollars_bare a b :
  last a <> Some 92 ->
  escape_dollars (a ++ DOLLAR ++ b)
  = escape_dollars a ++ ESCAPED_DOLLAR ++ escape_dollars b.
Proof.
  intros Hlast. unfold escape_dollars. cbv zeta.
  change (a ++ DOLLAR ++ b) with (a ++ 36 :: b).
  rewrite mark_bare_dollar by done.
  change (?x ++ 36 :: ?y) with (x ++ DOLLAR ++ y).
  rewrite !escape_step_app.
  assert (replace DOLLAR ESCAPED_DOLLAR DOLLAR = [92; 36]) as -> by by vm_compute.
  change (?x ++ [92; 36] ++ ?y) with (x ++ 92 :: 36 :: y).
  rewrite replace_app_foreign by (done || apply backslash_not_in_marker).
  change (36 :: ?y) with ([] ++ 36 :: y) at 1.
  rewrite replace_app_foreign by (done || apply dollar_not_in_marker).
  by rewrite replace_nil.
Qed.

(** The pass puts no backslash at the end of a text that has none there. *)
Lemma escape_dollars_last a : last a <> Some 92 -> last (escape_dollars a) <> Some 92.
Proof.
  intros Ha. unfold escape_dollars. cbv zeta.
  destruct (last_replace ESCAPED_DOLLAR TEMP_PLACEHOLDER a) as [H1|H1]; [done..| |];
  destruct (last_replace DOLLAR ESCAPED_DOLLAR
              (replace ESCAPED_DOLLAR TEMP_PLACEHOLDER a)) as [H2|H2]; try done;
  destruct (last_replace TEMP_PLACEHOLDER ESCAPED_DOLLAR
              (replace DOLLAR ESCAPED_DOLLAR (replace ESCAPED_DOLLAR TEMP_PLACEHOLDER a)))
    as [H3|H3]; try done;
  rewrite H3, ?H2, ?H1; done.
Qed.

(** The marker itself, when the report contains it, comes out as an escaped
    dollar. *)
Lemma escape_dollars_marker a b :
  escape_dollars (a ++ TEMP_PLACEHOLDER ++ b)
  = escape_dollars a ++ ESCAPED_DOLLAR ++ escape_dollars b.
Proof.
  unfold escape_dollars. cbv zeta.
  rewrite replace_app_foreign_word;
    [|done|done|apply TEMP_PLACEHOLDER_no_dollar].
  rewrite !escape_step_app.
  assert (replace DOLLAR ESCAPED_DOLLAR TEMP_PLACEHOLDER = TEMP_PLACEHOLDER) as ->
    by by vm_compute.
  apply restore_marker.
Qed.

(** Text with neither a dollar nor the marker is left as it is. *)
Lemma escape_dollars_plain s :
  36 ∉ s -> ~ occurs TEMP_PLACEHOLDER s -> escape_dollars s = s.
Proof.
  intros Hd Hm. unfold escape_dollars. cbv zeta.
  rewrite (replace_absent ESCAPED_DOLLAR); [|done|].
  - rewrite (replace_absent DOLLAR); [|done|].
    + by apply replace_absent.
    + intros (x & y & ->). apply Hd. set_solver.
  - intros (x & y & ->). apply Hd. unfold ESCAPED_DOLLAR. set_solver.
Qed.
Lemma marked_dollar s : marked (36 :: s) = 92 :: 36 :: marked s.
Proof.
  unfold marked. change (36 :: s) with ([] ++ 36 :: s).
  rewrite mark_bare_dollar by done. by rewrite replace_nil.
Qed.

Lemma marked_escaped s : marked (92 :: 36 :: s) = TEMP_PLACEHOLDER ++ marked s.
Proof.
  unfold marked. rewrite (replace_unfold ESCAPED_DOLLAR) by done.
  change (starts_with ESCAPED_DOLLAR (92 :: 36 :: s)) with true.
  change (drop (length ESCAPED_DOLLAR) (92 :: 36 :: s)) with s.
  cbv iota. rewrite escape_step_app. f_equal.
Qed.

Lemma marked_other c s :
  c <> 36 -> ~ (c = 92 /\ head s = Some 36) -> marked (c :: s) = c :: marked s.
Proof.
  intros Hc Hcs. unfold marked. rewrite (replace_unfold ESCAPED_DOLLAR) by done.
  assert (starts_with ESCAPED_DOLLAR (c :: s) = false) as ->.
  { simpl. case_decide; [|done]. destruct s as [|d s]; [done|].
    simpl. case_decide; [|done]. exfalso. apply Hcs. by subst. }
  rewrite (replace_unfold DOLLAR) by done. simpl.
  by rewrite decide_False by done.
Qed.

(** A word without backslash, dollar and [T] that starts the marked report
    starts the report. *)
Lemma starts_with_marked u s :
  Forall (fun c => c ∉ [92; 36; 84]) u ->
  starts_with u (marked s) = true -> starts_with u s = true.
Proof.
  intros Hu. revert s. induction Hu as [|d u Hd Hu IH]; intros s; [done|].
  destruct s as [|c s]; [done|].
  destruct (decide (c = 36)) as [->|Hc].
  { rewrite marked_dollar. simpl. rewrite decide_False; [done|]. set_solver. }
  destruct (decide (c = 92 /\ head s = Some 36)) as [[-> Hs]|Hcs].
  { destruct s as [|e s]; [done|]. simpl in Hs. injection Hs as ->.
    rewrite marked_escaped. simpl. rewrite decide_False; [done|]. set_solver. }
  rewrite marked_other by done. simpl. case_decide; [apply IH|done].
Qed.

(** Any other character that does not start the marker is copied. *)
Lemma escape_dollars_other c s :
  c <> 36 -> ~ (c = 92 /\ head s = Some 36) ->
  starts_with TEMP_PLACEHOLDER (c :: s) = false ->
  escape_dollars (c :: s) = c :: escape_dollars s.
Proof.
  intros Hc Hcs Hsw. unfold escape_dollars. cbv zeta.
  fold (marked (c :: s)). fold (marked s). rewrite marked_other by done.
  rewrite replace_unfold by done.
  assert (starts_with TEMP_PLACEHOLDER (c :: marked s) = false) as ->; [|done].
  rewrite TEMP_PLACEHOLDER_cons, starts_with_cons in Hsw |- *.
  case_decide; [|done].
  destruct (starts_with (lit "EMP_PLACEHOLDER") (marked s)) eqn:Hm; [|done].
  rewrite <- Hsw. symmetry. apply starts_with_marked; [|done].
  by_evaluation.
Qed.

Lemma occurs_starts_with old s : starts_with old s = true -> occurs old s.
Proof. intros Hs. exists [], (drop (length old) s). by apply starts_with_take_drop. Qed.

Lemma occurs_cons old c s : occurs old s -> occurs old (c :: s).
Proof. intros (a & b & ->). by exists (c :: a), b. Qed.

Lemma escape_once_dollar s : escape_once (36 :: s) = 92 :: 36 :: escape_once s.
Proof. reflexivity. Qed.

Lemma escape_once_escaped s : escape_once (92 :: 36 :: s) = 92 :: 36 :: escape_once s.
Proof. reflexivity. Qed.

Lemma escape_once_other c s :
  c <> 36 -> ~ (c = 92 /\ head s = Some 36) -> escape_once (c :: s) = c :: escape_once s.
Proof.
  intros Hc Hcs. simpl. rewrite decide_False by done.
  destruct s as [|d s]; [done|]. rewrite decide_False; [done|].
  intros [-> ->]. by apply Hcs.
Qed.

(** On a report that does not contain the marker, the three replacements
    are the one-pass escaping. *)
Lemma escape_dollars_escape_once s :
  ~ occurs TEMP_PLACEHOLDER s -> escape_dollars s = escape_once s.
Proof.
  remember (length s) as n eqn:Hn. revert s Hn.
  induction n as [n IH] using lt_wf_ind. intros s -> Hno.
  destruct s as [|c s]; [done|].
  assert (~ occurs TEMP_PLACEHOLDER s) as Hno' by (intros ?; by apply Hno, occurs_cons).
  destruct (decide (c = 36)) as [->|Hc].
  { rewrite escape_once_dollar. change (36 :: s) with ([] ++ DOLLAR ++ s).
    rewrite escape_dollars_bare by done.
    change (escape_dollars []) with (@nil N). simpl. do 2 f_equal.
    by apply (IH (length s) ltac:(simpl; lia)). }
  destruct (decide (c = 92 /\ head s = Some 36)) as [[-> Hs]|Hcs].
  { destruct s as [|d s]; [done|]. injection Hs as ->.
    rewrite escape_once_escaped. change (92 :: 36 :: s) with ([] ++ ESCAPED_DOLLAR ++ s).
    rewrite escape_dollars_escaped.
    change (escape_dollars []) with (@nil N). simpl. do 2 f_equal.
    apply (IH (length s) ltac:(simpl; lia)); [done|].
    intros ?. by apply Hno', occurs_cons. }
  rewrite escape_once_other by done.
  rewrite escape_dollars_other; [|done|done|].
  - f_equal. by apply (IH (length s) ltac:(simpl; lia)).
  - destruct (starts_with TEMP_PLACEHOLDER _) eqn:Hsw; [|done].
    exfalso. by apply Hno, occurs_starts_with.
Qed.
End escaping.

(** ** The search aggregator *)

Section search_aggregator.
Context (R : Rendering).
Implicit Types (l : list pyval) (acc u : list (pyval * list (str * pyval))).

Lemma valid_results_create tavily_search qs n raw :
  valid_results (create_search_tasks tavily_search qs n raw)
  = omap (response_of tavily_search n raw) qs.
Proof.
  induction qs as [|q qs IH]; [done|]. simpl. unfold response_of at 1.
  destruct (raw_results_async _ _ _ _) as [e|[doc|e]]; simpl; by rewrite ?IH.
Qed.

Lemma run_search_queries_no_client e qs n raw :
  run_search_queries (Raise e) qs n raw = Return [].
Proof. reflexivity. Qed.

Lemma run_search_queries_client tavily_search qs n raw :
  run_search_queries (Return tavily_search) qs n raw
  = Return (omap (response_of tavily_search n raw) qs).
Proof.
  unfold run_search_queries. simpl. rewrite <- valid_results_create.
  by destruct (create_search_tasks _ _ _ _).
Qed.

Lemma run_search_queries_total wrapper qs n raw :
  exists docs, run_search_queries wrapper qs n raw = Return docs.
Proof.
  destruct wrapper as [tavily_search|e]; [|by eexists].
  rewrite run_search_queries_client. by eexists.
Qed.

(** *** Deduplication *)

Lemma key_in_unhashable k keys : hashable k = false -> key_in k keys = false.
Proof.
  intros Hk. unfold key_in. induction keys as [|k' keys IH]; [done|].
  simpl. rewrite IH. by destruct k, k'.
Qed.

Lemma key_in_app k keys keys' : key_in k (keys ++ keys') = key_in k keys || key_in k keys'.
Proof. apply existsb_app. Qed.

Lemma has_url_true source : has_url source = true <-> is_Some (source_url source).
Proof.
  unfold has_url. by destruct (source_url source).
Qed.

Lemma source_url_Some source url :
  source_url source = Some url -> exists d, source = PDict d /\ dict_get URL d = Some url.
Proof. destruct source; try done. intros Hd. by eexists. Qed.

Lemma deduplicate_skip source l acc :
  source_url source = None -> deduplicate (source :: l) acc = deduplicate l acc.
Proof. destruct source; try done. simpl. by intros ->. Qed.

Lemma deduplicate_url d url l acc :
  dict_get URL d = Some url ->
  deduplicate (PDict d :: l) acc
  = if hashable url then
      if key_in url (acc.*1) then deduplicate l acc
      else deduplicate l (acc ++ [(url, d)])
    else Raise (TypeError (lit "unhashable type")).
Proof. simpl. by intros ->. Qed.

(** The loop only appends to the dict it is given, and what it appends are
    the first occurrences among the sources it reads. *)
Lemma deduplicate_spec l acc u :
  deduplicate l acc = Return u ->
  exists u', u = acc ++ u' /\
    PDict <$> u'.*2
    = filter (fun source => has_url source = true) (drop_later_duplicates (acc.*1) l).
Proof.
  revert acc. induction l as [|source l IH]; intros acc Hd.
  { injection Hd as <-. exists []. by rewrite app_nil_r. }
  simpl drop_later_duplicates.
  destruct (source_url source) as [url|] eqn:Hurl.
  - destruct (source_url_Some _ _ Hurl) as (d & -> & Hd').
    rewrite (deduplicate_url _ _ _ _ Hd') in Hd.
    destruct (hashable url); [|done].
    destruct (key_in url (acc.*1)) eqn:Hin; [by apply IH in Hd|].
    apply IH in Hd as (u' & -> & Hu'). exists ((url, d) :: u'). split.
    + by rewrite <- app_assoc.
    + rewrite filter_cons_True by (unfold has_url; by rewrite Hurl).
      rewrite fmap_app in Hu'. rewrite !fmap_cons. f_equal. exact Hu'.
  - rewrite deduplicate_skip in Hd by done.
    rewrite filter_cons_False by (unfold has_url; by rewrite Hurl).
    by apply IH.
Qed.

(** Sources without a url are skipped. *)
Lemma deduplicate_filter l acc :
  deduplicate l acc = deduplicate (filter (fun source => has_url source = true) l) acc.
Proof.
  revert acc. induction l as [|source l IH]; intros acc; [done|].
  destruct (source_url source) as [url|] eqn:Hurl.
  - rewrite filter_cons_True by (unfold has_url; by rewrite Hurl).
    destruct (source_url_Some _ _ Hurl) as (d & -> & Hd').
    rewrite !(deduplicate_url _ _ _ _ Hd').
    destruct (hashable url); [|done].
    destruct (key_in url (acc.*1)); apply IH.
  - rewrite filter_cons_False by (unfold has_url; by rewrite Hurl).
    rewrite deduplicate_skip by done. apply IH.
Qed.

(** Dropping the later duplicates beforehand changes nothing. *)
Lemma deduplicate_drop_later l acc :
  deduplicate (drop_later_duplicates (acc.*1) l) acc = deduplicate l acc.
Proof.
  revert acc. induction l as [|source l IH]; intros acc; [done|].
  simpl drop_later_duplicates.
  destruct (source_url source) as [url|] eqn:Hurl.
  - destruct (source_url_Some _ _ Hurl) as (d & -> & Hd').
    rewrite (deduplicate_url _ _ l _ Hd').
    destruct (hashable url) eqn:Hh.
    + destruct (key_in url (acc.*1)) eqn:Hin; [apply IH|].
      rewrite (deduplicate_url _ _ _ _ Hd'), Hh, Hin.
      specialize (IH (acc ++ [(url, d)])). by rewrite fmap_app in IH.
    + rewrite key_in_unhashable by done.
      by rewrite (deduplicate_url _ _ _ _ Hd'), Hh.
  - rewrite !deduplicate_skip by done. apply IH.
Qed.

Lemma drop_later_duplicates_head source l :
  drop_later_duplicates [] (source :: l) <> [].
Proof. simpl. by destruct (source_url source). Qed.

(** *** The formatted text *)

Lemma format_no_encoding e resp max_tokens raw :
  format_search_query_results R (Raise e) resp max_tokens raw = Raise e.
Proof. reflexivity. Qed.

Lemma format_nonempty encoding resp source l max_tokens raw :
  flatten_sources resp = Return (source :: l) ->
  format_search_query_results R (Return encoding) resp max_tokens raw
  = unique_sources ← deduplicate (source :: l) [];
    formatted_text ←
      format_sources R encoding max_tokens raw (unique_sources.*2) CONTENT_HEADER;
    Return (strip formatted_text).
Proof. unfold format_search_query_results. simpl. by intros ->. Qed.

Lemma format_empty encoding resp max_tokens raw :
  flatten_sources resp = Return [] ->
  format_search_query_results R (Return encoding) resp max_tokens raw
  = Return NO_SEARCH_RESULTS.
Proof. unfold format_search_query_results. simpl. by intros ->. Qed.

Lemma deduplicate_no_url l acc :
  (forall source, source ∈ l -> source_url source = None) ->
  deduplicate l acc = Return acc.
Proof.
  induction l as [|source l IH]; intros Hl; [done|].
  rewrite deduplicate_skip by (apply Hl; left). apply IH.
  intros s Hs. apply Hl. by right.
Qed.

(** The loop returns when every url can be a key of the dict. *)
Lemma deduplicate_hashable l acc :
  (forall source url, source ∈ l -> source_url source = Some url -> hashable url = true) ->
  exists u, deduplicate l acc = Return u.
Proof.
  revert acc. induction l as [|source l IH]; intros acc Hh; [by eexists|].
  assert (forall source' url, source' ∈ l -> source_url source' = Some url ->
            hashable url = true) as Hh' by (intros ? ? ?; apply Hh; by right).
  destruct (source_url source) as [url|] eqn:Hurl.
  - destruct (source_url_Some _ _ Hurl) as (d & -> & Hd').
    rewrite (deduplicate_url _ _ _ _ Hd'), (Hh (PDict d) url) by (done || left).
    destruct (key_in url (acc.*1)); by apply IH.
  - rewrite deduplicate_skip by done. by apply IH.
Qed.

(** And only then. *)
Lemma deduplicate_Return_hashable l acc u :
  deduplicate l acc = Return u ->
  forall source url, source ∈ l -> source_url source = Some url -> hashable url = true.
Proof.
  revert acc. induction l as [|source l IH]; intros acc Hd s k Hs Hk.
  { by apply elem_of_nil in Hs. }
  destruct (source_url source) as [url|] eqn:Hurl.
  - destruct (source_url_Some _ _ Hurl) as (d & -> & Hd').
    rewrite (deduplicate_url _ _ _ _ Hd') in Hd.
    destruct (hashable url) eqn:Hh; [|done].
    apply elem_of_cons in Hs as [->|Hs]; [congruence|].
    destruct (key_in url (acc.*1)); by eapply IH.
  - rewrite deduplicate_skip in Hd by done.
    apply elem_of_cons in Hs as [->|Hs]; [congruence|]. by eapply IH.
Qed.

(** The text is the text so far followed by the blocks of the sources, one
    after the other. *)
Lemma format_sources_blocks encoding max_tokens raw sources formatted_text text :
  format_sources R encoding max_tokens raw sources formatted_text = Return text ->
  exists blocks,
    Forall2 (fun source block =>
               format_source R encoding max_tokens raw source = Return block)
      sources blocks
    /\ text = formatted_text ++ concat blocks.
Proof.
  revert formatted_text. induction sources as [|source sources IH]; intros formatted_text.
  { intros [= <-]. exists []. split; [constructor|by rewrite app_nil_r]. }
  simpl. destruct (format_source R encoding max_tokens raw source) as [block|e] eqn:Hb;
    [|done].
  simpl. intros (blocks & Hblocks & ->)%IH. exists (block :: blocks).
  split; [by constructor|]. simpl. by rewrite app_assoc.
Qed.

Lemma format_sources_Return encoding max_tokens raw sources formatted_text blocks :
  Forall2 (fun source block =>
             format_source R encoding max_tokens raw source = Return block)
    sources blocks ->
  format_sources R encoding max_tokens raw sources formatted_text
  = Return (formatted_text ++ concat blocks).
Proof.
  intros Hblocks. revert formatted_text.
  induction Hblocks as [|source block sources blocks Hb _ IH]; intros formatted_text.
  { simpl. by rewrite app_nil_r. }
  simpl. rewrite Hb. simpl. rewrite IH. by rewrite <- app_assoc.
Qed.

(** Without the raw content a block is written whatever the source holds. *)
Lemma format_sources_without_raw encoding max_tokens sources formatted_text :
  exists text,
    format_sources R encoding max_tokens false sources formatted_text = Return text.
Proof.
  revert formatted_text. induction sources as [|source sources IH]; intros formatted_text;
    [by eexists|].
  simpl. apply IH.
Qed.

(** The text returned for a list of sources that is not empty: the header,
    then the block of every first occurrence, in first-seen order. *)
Lemma format_first_occurrences tiktoken resp l max_tokens raw text :
  flatten_sources resp = Return l ->
  l <> [] ->
  format_search_query_results R tiktoken resp max_tokens raw = Return text ->
  exists encoding blocks,
    tiktoken = Return encoding /\
    Forall2 (fun source block =>
               exists d, source = PDict d
                 /\ format_source R encoding max_tokens raw d = Return block)
      (first_occurrences l) blocks /\
    text = strip (CONTENT_HEADER ++ concat blocks).
Proof.
  intros Hflat Hne. destruct tiktoken as [encoding|e]; [|done].
  destruct l as [|source l]; [done|].
  rewrite (format_nonempty _ _ _ _ _ _ Hflat).
  destruct (deduplicate (source :: l) []) as [u|e] eqn:Hd; [|done].
  cbn [mbind result_bind].
  destruct (format_sources R encoding max_tokens raw (u.*2) CONTENT_HEADER)
    as [formatted_text|e] eqn:Hf; [|done].
  cbn [mbind result_bind]. intros [= <-].
  apply format_sources_blocks in Hf as (blocks & Hblocks & ->).
  apply deduplicate_spec in Hd as (u' & -> & Hu'). rewrite app_nil_l in Hblocks.
  exists encoding, blocks. split; [done|]. split; [|done].
  unfold first_occurrences. change (([] : list (pyval * pydict)).*1) with (@nil pyval) in Hu'.
  rewrite <- Hu'. apply Forall2_fmap_l.
  eapply Forall2_impl; [exact Hblocks|]. intros d block Hb. by exists d.
Qed.

(** When the tokenizer is loaded and the raw content is not asked for, the
    function returns exactly when every url can be a key of the dict. *)
Lemma format_without_raw_Return encoding resp l max_tokens :
  flatten_sources resp = Return l ->
  (forall source url, source ∈ l -> source_url source = Some url -> hashable url = true) ->
  exists text,
    format_search_query_results R (Return encoding) resp max_tokens false = Return text.
Proof.
  intros Hflat Hhashable. destruct l as [|source l].
  - rewrite format_empty by done. by eexists.
  - rewrite (format_nonempty _ _ _ _ _ _ Hflat).
    destruct (deduplicate_hashable (source :: l) [] Hhashable) as [u ->].
    cbn [mbind result_bind].
    destruct (format_sources_without_raw encoding max_tokens (u.*2) CONTENT_HEADER)
      as [text ->].
    by eexists.
Qed.

(** Sources without a url do not change the text, as long as one source has
    a url. *)
Lemma format_filter_has_url tiktoken resp resp' l max_tokens raw :
  flatten_sources resp = Return l ->
  flatten_sources resp' = Return (filter (fun source => has_url source = true) l) ->
  filter (fun source => has_url source = true) l <> [] ->
  format_search_query_results R tiktoken resp max_tokens raw
  = format_search_query_results R tiktoken resp' max_tokens raw.
Proof.
  intros Hflat Hflat' Hne. destruct tiktoken as [encoding|e]; [|done].
  destruct l as [|source l]; [done|].
  destruct (filter _ (source :: l)) as [|source' l'] eqn:Hfilter; [done|].
  rewrite (format_nonempty _ _ _ _ _ _ Hflat), (format_nonempty _ _ _ _ _ _ Hflat').
  by rewrite <- Hfilter, <- deduplicate_filter.
Qed.

(** *** The first occurrences *)

(** The first source of a url stays in the batch. *)
Lemma drop_later_duplicates_first seen l1 source l2 url :
  source_url source = Some url ->
  key_in url seen = false ->
  (forall s k, s ∈ l1 -> source_url s = Some k -> key_eqb url k = false) ->
  source ∈ drop_later_duplicates seen (l1 ++ source :: l2).
Proof.
  intros Hurl. revert seen. induction l1 as [|s l1 IH]; intros seen Hseen Hl1; simpl.
  { rewrite Hurl, Hseen. left. }
  assert (forall s' k, s' ∈ l1 -> source_url s' = Some k -> key_eqb url k = false) as Hl1'
    by (intros s' k Hs'; apply Hl1; by right).
  destruct (source_url s) as [k|] eqn:Hk; [|right; by apply IH].
  destruct (key_in k seen); [by apply IH|]. right. apply IH; [|done].
  rewrite key_in_app, Hseen. simpl. rewrite (Hl1 s k); [done|left|done].
Qed.

(** No source that stays has a url seen before. *)
Lemma drop_later_duplicates_unseen seen l source url :
  source ∈ drop_later_duplicates seen l ->
  source_url source = Some url -> key_in url seen = false.
Proof.
  revert seen. induction l as [|s l IH]; intros seen Hin Hurl; simpl in Hin.
  { by apply elem_of_nil in Hin. }
  destruct (source_url s) as [k|] eqn:Hk.
  - destruct (key_in k seen) eqn:Hseen; [by apply (IH seen)|].
    apply elem_of_cons in Hin as [->|Hin].
    + rewrite Hk in Hurl. by injection Hurl as <-.
    + apply IH in Hin; [|done]. rewrite key_in_app in Hin.
      by apply orb_false_iff in Hin as [? _].
  - apply elem_of_cons in Hin as [->|Hin]; [congruence|by apply (IH seen)].
Qed.

(** The urls of the sources that stay are pairwise different. *)
Lemma drop_later_duplicates_distinct seen l :
  ForallOrdPairs different_urls (drop_later_duplicates seen l).
Proof.
  revert seen. induction l as [|s l IH]; intros seen; simpl; [constructor|].
  destruct (source_url s) as [k|] eqn:Hk.
  - destruct (key_in k seen); [apply IH|]. constructor; [|apply IH].
    apply List.Forall_forall. intros sj Hsj ki kj Hki Hkj.
    rewrite Hk in Hki. injection Hki as <-.
    apply list_elem_of_In in Hsj.
    pose proof (drop_later_duplicates_unseen _ _ _ _ Hsj Hkj) as Hunseen.
    rewrite key_in_app in Hunseen. apply orb_false_iff in Hunseen as [_ Hunseen].
    simpl in Hunseen. by apply orb_false_iff in Hunseen as [? _].
  - constructor; [|apply IH].
    apply List.Forall_forall. intros sj _ ki kj Hki. congruence.
Qed.

(** What stays was in the batch. *)
Lemma drop_later_duplicates_subset seen l source :
  source ∈ drop_later_duplicates seen l -> source ∈ l.
Proof.
  revert seen. induction l as [|s l IH]; intros seen; simpl; [done|].
  destruct (source_url s) as [k|].
  - destruct (key_in k seen).
    + intros Hin. right. by eapply IH.
    + intros [->|Hin]%elem_of_cons; [left|right; by eapply IH].
  - intros [->|Hin]%elem_of_cons; [left|right; by eapply IH].
Qed.

Lemma Return_inj {A} (a b : A) : Return a = Return b -> a = b.
Proof. congruence. Qed.

(** The block of a source: its title, its url and its short content, and,
    behind them, the raw content when it is asked for. *)
Lemma format_source_block encoding max_tokens raw d block :
  format_source R encoding max_tokens raw d = Return block ->
  exists raw_part,
    block
    = lit "Source "
        ++ fstr R (default (PStr (lit "Untitled")) (dict_get (lit "title") d))
        ++ lit ":" ++ NL ++ lit "===" ++ NL
      ++ lit "URL: " ++ fstr R (default PNone (dict_get (lit "url") d))
        ++ NL ++ lit "===" ++ NL
      ++ lit "Most relevant content from source: "
        ++ fstr R (default (PStr (lit "No content available"))
                     (dict_get (lit "content") d))
        ++ NL ++ lit "===" ++ NL
      ++ raw_part
    /\ (raw = false -> raw_part = []).
Proof.
  unfold format_source, dict_get_default, RULE, URL. cbv zeta.
  rewrite <- !app_assoc.
  destruct raw.
  - destruct (truthy _).
    + destruct (default _ (dict_get (lit "raw_content") d)) as [| | |text| |]; try done.
      intros <-%Return_inj.
      exists (lit "Raw Content: " ++ truncate_tokens encoding max_tokens text ++ NL ++ NL).
      split; [by rewrite <- !app_assoc|done].
    + intros <-%Return_inj. exists []. by rewrite !app_nil_r.
  - intros <-%Return_inj. exists []. by rewrite !app_nil_r.
Qed.

Lemma ForallOrdPairs_filter {A} (Rel : A -> A -> Prop) (P : A -> Prop)
    `{!forall x, Decision (P x)} (l : list A) :
  ForallOrdPairs Rel l -> ForallOrdPairs Rel (filter P l).
Proof.
  induction 1 as [|x l Hx Hl IH]; [constructor|].
  destruct (decide (P x)).
  - rewrite filter_cons_True by done. constructor; [|done].
    apply List.Forall_forall. intros y Hy. apply list_elem_of_In in Hy.
    apply list_elem_of_filter in Hy as [_ Hy].
    eapply List.Forall_forall in Hx; [done|]. by apply list_elem_of_In.
  - by rewrite filter_cons_False.
Qed.
End search_aggregator.

(** C6: without a search client [run_search_queries] returns the empty list
    instead of raising, and with one it returns, in the order of the queries,
    the responses of exactly the queries that succeeded: a query whose task
    cannot be built or whose task raises contributes nothing. *)
Theorem C6_run_search_queries_degrades
    (search_queries : list query_like) (num_results : Z) (include_raw_content : bool) :
  (forall e,
     run_search_queries (Raise e) search_queries num_results include_raw_content
     = Return []) /\
  (forall tavily_search,
     run_search_queries (Return tavily_search) search_queries num_results include_raw_content
     = Return (omap (response_of tavily_search num_results include_raw_content)
                 search_queries)).
Proof.
  split; intros; [apply run_search_queries_no_client|apply run_search_queries_client].
Qed.

(** C8, as the code has it: when the flattening of the response gives no
    source at all, [format_search_query_results] returns the literal
    "No search results found." provided the tokenizer can be loaded, which
    the function does before it looks at the response; when the tokenizer
    cannot be loaded, that exception leaves the function. *)
Theorem C8_no_sources_literal (R : Rendering) (search_response : pyval)
    (max_tokens : Z) (include_raw_content : bool) :
  flatten_sources search_response = Return [] ->
  (forall encoding,
     format_search_query_results R (Return encoding) search_response max_tokens
       include_raw_content
     = Return (lit "No search results found.")) /\
  (forall e,
     format_search_query_results R (Raise e) search_response max_tokens
       include_raw_content
     = Raise e).
Proof.
  intros Hflat. split; [intros encoding; by apply format_empty|].
  intros e. apply format_no_encoding.
Qed.

Lemma C8_no_sources_literal_witness :
  flatten_sources (PList [PDict [(RESULTS, PList [])]; PList []; PNone]) = Return [] /\
  format_search_query_results sample.rendering (Return sample.encoding)
    (PList [PDict [(RESULTS, PList [])]; PList []; PNone]) 2500%Z false
  = Return (lit "No search results found.").
Proof.
  split; [reflexivity|].
  apply (proj1 (C8_no_sources_literal sample.rendering
                  (PList [PDict [(RESULTS, PList [])]; PList []; PNone]) 2500%Z false
                  eq_refl)).
Defined.

(** The claim C8 as stated fails: the response has no source, the tokenizer
    cannot be loaded, and the function raises instead of returning the
    literal. *)
Lemma C8_tokenizer_failure_raises :
  flatten_sources (PList [PDict [(RESULTS, PList [])]; PList []; PNone]) = Return []
  /\ format_search_query_results sample.rendering (Raise (ExternalError 3))
       (PList [PDict [(RESULTS, PList [])]; PList []; PNone]) 2500%Z false
     = Raise (ExternalError 3)
  /\ format_search_query_results sample.rendering (Raise (ExternalError 3))
       (PList [PDict [(RESULTS, PList [])]; PList []; PNone]) 2500%Z false
     <> Return (lit "No search results found.").
Proof. split; [reflexivity|]. split; [reflexivity|discriminate]. Qed.

(** C9, as the code has it: when the flattened list is not empty but none of
    its sources is a dict with a ['url'] key, the result is the bare header
    "Content from web search:" and not the no-results literal, provided the
    tokenizer can be loaded; when it cannot, that exception leaves the
    function. In general a source without a url never appears in the text:
    the text of a batch is the text of its sources that have a url, and
    every block of the text is the block of a source of the batch that has
    one. *)
Theorem C9_sources_without_url_dropped (R : Rendering) :
  (forall encoding search_response sources_list max_tokens include_raw_content,
     flatten_sources search_response = Return sources_list ->
     sources_list <> [] ->
     (forall source, source ∈ sources_list -> source_url source = None) ->
     format_search_query_results R (Return encoding) search_response max_tokens
       include_raw_content
     = Return (lit "Content from web search:")) /\
  (forall e search_response max_tokens include_raw_content,
     format_search_query_results R (Raise e) search_response max_tokens
       include_raw_content
     = Raise e) /\
  (forall tiktoken response response' sources_list max_tokens include_raw_content,
     flatten_sources response = Return sources_list ->
     flatten_sources response'
     = Return (filter (fun source => has_url source = true) sources_list) ->
     filter (fun source => has_url source = true) sources_list <> [] ->
     format_search_query_results R tiktoken response max_tokens include_raw_content
     = format_search_query_results R tiktoken response' max_tokens include_raw_content) /\
  (forall tiktoken search_response sources_list max_tokens include_raw_content text,
     flatten_sources search_response = Return sources_list ->
     sources_list <> [] ->
     format_search_query_results R tiktoken search_response max_tokens
       include_raw_content
     = Return text ->
     exists encoding sources blocks,
       tiktoken = Return encoding /\
       (forall source, source ∈ sources ->
          source ∈ sources_list /\ has_url source = true) /\
       Forall2 (fun source block =>
                  exists d, source = PDict d
                    /\ format_source R encoding max_tokens include_raw_content d
                       = Return block)
         sources blocks /\
       text = strip (lit "Content from web search:" ++ NL ++ NL ++ concat blocks)).
Proof.
  split; [|split; [|split]].
  - intros encoding resp l max_tokens raw Hflat Hne Hno.
    destruct l as [|source l]; [done|].
    rewrite (format_nonempty R _ _ _ _ _ _ Hflat).
    rewrite deduplicate_no_url by done. by vm_compute.
  - intros e resp max_tokens raw. apply format_no_encoding.
  - intros tiktoken resp resp' l max_tokens raw. apply format_filter_has_url.
  - intros tiktoken resp l max_tokens raw text Hflat Hne Hformat.
    destruct (format_first_occurrences R _ _ _ _ _ _ Hflat Hne Hformat)
      as (encoding & blocks & -> & Hblocks & ->).
    exists encoding, (first_occurrences l), blocks.
    split; [done|]. split; [|split; [done|]].
    + intros source [Hurl Hin]%list_elem_of_filter. split; [|done].
      by eapply drop_later_duplicates_subset.
    + unfold CONTENT_HEADER. by rewrite <- app_assoc.
Qed.

Lemma C9_sources_without_url_dropped_witness :
  flatten_sources sample.batch_without_url
  = Return [PDict [(lit "title", PStr (lit "A"))]; PInt 3] /\
  format_search_query_results sample.rendering (Return sample.encoding)
    sample.batch_without_url 2500%Z false
  = Return (lit "Content from web search:").
Proof.
  split; [reflexivity|].
  apply (proj1 (C9_sources_without_url_dropped sample.rendering) sample.encoding
           sample.batch_without_url
           [PDict [(lit "title", PStr (lit "A"))]; PInt 3] 2500%Z false).
  - reflexivity.
  - discriminate.
  - intros source Hs. apply list_elem_of_In in Hs. simpl in Hs.
    destruct Hs as [<-|[<-|[]]]; reflexivity.
Defined.

(** The claim C9 as stated fails: none of the sources has a url, the
    tokenizer cannot be loaded, and the function raises instead of returning
    the bare header. *)
Lemma C9_tokenizer_failure_raises :
  flatten_sources sample.batch_without_url
  = Return [PDict [(lit "title", PStr (lit "A"))]; PInt 3]
  /\ format_search_query_results sample.rendering (Raise (ExternalError 3))
       sample.batch_without_url 2500%Z false
     = Raise (ExternalError 3)
  /\ format_search_query_results sample.rendering (Raise (ExternalError 3))
       sample.batch_without_url 2500%Z false
     <> Return (lit "Content from web search:").
Proof. split; [reflexivity|]. split; [reflexivity|discriminate]. Qed.

(** C7: the dict of unique sources holds, in first-seen order, the first
    source of each url and nothing else: the first source of a url is kept,
    no two kept sources have the same url. The text returned is the header
    followed by one block for each of these first occurrences, in that
    order, and nothing else; a block starts with the title, the url and the
    short content of its source; without the raw content the function
    returns whenever the tokenizer is loaded and the urls can be keys. Hence
    the text formatted from a batch is the text formatted from the batch
    with its later duplicates removed. *)
Theorem C7_dedup_first_occurrence_idempotent (R : Rendering) :
  (forall sources_list unique_sources,
     deduplicate sources_list [] = Return unique_sources ->
     PDict <$> unique_sources.*2 = first_occurrences sources_list) /\
  (forall l1 source l2 url,
     source_url source = Some url ->
     (forall s k, s ∈ l1 -> source_url s = Some k -> key_eqb url k = false) ->
     source ∈ first_occurrences (l1 ++ source :: l2)) /\
  (forall sources_list,
     ForallOrdPairs different_urls (first_occurrences sources_list)) /\
  (forall tiktoken response sources_list max_tokens include_raw_content text,
     flatten_sources response = Return sources_list ->
     sources_list <> [] ->
     format_search_query_results R tiktoken response max_tokens include_raw_content
     = Return text ->
     exists encoding blocks,
       tiktoken = Return encoding /\
       Forall2 (fun source block =>
                  exists d, source = PDict d
                    /\ format_source R encoding max_tokens include_raw_content d
                       = Return block)
         (first_occurrences sources_list) blocks /\
       text = strip (lit "Content from web search:" ++ NL ++ NL ++ concat blocks)) /\
  (forall encoding max_tokens include_raw_content d block,
     format_source R encoding max_tokens include_raw_content d = Return block ->
     exists raw_part,
       block
       = lit "Source "
           ++ fstr R (default (PStr (lit "Untitled")) (dict_get (lit "title") d))
           ++ lit ":" ++ NL ++ lit "===" ++ NL
         ++ lit "URL: " ++ fstr R (default PNone (dict_get (lit "url") d))
           ++ NL ++ lit "===" ++ NL
         ++ lit "Most relevant content from source: "
           ++ fstr R (default (PStr (lit "No content available"))
                        (dict_get (lit "content") d))
           ++ NL ++ lit "===" ++ NL
         ++ raw_part
       /\ (include_raw_content = false -> raw_part = [])) /\
  (forall encoding response sources_list max_tokens,
     flatten_sources response = Return sources_list ->
     (forall source url, source ∈ sources_list -> source_url source = Some url ->
        hashable url = true) ->
     exists text,
       format_search_query_results R (Return encoding) response max_tokens false
       = Return text) /\
  (forall tiktoken response response' sources_list max_tokens include_raw_content,
     flatten_sources response = Return sources_list ->
     flatten_sources response' = Return (drop_later_duplicates [] sources_list) ->
     format_search_query_results R tiktoken response max_tokens include_raw_content
     = format_search_query_results R tiktoken response' max_tokens include_raw_content).
Proof.
  split; [|split; [|split; [|split; [|split; [|split]]]]].
  - intros l u Hd. apply deduplicate_spec in Hd as (u' & -> & Hu'). by rewrite app_nil_l.
  - intros l1 source l2 url Hurl Hl1. apply list_elem_of_filter. split.
    + unfold has_url. by rewrite Hurl.
    + by eapply drop_later_duplicates_first.
  - intros l. apply ForallOrdPairs_filter, drop_later_duplicates_distinct.
  - intros tiktoken resp l max_tokens raw text Hflat Hne Hformat.
    destruct (format_first_occurrences R _ _ _ _ _ _ Hflat Hne Hformat)
      as (encoding & blocks & -> & Hblocks & ->).
    exists encoding, blocks. split; [done|]. split; [done|].
    unfold CONTENT_HEADER. by rewrite <- app_assoc.
  - intros encoding max_tokens raw d block. apply format_source_block.
  - intros encoding resp l max_tokens. apply format_without_raw_Return.
  - intros tiktoken resp resp' l max_tokens raw Hflat Hflat'.
    destruct tiktoken as [encoding|e]; [|done].
    destruct l as [|source l].
    + by rewrite !format_empty.
    + destruct (drop_later_duplicates [] (source :: l)) as [|source' l'] eqn:Hdrop.
      { by apply drop_later_duplicates_head in Hdrop. }
      rewrite (format_nonempty R _ _ _ _ _ _ Hflat), (format_nonempty R _ _ _ _ _ _ Hflat').
      rewrite <- Hdrop. by rewrite (deduplicate_drop_later _ []).
Qed.

Lemma C7_dedup_first_occurrence_idempotent_witness :
  flatten_sources sample.batch
  = Return [sample.source "A" "http://a"; sample.source "B" "http://b";
            sample.source "A2" "http://a"; PStr (lit "stray")] /\
  flatten_sources sample.batch_deduplicated
  = Return (drop_later_duplicates []
              [sample.source "A" "http://a"; sample.source "B" "http://b";
               sample.source "A2" "http://a"; PStr (lit "stray")]) /\
  format_search_query_results sample.rendering (Return sample.encoding)
    sample.batch_deduplicated 2500%Z false
  = Return (lit "Content from web search:" ++ NL ++ NL
            ++ lit "Source A:" ++ NL ++ lit "===" ++ NL
            ++ lit "URL: http://a" ++ NL ++ lit "===" ++ NL
            ++ lit "Most relevant content from source: text" ++ NL ++ lit "===" ++ NL
            ++ lit "Source B:" ++ NL ++ lit "===" ++ NL
            ++ lit "URL: http://b" ++ NL ++ lit "===" ++ NL
            ++ lit "Most relevant content from source: text" ++ NL ++ lit "===") /\
  format_search_query_results sample.rendering (Return sample.encoding)
    sample.batch 2500%Z false
  = Return (lit "Content from web search:" ++ NL ++ NL
            ++ lit "Source A:" ++ NL ++ lit "===" ++ NL
            ++ lit "URL: http://a" ++ NL ++ lit "===" ++ NL
            ++ lit "Most relevant content from source: text" ++ NL ++ lit "===" ++ NL
            ++ lit "Source B:" ++ NL ++ lit "===" ++ NL
            ++ lit "URL: http://b" ++ NL ++ lit "===" ++ NL
            ++ lit "Most relevant content from source: text" ++ NL ++ lit "===").
Proof.
  split; [reflexivity|]. split; [reflexivity|]. split; [by vm_compute|].
  rewrite (proj2 (proj2 (proj2 (proj2 (proj2 (proj2
             (C7_dedup_first_occurrence_idempotent sample.rendering))))))
             (Return sample.encoding) sample.batch sample.batch_deduplicated
             [sample.source "A" "http://a"; sample.source "B" "http://b";
              sample.source "A2" "http://a"; PStr (lit "stray")] 2500%Z false
             eq_refl eq_refl).
  by vm_compute.
Defined.

(** ** The compile step *)

Section compile.
Implicit Types (l completed planned : list ReportSection) (m : gmap (list N) (list N)).

Lemma content_by_name_snoc l s :
  content_by_name (l ++ [s]) = <[name s := content s]> (content_by_name l).
Proof. unfold content_by_name. by rewrite foldl_snoc. Qed.

(** The keys of the dict are the names of the completed sections. *)
Lemma content_by_name_None l n :
  content_by_name l !! n = None <-> n ∉ name <$> l.
Proof.
  induction l as [|s l IH] using rev_ind.
  - split; [intros _; apply not_elem_of_nil|done].
  - rewrite content_by_name_snoc, fmap_app. split.
    + intros [Hl Hs]%lookup_insert_None. apply not_elem_of_app. split; [by apply IH|].
      simpl. rewrite list_elem_of_singleton. congruence.
    + intros [Hl Hs]%not_elem_of_app. apply lookup_insert_None. split; [by apply IH|].
      intros Heq. apply Hs. simpl. rewrite Heq. left.
Qed.


(** The assignment loop stops at the first planned name that is not a key. *)
Lemma assign_contents_missing m planned :
  (exists s, s ∈ planned /\ m !! name s = None) ->
  exists s, s ∈ planned /\ m !! name s = None
            /\ assign_contents m planned = Raise (KeyError (name s)).
Proof.
  induction planned as [|x planned IH]; intros (s & Hs & Hm).
  { by apply elem_of_nil in Hs. }
  simpl. destruct (m !! name x) as [c|] eqn:Hx.
  - apply elem_of_cons in Hs as [->|Hs]; [congruence|].
    destruct IH as (s' & Hs' & Hm' & ->); [by exists s|].
    exists s'. split; [by right|done].
  - exists x. split; [left|done].
Qed.

(** And it raises nothing else. *)
Lemma assign_contents_Raise m planned e :
  assign_contents m planned = Raise e ->
  exists s, s ∈ planned /\ m !! name s = None /\ e = KeyError (name s).
Proof.
  induction planned as [|x planned IH]; [done|]. simpl.
  destruct (m !! name x) as [c|] eqn:Hx.
  - destruct (assign_contents m planned) as [r|e'] eqn:Ha; [done|].
    simpl. intros [= <-]. destruct (IH eq_refl) as (s & Hs & Hm & ->).
    exists s. split; [by right|done].
  - intros [= <-]. exists x. split; [left|done].
Qed.




(** The report is the escaped join of the contents assigned. *)
Lemma compile_final_report_Return st st' :
  compile_final_report st = Return st' ->
  assign_contents (content_by_name (completed_sections st)) (sections st)
  = Return (sections st') /\
  final_report st'
  = Some (escape_dollars (join (NL ++ NL) (content <$> sections st'))).
Proof.
  unfold compile_final_report.
  destruct (assign_contents _ _) as [assigned|e]; [|done].
  simpl. by intros [= <-].
Qed.
End compile.

(** C1, as far as it holds: when the name of some planned section is not among
    the names of the completed sections, the compile step raises the
    missing-section error, a [KeyError] on a planned name that is missing, and
    returns no report; and that is the only error the compile step raises. *)
Theorem C1_compile_missing_section (state : ReportState) :
  ((exists s, s ∈ sections state /\ name s ∉ (name <$> completed_sections state)) ->
   exists s, s ∈ sections state /\ (name s ∉ (name <$> completed_sections state))
             /\ compile_final_report state = Raise (KeyError (name s))) /\
  (forall e, compile_final_report state = Raise e ->
   exists s, s ∈ sections state /\ (name s ∉ (name <$> completed_sections state))
             /\ e = KeyError (name s)).
Proof.
  split.
  - intros (s & Hs & Hmiss). apply content_by_name_None in Hmiss.
    destruct (assign_contents_missing _ _ (ex_intro _ s (conj Hs Hmiss)))
      as (s' & Hs' & Hm' & Ha).
    exists s'. split; [done|]. split; [by apply content_by_name_None|].
    unfold compile_final_report. by rewrite Ha.
  - intros e He. unfold compile_final_report in He.
    destruct (assign_contents _ _) as [assigned|e'] eqn:Ha; [done|].
    simpl in He. injection He as <-.
    apply assign_contents_Raise in Ha as (s & Hs & Hm & ->).
    exists s. split; [done|]. split; [by apply content_by_name_None|done].
Qed.

Lemma C1_compile_missing_section_witness :
  (exists s, s ∈ sections sample.state_abc_lost
             /\ (name s ∉ (name <$> completed_sections sample.state_abc_lost))) /\
  (exists s, s ∈ sections sample.state_abc_lost
             /\ (name s ∉ (name <$> completed_sections sample.state_abc_lost))
             /\ compile_final_report sample.state_abc_lost = Raise (KeyError (name s))).
Proof.
  assert (exists s, s ∈ sections sample.state_abc_lost
                    /\ (name s ∉ (name <$> completed_sections sample.state_abc_lost)))
    as Hlost.
  { exists (sample.planned "B" "second" true). split; by_evaluation. }
  split; [exact Hlost|].
  exact (proj1 (C1_compile_missing_section sample.state_abc_lost) Hlost).
Defined.

(** The writer of section B lost its result: the compile step names it. *)
Example compile_final_report_lost_section :
  compile_final_report sample.state_abc_lost = Raise (KeyError (lit "B")).
Proof. by vm_compute. Qed.



(** ** The stages and the graph *)

Section workflow.
Context (P : Prompts) (R : Rendering).

Lemma generate_report_plan_total chat_openai wrapper tiktoken topic :
  exists planned, generate_report_plan P R chat_openai wrapper tiktoken topic = Return planned.
Proof.
  unfold generate_report_plan. destruct (get_llm chat_openai) as [llm|e]; [|by eexists].
  destruct (plan_sections P R llm wrapper tiktoken topic); by eexists.
Qed.

Lemma generate_report_plan_no_llm chat_openai wrapper tiktoken topic :
  raises (get_llm chat_openai) ->
  generate_report_plan P R chat_openai wrapper tiktoken topic = Return [].
Proof. intros [e He]. unfold generate_report_plan. by rewrite He. Qed.

Lemma generate_report_plan_raises llm wrapper tiktoken topic :
  raises (plan_sections P R llm wrapper tiktoken topic) ->
  generate_report_plan P R (Return llm) wrapper tiktoken topic = Return [].
Proof. intros [e He]. unfold generate_report_plan. simpl. by rewrite He. Qed.

(** The planning block raises when the query generation does, and when the
    section generation does. *)
Lemma plan_sections_queries_raise llm wrapper tiktoken topic :
  (forall messages, raises (invoke_Queries llm messages)) ->
  raises (plan_sections P R llm wrapper tiktoken topic).
Proof.
  intros Hq. unfold plan_sections. cbv zeta.
  destruct (Hq [SystemMessage
                  (REPORT_PLAN_QUERY_GENERATOR_PROMPT P topic (DEFAULT_REPORT_STRUCTURE P) 4);
                HumanMessage (lit "Generate search queries that will help with planning the sections of the report.")])
    as [e ->].
  by exists e.
Qed.

Lemma bind_raises {A B} (r : result A) (f : A -> result B) :
  (forall a, raises (f a)) -> raises (r ≫= f).
Proof. intros Hf. destruct r as [a|e]; [apply Hf|by exists e]. Qed.

Lemma plan_sections_sections_raise llm wrapper tiktoken topic :
  (forall messages, raises (invoke_Sections llm messages)) ->
  raises (plan_sections P R llm wrapper tiktoken topic).
Proof.
  intros Hs. unfold plan_sections. cbv zeta.
  apply bind_raises. intros results.
  apply bind_raises. intros search_docs.
  apply bind_raises. intros search_context.
  destruct (Hs [SystemMessage
                  (REPORT_PLAN_SECTION_GENERATOR_PROMPT P topic
                     (DEFAULT_REPORT_STRUCTURE P) search_context);
                HumanMessage (lit "Generate the sections of the report. Your response must include a 'sections' field containing a list of sections. Each section must have: name, description, plan, research, and content fields.")])
    as [e ->].
  by exists e.
Qed.

(** So does a tokenizer that cannot be loaded when the planning search, which
    found something, is formatted. *)
Lemma generate_report_plan_no_tokenizer llm wrapper e topic queries doc docs :
  invoke_Queries llm
    [SystemMessage
       (REPORT_PLAN_QUERY_GENERATOR_PROMPT P topic (DEFAULT_REPORT_STRUCTURE P) 4);
     HumanMessage (lit "Generate search queries that will help with planning the sections of the report.")]
  = Return queries ->
  run_search_queries wrapper (map query_text queries) 4 false = Return (doc :: docs) ->
  generate_report_plan P R (Return llm) wrapper (Raise e) topic = Return [].
Proof.
  intros Hqueries Hdocs. apply generate_report_plan_raises. exists e.
  unfold plan_sections. cbv zeta. rewrite Hqueries. cbn [mbind result_bind].
  by rewrite Hdocs.
Qed.

(** With an empty plan nothing is sent, the run ends without a report, and
    the caller is left with the empty string. *)
Lemma reporter_agent_empty_plan W topic :
  generate_report_plan P R (ChatOpenAI W AtPlan) (TavilySearchAPIWrapper W AtPlan)
    (encoding_for_model W AtPlan) topic
  = Return [] ->
  reporter_agent P R W topic = Return None.
Proof. intros Hplan. unfold reporter_agent. by rewrite Hplan. Qed.

Lemma run_agent_empty_plan W topic :
  generate_report_plan P R (ChatOpenAI W AtPlan) (TavilySearchAPIWrapper W AtPlan)
    (encoding_for_model W AtPlan) topic
  = Return [] ->
  run_agent P R W true true topic = Some [].
Proof. intros Hplan. unfold run_agent. simpl. by rewrite reporter_agent_empty_plan. Qed.
End workflow.

(** C5: [generate_report_plan] never raises; when the chat model cannot be
    constructed, or the query generation, the planning search and formatting,
    or the section generation raises, it returns the empty list of sections;
    the run then ends without raising and without a report, and the caller
    ([run_agent]) returns the empty string. *)
Theorem C5_planning_failure_degrades (P : Prompts) (R : Rendering) :
  (forall chat_openai wrapper tiktoken topic,
     exists planned,
       generate_report_plan P R chat_openai wrapper tiktoken topic = Return planned) /\
  (forall chat_openai wrapper tiktoken topic,
     raises (get_llm chat_openai) ->
     generate_report_plan P R chat_openai wrapper tiktoken topic = Return []) /\
  (forall llm wrapper tiktoken topic,
     raises (plan_sections P R llm wrapper tiktoken topic)
     \/ (forall messages, raises (invoke_Queries llm messages))
     \/ (forall messages, raises (invoke_Sections llm messages)) ->
     generate_report_plan P R (Return llm) wrapper tiktoken topic = Return []) /\
  (forall W topic,
     generate_report_plan P R (ChatOpenAI W AtPlan) (TavilySearchAPIWrapper W AtPlan)
       (encoding_for_model W AtPlan) topic
     = Return [] ->
     reporter_agent P R W topic = Return None
     /\ run_agent P R W true true topic = Some []).
Proof.
  split; [|split; [|split]].
  - apply generate_report_plan_total.
  - apply generate_report_plan_no_llm.
  - intros llm wrapper tiktoken topic [Hr|[Hq|Hs]]; apply generate_report_plan_raises.
    + done.
    + by apply plan_sections_queries_raise.
    + by apply plan_sections_sections_raise.
  - intros W topic Hplan. split.
    + by apply reporter_agent_empty_plan.
    + by apply run_agent_empty_plan.
Qed.

Lemma C5_planning_failure_degrades_witness :
  raises (get_llm (ChatOpenAI sample.world_no_planner AtPlan)) /\
  reporter_agent sample.prompts sample.rendering sample.world_no_planner sample.topic_ev
  = Return None /\
  run_agent sample.prompts sample.rendering sample.world_no_planner true true sample.topic_ev
  = Some [].
Proof.
  assert (raises (get_llm (ChatOpenAI sample.world_no_planner AtPlan))) as Hllm
    by (eexists; reflexivity).
  split; [done|].
  apply (proj2 (proj2 (proj2 (C5_planning_failure_degrades sample.prompts sample.rendering)))
           sample.world_no_planner sample.topic_ev).
  apply (proj1 (proj2 (C5_planning_failure_degrades sample.prompts sample.rendering))
           (ChatOpenAI sample.world_no_planner AtPlan)
           (TavilySearchAPIWrapper sample.world_no_planner AtPlan)
           (encoding_for_model sample.world_no_planner AtPlan) sample.topic_ev Hllm).
Defined.

(** C2, where the code departs from it: in [write_final_sections] the handler
    around [get_llm()] substitutes nothing, and the stage raises
    [UnboundLocalError] on the unbound [llm]; and an exception of the chat
    model's [invoke] leaves [generate_queries], [write_section] and
    [write_final_sections] as it is. Only the failure to construct the chat
    model is caught, by [generate_queries] (empty list of queries) and by
    [write_section] (the error placeholder as content). *)
Theorem C2_stage_failures (P : Prompts) (section : ReportSection) (context : str) :
  (forall e, write_final_sections P (Raise e) section context
             = Raise (UnboundLocalError (lit "llm"))) /\
  (forall llm e, (forall messages, invoke llm messages = Raise e) ->
     write_final_sections P (Return llm) section context = Raise e
     /\ write_section P (Return llm) section context = Raise e) /\
  (forall llm e, (forall messages, invoke_Queries llm messages = Raise e) ->
     generate_queries P (Return llm) section = Raise e) /\
  (forall e, generate_queries P (Raise e) section = Return []) /\
  (forall e, write_section P (Raise e) section context
             = Return [set_content API_ERROR_CONTENT section]).
Proof.
  split; [done|]. split; [|split; [|done]].
  - intros llm e He. unfold write_final_sections, write_section. simpl.
    by rewrite !He.
  - intros llm e He. unfold generate_queries. simpl. by rewrite He.
Qed.

Lemma C2_stage_failures_witness :
  (forall messages, invoke sample.failing_writer messages = Raise (ExternalError 1)) /\
  write_final_sections sample.prompts (Return sample.failing_writer)
    (sample.planned "Conclusion" "summary" false) []
  = Raise (ExternalError 1) /\
  write_section sample.prompts (Return sample.failing_writer)
    (sample.planned "Conclusion" "summary" false) []
  = Raise (ExternalError 1).
Proof.
  split; [reflexivity|].
  apply (proj1 (proj2 (C2_stage_failures sample.prompts
                         (sample.planned "Conclusion" "summary" false) []))
           sample.failing_writer (ExternalError 1)).
  reflexivity.
Defined.

(** The same failure seen from the caller: the chat model cannot be
    constructed when the final sections are written, and the run raises. *)
Example reporter_agent_unbound_llm :
  reporter_agent sample.prompts sample.rendering sample.world_no_final_writer sample.topic_ev
  = Raise (UnboundLocalError (lit "llm")).
Proof. by vm_compute. Qed.

(** The claim C1 as stated fails: in this run the plan has research sections,
    the chat model raises while one of them is written, and that exception,
    which is not the missing-section error, leaves the workflow. *)
Lemma C1_other_error_propagates :
  reporter_agent sample.prompts sample.rendering sample.world_writer_fails sample.topic_ev
  = Raise (ExternalError 1)
  /\ forall key, ExternalError 1 <> KeyError key.
Proof. split; [by vm_compute|done]. Qed.

(** The end-to-end scenario of the specification: four planned sections, two
    of them researched; the report is the four contents in planned order,
    every dollar escaped, though the branches arrived in reverse order. *)
Example reporter_agent_scenario :
  reporter_agent sample.prompts sample.rendering sample.world sample.topic_ev
  = Return (Some (lit "Closing Introduction: about \$5" ++ NL ++ NL
                  ++ lit "On Battery Supply Chains: about \$5" ++ NL ++ NL
                  ++ lit "On Charging Infrastructure: about \$5" ++ NL ++ NL
                  ++ lit "Closing Conclusion: about \$5")).
Proof. by vm_compute. Qed.

(** *** The compile step inside a run *)

Section run.
Context (P : Prompts) (R : Rendering) (W : World).

Lemma write_section_names chat_openai s source_str r :
  write_section P chat_openai s source_str = Return r -> name <$> r = [name s].
Proof.
  unfold write_section. destruct (get_llm chat_openai) as [llm|e]; [|by intros [= <-]].
  cbv zeta. destruct (invoke llm _); [|done]. by intros [= <-].
Qed.

Lemma write_final_sections_names chat_openai s context r :
  write_final_sections P chat_openai s context = Return r -> name <$> r = [name s].
Proof.
  unfold write_final_sections. cbv zeta.
  destruct (get_llm chat_openai) as [llm|e]; [|done].
  destruct (invoke llm _); [|done]. by intros [= <-].
Qed.

Lemma section_builder_names s r :
  section_builder P R W s = Return r -> name <$> r = [name s].
Proof.
  unfold section_builder.
  destruct (generate_queries _ _ _) as [search_queries|e]; [|done]. simpl.
  destruct (search_web _ _ _) as [source_str|e]; [|done]. simpl.
  apply write_section_names.
Qed.

Lemma raised_Return {A} (a : A) outcomes : raised (Return a :: outcomes) = raised outcomes.
Proof. reflexivity. Qed.

Lemma raised_Raise {A} e (outcomes : list (result A)) :
  raised (Raise e :: outcomes) = e :: raised outcomes.
Proof. reflexivity. Qed.

Lemma returned_Return {A} (a : A) outcomes :
  returned (Return a :: outcomes) = a :: returned outcomes.
Proof. reflexivity. Qed.

(** A fan-out returns exactly when all its branches return, and then it
    returns their lists, appended in the order of the sends. *)
Lemma fan_out_Return earliest branch sends completed :
  fan_out earliest branch sends = Return completed ->
  exists rs, Forall2 (fun s r => branch s = Return r) sends rs /\ completed = concat rs.
Proof.
  unfold fan_out. cbv zeta.
  destruct (raised (map branch sends)) as [|e es] eqn:Hraised; [|done].
  intros [= <-]. exists (returned (map branch sends)). split; [|done].
  induction sends as [|s sends IH]; [constructor|].
  cbn [map] in *. destruct (branch s) as [r|e] eqn:Hr.
  - rewrite raised_Return in Hraised. rewrite returned_Return.
    constructor; [done|by apply IH].
  - by rewrite raised_Raise in Hraised.
Qed.

Lemma fan_out_all_Return earliest branch sends rs :
  Forall2 (fun s r => branch s = Return r) sends rs ->
  fan_out earliest branch sends = Return (concat rs).
Proof.
  intros Hrs. unfold fan_out. cbv zeta.
  assert (raised (map branch sends) = [] /\ returned (map branch sends) = rs) as [-> ->];
    [|done].
  induction Hrs as [|s r sends rs Hr _ [IH1 IH2]]; [done|].
  cbn [map]. by rewrite Hr, raised_Return, returned_Return, IH1, IH2.
Qed.

(** The exception of a fan-out is the exception of one of its branches. *)
Lemma fan_out_Raise earliest branch sends e :
  fan_out earliest branch sends = Raise e ->
  exists s, s ∈ sends /\ branch s = Raise e.
Proof.
  unfold fan_out. cbv zeta.
  destruct (raised (map branch sends)) as [|e0 es] eqn:Hraised; [done|].
  intros [= <-].
  assert (default e0 ((e0 :: es) !! earliest (e0 :: es)) ∈ raised (map branch sends))
    as Hin.
  { rewrite Hraised. destruct ((e0 :: es) !! earliest (e0 :: es)) as [e1|] eqn:Hl; simpl.
    - by eapply list_elem_of_lookup_2.
    - left. }
  apply list_elem_of_omap in Hin as (outcome & Hout & Hmatch).
  apply list_elem_of_fmap in Hout as (s & -> & Hs).
  exists s. split; [done|]. destruct (branch s) as [r|e1]; [done|].
  by injection Hmatch as ->.
Qed.

(** One branch that raises is enough for the fan-out to raise. *)
Lemma fan_out_raises earliest branch sends s :
  s ∈ sends -> raises (branch s) -> raises (fan_out earliest branch sends).
Proof.
  intros Hs [e He]. unfold fan_out. cbv zeta.
  destruct (raised (map branch sends)) as [|e0 es] eqn:Hraised; [|by eexists].
  assert (e ∈ raised (map branch sends)) as Hin.
  { apply list_elem_of_omap. exists (Raise e). split; [|done].
    apply list_elem_of_fmap. by exists s. }
  rewrite Hraised in Hin. by apply elem_of_nil in Hin.
Qed.

(** A fan-out returns one section for each section sent, under its name. *)
Lemma fan_out_names earliest branch sends completed :
  (forall s r, branch s = Return r -> name <$> r = [name s]) ->
  fan_out earliest branch sends = Return completed ->
  name <$> completed = name <$> sends.
Proof.
  intros Hbranch (rs & Hrs & ->)%fan_out_Return.
  induction Hrs as [|s r sends rs Hr _ IH]; [done|].
  simpl. by rewrite fmap_app, (Hbranch _ _ Hr), IH.
Qed.

#[local] Arguments fan_out : simpl never.

(** When the two fan-outs have returned, every planned name is a key of the
    dict of the compile step, which therefore returns. *)
Lemma compile_after_fan_outs topic planned context researched finals :
  (forall l, arrival W l ≡ₚ l) ->
  fan_out (earliest W) (section_builder P R W) (filter (fun s => research s = true) planned)
  = Return researched ->
  fan_out (earliest W) (fun s => write_final_sections P (ChatOpenAI W (AtFinal s)) s context)
    (filter (fun s => research s = false) planned)
  = Return finals ->
  exists state',
    compile_final_report
      {| topic := topic; sections := planned;
         completed_sections := arrival W researched ++ arrival W finals;
         report_sections_from_research := context; final_report := None |}
    = Return state'.
Proof.
  intros Harrival Hresearched Hfinals.
  apply fan_out_names in Hresearched; [|apply section_builder_names].
  apply fan_out_names in Hfinals;
    [|intros s r; apply write_final_sections_names].
  destruct (compile_final_report _) as [state'|e] eqn:Hcompile; [by eexists|].
  unfold compile_final_report in Hcompile. simpl in Hcompile.
  destruct (assign_contents _ _) as [assigned|e'] eqn:Hassign; [done|].
  apply assign_contents_Raise in Hassign as (s & Hs & Hmiss & _).
  apply content_by_name_None in Hmiss. exfalso. apply Hmiss.
  rewrite fmap_app, !Harrival, Hresearched, Hfinals.
  apply elem_of_app. destruct (research s) eqn:Hr; [left|right];
    apply list_elem_of_fmap; exists s; (split; [done|]);
    apply list_elem_of_filter; by split.
Qed.

(** So an exception that leaves the workflow is the exception of a branch of
    one of the two fan-outs, never the missing-section error of the compile
    step. *)
Lemma reporter_agent_Raise topic e :
  (forall l, arrival W l ≡ₚ l) ->
  reporter_agent P R W topic = Raise e ->
  exists planned context,
    fan_out (earliest W) (section_builder P R W)
      (filter (fun s => research s = true) planned) = Raise e
    \/ fan_out (earliest W)
         (fun s => write_final_sections P (ChatOpenAI W (AtFinal s)) s context)
         (filter (fun s => research s = false) planned) = Raise e.
Proof.
  intros Harrival. unfold reporter_agent.
  destruct (generate_report_plan_total P R (ChatOpenAI W AtPlan)
              (TavilySearchAPIWrapper W AtPlan) (encoding_for_model W AtPlan) topic)
    as [planned ->].
  simpl. unfold parallelize_section_writing, parallelize_final_section_writing. simpl.
  destruct (filter (fun s => research s = true) planned) as [|s1 sends1] eqn:Hsends1; [done|].
  destruct (fan_out (earliest W) (section_builder P R W) (s1 :: sends1))
    as [researched|e1] eqn:Hfan1.
  - simpl.
    destruct (filter (fun s => research s = false) planned) as [|s2 sends2] eqn:Hsends2;
      [done|].
    destruct (fan_out _ _ (s2 :: sends2)) as [finals|e2] eqn:Hfan2.
    + simpl. rewrite <- Hsends1 in Hfan1. rewrite <- Hsends2 in Hfan2.
      destruct (compile_after_fan_outs topic planned _ researched finals
                  Harrival Hfan1 Hfan2) as [state' Hcompile].
      unfold format_completed_sections in *. simpl in *.
      by rewrite Hcompile.
    + simpl. intros [= <-]. exists planned. eexists. right.
      rewrite Hsends2. exact Hfan2.
  - simpl. intros [= <-]. exists planned, []. left. by rewrite Hsends1.
Qed.
End run.

(** With one name used twice in the plan the dict keeps the content appended
    last, and the report depends on the order of arrival. *)
Example compile_final_report_twins :
  final_report <$>
    (match compile_final_report (sample.state_twins [sample.twin_one; sample.twin_two]) with
     | Return state' => Some state' | Raise _ => None end)
  = Some (Some (lit "two" ++ NL ++ NL ++ lit "two")) /\
  final_report <$>
    (match compile_final_report (sample.state_twins [sample.twin_two; sample.twin_one]) with
     | Return state' => Some state' | Raise _ => None end)
  = Some (Some (lit "one" ++ NL ++ NL ++ lit "one")).
Proof. split; by vm_compute. Qed.

(** ** The claims on the escaping pass *)

(** C4: the escaping pass gives every dollar exactly one escape: an escaped
    dollar, wherever it stands in the report, comes out as it is, and a dollar
    that follows no backslash comes out with one backslash, the text on its two
    sides being escaped on its own; on a report that does not contain the
    marker the pass is the one-pass escaping of the specification; and the
    report [\$5 and $10] becomes [\$5 and \$10]. *)
Theorem C4_one_escape_per_dollar :
  (forall a b,
     escape_dollars (a ++ ESCAPED_DOLLAR ++ b)
     = escape_dollars a ++ ESCAPED_DOLLAR ++ escape_dollars b) /\
  (forall a b, last a <> Some 92 ->
     escape_dollars (a ++ DOLLAR ++ b)
     = escape_dollars a ++ ESCAPED_DOLLAR ++ escape_dollars b
     /\ last (escape_dollars a) <> Some 92) /\
  (forall s, ~ occurs TEMP_PLACEHOLDER s -> escape_dollars s = escape_once s) /\
  escape_dollars (lit "\$5 and $10") = lit "\$5 and \$10".
Proof.
  split; [apply escape_dollars_escaped|].
  split; [intros a b Ha; split; [by apply escape_dollars_bare|by apply escape_dollars_last]|].
  split; [apply escape_dollars_escape_once|by vm_compute].
Qed.

Lemma C4_one_escape_per_dollar_witness :
  last (lit "\$5 and ") <> Some 92 /\
  escape_dollars (lit "\$5 and " ++ DOLLAR ++ lit "10")
  = escape_dollars (lit "\$5 and ") ++ ESCAPED_DOLLAR ++ escape_dollars (lit "10").
Proof.
  split; [discriminate|].
  apply (proj1 (proj2 C4_one_escape_per_dollar) (lit "\$5 and ") (lit "10")).
  discriminate.
Defined.

(** C10: an occurrence of the literal [TEMP_PLACEHOLDER] in the joined
    contents is not left as it is: the escaping pass, and so the final report
    of the compile step, has an escaped dollar in its place. *)
Theorem C10_marker_becomes_escaped_dollar :
  (forall a b,
     escape_dollars (a ++ TEMP_PLACEHOLDER ++ b)
     = escape_dollars a ++ ESCAPED_DOLLAR ++ escape_dollars b) /\
  (forall state state' a b,
     compile_final_report state = Return state' ->
     join (NL ++ NL) (content <$> sections state') = a ++ TEMP_PLACEHOLDER ++ b ->
     final_report state'
     = Some (escape_dollars a ++ ESCAPED_DOLLAR ++ escape_dollars b)) /\
  escape_dollars (lit "see TEMP_PLACEHOLDER here") = lit "see \$ here".
Proof.
  split; [apply escape_dollars_marker|]. split; [|by vm_compute].
  intros state state' a b [_ ->]%compile_final_report_Return Hjoin.
  by rewrite Hjoin, escape_dollars_marker.
Qed.

Lemma C10_marker_becomes_escaped_dollar_witness :
  compile_final_report sample.state_marker
  = Return {| topic := lit "topic";
              sections := completed_sections sample.state_marker;
              completed_sections := completed_sections sample.state_marker;
              report_sections_from_research := [];
              final_report := Some (lit "see \$ here") |} /\
  join (NL ++ NL) (content <$> completed_sections sample.state_marker)
  = lit "see " ++ TEMP_PLACEHOLDER ++ lit " here" /\
  Some (lit "see \$ here")
  = Some (escape_dollars (lit "see ") ++ ESCAPED_DOLLAR ++ escape_dollars (lit " here")).
Proof.
  split; [reflexivity|]. split; [reflexivity|].
  apply (proj1 (proj2 C10_marker_becomes_escaped_dollar)
           sample.state_marker
           {| topic := lit "topic";
              sections := completed_sections sample.state_marker;
              completed_sections := completed_sections sample.state_marker;
              report_sections_from_research := [];
              final_report := Some (lit "see \$ here") |}
           (lit "see ") (lit " here")); reflexivity.
Defined.

(** * Further properties of the code *)

(** ** The escaping pass, step by step *)

Section escaping_steps.
Implicit Types s t a b u : str.

Lemma escape_dollars_nil : escape_dollars [] = [].
Proof. reflexivity. Qed.

Lemma escape_dollars_cons_dollar t :
  escape_dollars (36 :: t) = 92 :: 36 :: escape_dollars t.
Proof.
  change (36 :: t) with ([] ++ DOLLAR ++ t).
  by rewrite escape_dollars_bare.
Qed.

Lemma escape_dollars_cons_escaped t :
  escape_dollars (92 :: 36 :: t) = 92 :: 36 :: escape_dollars t.
Proof.
  change (92 :: 36 :: t) with ([] ++ ESCAPED_DOLLAR ++ t).
  by rewrite escape_dollars_escaped.
Qed.

Lemma escape_dollars_cons_marker s :
  starts_with TEMP_PLACEHOLDER s = true ->
  escape_dollars s = 92 :: 36 :: escape_dollars (drop (length TEMP_PLACEHOLDER) s).
Proof.
  intros Hs. rewrite (starts_with_take_drop _ _ Hs) at 1.
  change (TEMP_PLACEHOLDER ++ ?x) with ([] ++ TEMP_PLACEHOLDER ++ x).
  by rewrite escape_dollars_marker.
Qed.

(** What the pass does at the head of a report: it writes an escaped dollar
    and goes on with a shorter rest, or it copies one character. *)
Lemma escape_dollars_cases s :
  s = []
  \/ (exists t, (length t < length s)%nat
                /\ escape_dollars s = 92 :: 36 :: escape_dollars t)
  \/ (exists c t, s = c :: t /\ c <> 36 /\ ~ (c = 92 /\ head t = Some 36)
                  /\ starts_with TEMP_PLACEHOLDER s = false
                  /\ escape_dollars s = c :: escape_dollars t).
Proof.
  destruct s as [|c t]; [by left|]. right.
  destruct (decide (c = 36)) as [->|Hc].
  { left. exists t. split; [simpl; lia|apply escape_dollars_cons_dollar]. }
  destruct (decide (c = 92 /\ head t = Some 36)) as [[-> Ht]|Hct].
  { left. destruct t as [|d t]; [done|]. injection Ht as ->.
    exists t. split; [simpl; lia|apply escape_dollars_cons_escaped]. }
  destruct (starts_with TEMP_PLACEHOLDER (c :: t)) eqn:Hsw.
  - left. exists (drop (length TEMP_PLACEHOLDER) (c :: t)). split.
    + rewrite length_drop. simpl. lia.
    + by apply escape_dollars_cons_marker.
  - right. exists c, t. repeat split; try done. by apply escape_dollars_other.
Qed.

(** A word without backslash, dollar and [T] that starts the escaped report
    starts the report. *)
Lemma starts_with_escape_dollars u s :
  Forall (fun c => c ∉ [92; 36; 84]) u ->
  starts_with u (escape_dollars s) = true -> starts_with u s = true.
Proof.
  intros Hu. revert s. induction Hu as [|d u Hd Hu IH]; intros s; [done|].
  destruct (escape_dollars_cases s) as [->|[(t & _ & ->)|(c & t & -> & _ & _ & _ & ->)]].
  - done.
  - rewrite starts_with_cons. rewrite decide_False; [done|]. set_solver.
  - rewrite !starts_with_cons. case_decide; [apply IH|done].
Qed.

(** In the escaped report every dollar follows a backslash. *)
Lemma escape_dollars_dollar_escaped s a b :
  escape_dollars s = a ++ 36 :: b -> last a = Some 92.
Proof.
  remember (length s) as n eqn:Hn. revert s Hn a.
  induction n as [n IH] using lt_wf_ind. intros s -> a.
  destruct (escape_dollars_cases s) as [->|[(t & Ht & ->)|(c & t & -> & Hc & _ & _ & ->)]].
  - by destruct a.
  - destruct a as [|x [|y a]]; intros Heq; simpl in Heq.
    + by injection Heq.
    + by injection Heq as <- _.
    + injection Heq as <- <- Ha. apply (IH _ Ht t eq_refl) in Ha.
      by rewrite !last_cons, Ha.
  - destruct a as [|x a]; intros Heq; simpl in Heq; [by injection Heq|].
    injection Heq as <- Ha. apply (IH (length t) ltac:(simpl; lia) t eq_refl) in Ha.
    by rewrite last_cons, Ha.
Qed.

Lemma head_escape_dollars s : head (escape_dollars s) <> Some 36.
Proof.
  destruct (escape_dollars s) as [|c r] eqn:Hs; [done|].
  intros [= ->]. by apply (escape_dollars_dollar_escaped s [] r) in Hs.
Qed.

Lemma occurs_cons_inv old c s :
  occurs old (c :: s) -> starts_with old (c :: s) = true \/ occurs old s.
Proof.
  intros ([|x a] & b & Hs).
  - left. rewrite Hs, app_nil_l. apply starts_with_app.
  - right. injection Hs as -> ->. by exists a, b.
Qed.

(** The escaped report does not contain the marker. *)
Lemma escape_dollars_no_marker s : ~ occurs TEMP_PLACEHOLDER (escape_dollars s).
Proof.
  remember (length s) as n eqn:Hn. revert s Hn.
  induction n as [n IH] using lt_wf_ind. intros s ->.
  destruct (escape_dollars_cases s) as [->|[(t & Ht & ->)|(c & t & -> & Hc & _ & Hsw & ->)]].
  - intros ([|x a] & b & Hs); discriminate.
  - intros [Hs|[Hs|Hs]%occurs_cons_inv]%occurs_cons_inv; try discriminate.
    by apply (IH _ Ht t eq_refl).
  - intros [Hs|Hs]%occurs_cons_inv; [|by apply (IH (length t) ltac:(simpl; lia) t eq_refl)].
    rewrite TEMP_PLACEHOLDER_cons, starts_with_cons in Hs, Hsw.
    case_decide; [|done].
    apply starts_with_escape_dollars in Hs; [congruence|by_evaluation].
Qed.

(** Escaping an escaped report changes nothing. *)
Lemma escape_dollars_idempotent s :
  escape_dollars (escape_dollars s) = escape_dollars s.
Proof.
  remember (length s) as n eqn:Hn. revert s Hn.
  induction n as [n IH] using lt_wf_ind. intros s ->.
  destruct (escape_dollars_cases s) as [->|[(t & Ht & ->)|(c & t & -> & Hc & _ & Hsw & ->)]].
  - done.
  - rewrite escape_dollars_cons_escaped. do 2 f_equal. by apply (IH _ Ht).
  - rewrite escape_dollars_other.
    + f_equal. by apply (IH (length t) ltac:(simpl; lia)).
    + done.
    + intros [_ Hh]. by apply head_escape_dollars in Hh.
    + destruct (starts_with TEMP_PLACEHOLDER (c :: escape_dollars t)) eqn:Hs; [|done].
      rewrite TEMP_PLACEHOLDER_cons, starts_with_cons in Hs, Hsw.
      case_decide; [|done].
      apply starts_with_escape_dollars in Hs; [congruence|by_evaluation].
Qed.
End escaping_steps.

(** X1: the escaping pass is idempotent: a report that went through it comes
    out of a second pass unchanged. *)
Theorem X1_escape_dollars_idempotent (s : str) :
  escape_dollars (escape_dollars s) = escape_dollars s.
Proof. apply escape_dollars_idempotent. Qed.

(** X2: in the final report of the compile step every dollar stands right
    behind a backslash. *)
Theorem X2_final_report_dollars_escaped (state state' : ReportState) (report a b : str) :
  compile_final_report state = Return state' ->
  final_report state' = Some report ->
  report = a ++ 36 :: b ->
  last a = Some 92.
Proof.
  intros [_ Hreport]%compile_final_report_Return Hfinal Hsplit.
  rewrite Hreport in Hfinal. injection Hfinal as <-.
  by eapply escape_dollars_dollar_escaped.
Qed.

Lemma X2_final_report_dollars_escaped_witness :
  compile_final_report sample.state_abc
  = Return {| topic := lit "topic";
              sections := zip_with set_content sample.contents_abc sample.plan_abc;
              completed_sections := completed_sections sample.state_abc;
              report_sections_from_research := [];
              final_report :=
                Some (lit "alpha" ++ NL ++ NL ++ lit "beta costs \$5" ++ NL ++ NL
                      ++ lit "gamma") |} /\
  last (lit "alpha" ++ NL ++ NL ++ lit "beta costs \") = Some 92.
Proof.
  assert (compile_final_report sample.state_abc
          = Return {| topic := lit "topic";
              sections := zip_with set_content sample.contents_abc sample.plan_abc;
              completed_sections := completed_sections sample.state_abc;
              report_sections_from_research := [];
              final_report :=
                Some (lit "alpha" ++ NL ++ NL ++ lit "beta costs \$5" ++ NL ++ NL
                      ++ lit "gamma") |}) as Hcompile by reflexivity.
  split; [exact Hcompile|].
  exact (X2_final_report_dollars_escaped sample.state_abc _
           (lit "alpha" ++ NL ++ NL ++ lit "beta costs \$5" ++ NL ++ NL ++ lit "gamma")
           (lit "alpha" ++ NL ++ NL ++ lit "beta costs \")
           (lit "5" ++ NL ++ NL ++ lit "gamma") Hcompile eq_refl eq_refl).
Defined.

(** X3: the final report of the compile step never contains the marker
    [TEMP_PLACEHOLDER], whatever the sections contained. *)
Theorem X3_final_report_without_marker (state state' : ReportState) (report : str) :
  compile_final_report state = Return state' ->
  final_report state' = Some report ->
  ~ occurs TEMP_PLACEHOLDER report.
Proof.
  intros [_ Hreport]%compile_final_report_Return Hfinal.
  rewrite Hreport in Hfinal. injection Hfinal as <-.
  apply escape_dollars_no_marker.
Qed.

Lemma X3_final_report_without_marker_witness :
  compile_final_report sample.state_marker
  = Return {| topic := lit "topic";
              sections := completed_sections sample.state_marker;
              completed_sections := completed_sections sample.state_marker;
              report_sections_from_research := [];
              final_report := Some (lit "see \$ here") |} /\
  ~ occurs TEMP_PLACEHOLDER (lit "see \$ here").
Proof.
  assert (compile_final_report sample.state_marker
          = Return {| topic := lit "topic";
              sections := completed_sections sample.state_marker;
              completed_sections := completed_sections sample.state_marker;
              report_sections_from_research := [];
              final_report := Some (lit "see \$ here") |}) as Hcompile by reflexivity.
  split; [exact Hcompile|].
  exact (X3_final_report_without_marker sample.state_marker _ (lit "see \$ here")
           Hcompile eq_refl).
Defined.

(** X4: a report with neither a dollar nor the marker in it goes through the
    escaping pass unchanged. *)
Theorem X4_escape_dollars_plain_text (s : str) :
  36 ∉ s -> ~ occurs TEMP_PLACEHOLDER s -> escape_dollars s = s.
Proof. apply escape_dollars_plain. Qed.

Lemma X4_escape_dollars_plain_text_witness :
  escape_dollars (lit "TEMP and 5 EUR") = lit "TEMP and 5 EUR".
Proof.
  apply (X4_escape_dollars_plain_text (lit "TEMP and 5 EUR")).
  - by_evaluation.
  - intros (a & b & Heq).
    assert (length (lit "TEMP and 5 EUR") = length (a ++ TEMP_PLACEHOLDER ++ b)) as Hlen
      by (by rewrite Heq).
    rewrite !length_app in Hlen.
    change (length TEMP_PLACEHOLDER) with 16%nat in Hlen.
    change (length (lit "TEMP and 5 EUR")) with 14%nat in Hlen. lia.
Defined.

(** ** The compile step: the dict and what it keeps *)

Section compile_more.
Implicit Types (l completed planned : list ReportSection) (m : gmap (list N) (list N)).

Lemma content_by_name_lookup l n :
  content_by_name l !! n = content <$> last (filter (fun s => name s = n) l).
Proof.
  induction l as [|s l IH] using rev_ind; [done|].
  rewrite content_by_name_snoc, filter_app.
  destruct (decide (name s = n)) as [<-|Hn].
  - rewrite lookup_insert_eq, filter_cons_True by done.
    by rewrite filter_nil, last_snoc.
  - rewrite lookup_insert_ne, filter_cons_False by done.
    by rewrite filter_nil, app_nil_r.
Qed.

Lemma assign_contents_Return_inv m planned assigned :
  assign_contents m planned = Return assigned ->
  assigned = (fun s => set_content (default [] (m !! name s)) s) <$> planned.
Proof.
  revert assigned. induction planned as [|s planned IH]; intros assigned; simpl.
  { by intros [= <-]. }
  destruct (m !! name s) as [c|]; [|done].
  destruct (assign_contents m planned) as [rest|e]; [|done].
  simpl. intros [= <-]. by rewrite (IH rest eq_refl).
Qed.

Lemma assign_contents_present m planned :
  (forall s, s ∈ planned -> is_Some (m !! name s)) ->
  assign_contents m planned
  = Return ((fun s => set_content (default [] (m !! name s)) s) <$> planned).
Proof.
  intros Hall. destruct (assign_contents m planned) as [assigned|e] eqn:Ha.
  - by rewrite (assign_contents_Return_inv _ _ _ Ha).
  - apply assign_contents_Raise in Ha as (s & Hs & Hm & _).
    destruct (Hall s Hs) as [c Hc]. congruence.
Qed.

(** The loop reads the dict at the planned names only. *)
Lemma assign_contents_ext m m' planned :
  (forall s, s ∈ planned -> m !! name s = m' !! name s) ->
  assign_contents m planned = assign_contents m' planned.
Proof.
  induction planned as [|s planned IH]; intros Hext; [done|]. simpl.
  rewrite <- (Hext s) by left. rewrite IH; [done|].
  intros s' Hs'. apply Hext. by right.
Qed.

Lemma content_by_name_other l1 x l2 n :
  n <> name x ->
  content_by_name (l1 ++ x :: l2) !! n = content_by_name (l1 ++ l2) !! n.
Proof.
  intros Hn. rewrite !content_by_name_lookup, !filter_app.
  by rewrite filter_cons_False by congruence.
Qed.
End compile_more.

(** X5: the dict of the compile step gives, for a name, the content of the
    last completed section of that name (a later one overwrites an earlier
    one), and nothing for a name no completed section has. *)
Theorem X5_content_by_name_last_wins (completed : list ReportSection) (n : str) :
  content_by_name completed !! n
  = content <$> last (filter (fun s => name s = n) completed).
Proof. apply content_by_name_lookup. Qed.

(** *** The compile step on the objects *)

Section compile_objects.
Implicit Types (h : objects.heap) (m : gmap str str).

(** An assignment to the content leaves the other fields of every object. *)
Lemma store_content_fields section c h l :
  name (objects.store_content section c h l) = name (h l)
  /\ description (objects.store_content section c h l) = description (h l)
  /\ research (objects.store_content section c h l) = research (h l).
Proof. unfold objects.store_content. by destruct (decide (l = section)) as [->|]. Qed.

Lemma assign_contents_fields m sections h l :
  name ((objects.assign_contents m sections h).1 l) = name (h l)
  /\ description ((objects.assign_contents m sections h).1 l) = description (h l)
  /\ research ((objects.assign_contents m sections h).1 l) = research (h l).
Proof.
  revert h. induction sections as [|s sections IH]; intros h; simpl; [done|].
  destruct (m !! name (h s)) as [c|]; [|done].
  destruct (IH (objects.store_content s c h)) as (-> & -> & ->).
  apply store_content_fields.
Qed.

(** The loop writes to the objects of [sections] only. *)
Lemma assign_contents_untouched m sections h l :
  l ∉ sections -> (objects.assign_contents m sections h).1 l = h l.
Proof.
  revert h. induction sections as [|s sections IH]; intros h Hl; simpl; [done|].
  apply not_elem_of_cons in Hl as [Hne Hl].
  destruct (m !! name (h s)) as [c|]; [|done].
  rewrite IH by done. unfold objects.store_content. by destruct (decide (l = s)).
Qed.

(** When the loop ends, every object of [sections] has the content the dict
    has for its name. *)
Lemma assign_contents_written m sections h l :
  (objects.assign_contents m sections h).2 = Return () ->
  l ∈ sections ->
  m !! name (h l) = Some (content ((objects.assign_contents m sections h).1 l)).
Proof.
  revert h. induction sections as [|s sections IH]; intros h Hret Hl; simpl in *.
  { by apply elem_of_nil in Hl. }
  destruct (m !! name (h s)) as [c|] eqn:Hc; [|done].
  destruct (decide (l ∈ sections)) as [Hin|Hnotin].
  - rewrite <- (IH _ Hret Hin).
    by destruct (store_content_fields s c h l) as [-> _].
  - apply elem_of_cons in Hl as [->|Hl]; [|done].
    rewrite assign_contents_untouched by done.
    unfold objects.store_content. by rewrite decide_True.
Qed.

Lemma ReportSection_eq (s s' : ReportSection) :
  name s = name s' -> description s = description s' -> research s = research s' ->
  content s = content s' -> s = s'.
Proof. destruct s, s'. simpl. by intros -> -> -> ->. Qed.

(** The loop on the values of the sections and the loop on the objects end
    alike: with the same error, or with the same sections. *)
Lemma assign_contents_objects m sections h h0 :
  (forall l, name (h l) = name (h0 l) /\ description (h l) = description (h0 l)
             /\ research (h l) = research (h0 l)) ->
  match assign_contents m (h0 <$> sections) with
  | Return assigned =>
      (objects.assign_contents m sections h).2 = Return ()
      /\ assigned = (objects.assign_contents m sections h).1 <$> sections
  | Raise e => (objects.assign_contents m sections h).2 = Raise e
  end.
Proof.
  revert h. induction sections as [|s sections IH]; intros h Hfields; [done|].
  rewrite fmap_cons. cbn [assign_contents].
  pose proof (assign_contents_written m (s :: sections) h s) as Hwritten.
  pose proof (assign_contents_fields m (s :: sections) h s) as Hafter.
  cbn [objects.assign_contents] in *.
  destruct (Hfields s) as (Hname & Hdescription & Hresearch). rewrite <- Hname.
  destruct (m !! name (h s)) as [c|] eqn:Hc; [|done].
  assert (forall l, name (objects.store_content s c h l) = name (h0 l)
                    /\ description (objects.store_content s c h l) = description (h0 l)
                    /\ research (objects.store_content s c h l) = research (h0 l)) as Hfields'.
  { intros l. destruct (store_content_fields s c h l) as (-> & -> & ->). apply Hfields. }
  specialize (IH _ Hfields').
  destruct (assign_contents m (h0 <$> sections)) as [assigned|e]; [|done].
  destruct IH as [Hret ->]. cbn [mbind result_bind]. split; [done|].
  rewrite fmap_cons. f_equal.
  specialize (Hwritten Hret ltac:(left)). injection Hwritten as Hcontent.
  destruct Hafter as (Hname' & Hdescription' & Hresearch').
  apply ReportSection_eq; simpl; congruence.
Qed.
End compile_objects.

(** X6: the compile step writes nothing but the content of the planned
    [Section] objects. No name, description or research flag of any object
    changes, an object that is not in [sections] is left as it is, and when
    the step returns, every planned object has the content that the dict,
    built from the completed objects before the first assignment, has for
    its name; so a completed object that is also planned is rewritten when a
    later completed object has its name. On the planned sections, the report
    and the error, the step on the objects agrees with the step on their
    values. *)
Theorem X6_compile_changes_contents_only (h : objects.heap)
    (sections completed_sections : list nat) :
  let h' := (objects.compile_final_report h sections completed_sections).1 in
  let outcome := (objects.compile_final_report h sections completed_sections).2 in
  (forall l, name (h' l) = name (h l) /\ description (h' l) = description (h l)
             /\ research (h' l) = research (h l)) /\
  (forall l, l ∉ sections -> h' l = h l) /\
  (forall report l,
     outcome = Return report -> l ∈ sections ->
     content_by_name (h <$> completed_sections) !! name (h l) = Some (content (h' l))) /\
  (forall state,
     agent.sections state = h <$> sections ->
     agent.completed_sections state = h <$> completed_sections ->
     match compile_final_report state with
     | Return state' =>
         agent.sections state' = h' <$> sections
         /\ exists report, outcome = Return report /\ final_report state' = Some report
     | Raise e => outcome = Raise e
     end).
Proof.
  cbv zeta. unfold objects.compile_final_report.
  pose proof (assign_contents_fields (content_by_name (h <$> completed_sections))
                sections h) as Hfields.
  pose proof (assign_contents_untouched (content_by_name (h <$> completed_sections))
                sections h) as Huntouched.
  pose proof (assign_contents_written (content_by_name (h <$> completed_sections))
                sections h) as Hwritten.
  pose proof (assign_contents_objects (content_by_name (h <$> completed_sections))
                sections h h (fun l => conj eq_refl (conj eq_refl eq_refl))) as Hvalues.
  destruct (objects.assign_contents _ sections h) as [h' outcome]. simpl in *.
  split; [done|]. split; [done|]. split.
  - intros report l Hret Hl. apply Hwritten; [|done]. by destruct outcome as [[]|e].
  - intros state Hsections Hcompleted. unfold compile_final_report.
    rewrite Hsections, Hcompleted.
    destruct (assign_contents _ (h <$> sections)) as [assigned|e].
    + destruct Hvalues as [-> ->]. simpl. split; [done|]. eexists. split; [done|].
      by rewrite <- list_fmap_compose.
    + by rewrite Hvalues.
Qed.

(** Two planned sections of one name, both completed: the first object is
    rewritten with the content of the second, though it is in
    [completed_sections] too. *)
Lemma X6_compile_changes_contents_only_witness :
  (objects.compile_final_report sample_more.heap_twins [0%nat; 1%nat] [0%nat; 1%nat]).2
  = Return (lit "two" ++ NL ++ NL ++ lit "two") /\
  content_by_name (sample_more.heap_twins <$> [0%nat; 1%nat])
    !! name (sample_more.heap_twins 0%nat)
  = Some (content ((objects.compile_final_report sample_more.heap_twins
                      [0%nat; 1%nat] [0%nat; 1%nat]).1 0%nat)) /\
  content (sample_more.heap_twins 0%nat) = lit "one" /\
  content ((objects.compile_final_report sample_more.heap_twins
              [0%nat; 1%nat] [0%nat; 1%nat]).1 0%nat)
  = lit "two".
Proof.
  assert ((objects.compile_final_report sample_more.heap_twins [0%nat; 1%nat] [0%nat; 1%nat]).2
          = Return (lit "two" ++ NL ++ NL ++ lit "two")) as Hreturn by by vm_compute.
  split; [exact Hreturn|]. split; [|split; by vm_compute].
  apply (proj1 (proj2 (proj2 (X6_compile_changes_contents_only sample_more.heap_twins
                                [0%nat; 1%nat] [0%nat; 1%nat])))
           (lit "two" ++ NL ++ NL ++ lit "two") 0%nat Hreturn).
  by_evaluation.
Defined.

(** X7: a completed section whose name is not in the plan has no effect on
    the compile step: with or without it the same sections and the same
    report come out, or the same error. *)
Theorem X7_compile_ignores_unplanned (state : ReportState)
    (l1 l2 : list ReportSection) (x : ReportSection) :
  name x ∉ (name <$> sections state) ->
  completed_sections state = l1 ++ x :: l2 ->
  match compile_final_report state,
        compile_final_report
          {| topic := topic state; sections := sections state;
             completed_sections := l1 ++ l2;
             report_sections_from_research := report_sections_from_research state;
             final_report := final_report state |} with
  | Return with_x, Return without_x =>
      sections with_x = sections without_x
      /\ final_report with_x = final_report without_x
  | Raise e, Raise e' => e = e'
  | _, _ => False
  end.
Proof.
  intros Hx Hcompleted. unfold compile_final_report. simpl. rewrite Hcompleted.
  rewrite (assign_contents_ext (content_by_name (l1 ++ x :: l2))
             (content_by_name (l1 ++ l2))).
  - by destruct (assign_contents _ _).
  - intros s Hs. apply content_by_name_other. intros Heq. apply Hx.
    rewrite <- Heq. apply list_elem_of_fmap. by exists s.
Qed.

Lemma X7_compile_ignores_unplanned_witness :
  (name sample_more.unplanned ∉ (name <$> sections sample_more.state_abc_unplanned)) /\
  match compile_final_report sample_more.state_abc_unplanned,
        compile_final_report
          {| topic := topic sample_more.state_abc_unplanned;
             sections := sections sample_more.state_abc_unplanned;
             completed_sections :=
               [set_content (lit "beta costs $5") (sample.planned "B" "second" true)]
               ++ [set_content (lit "gamma") (sample.planned "C" "third" false);
                   set_content (lit "alpha") (sample.planned "A" "first" true)];
             report_sections_from_research :=
               report_sections_from_research sample_more.state_abc_unplanned;
             final_report := final_report sample_more.state_abc_unplanned |} with
  | Return with_x, Return without_x =>
      sections with_x = sections without_x
      /\ final_report with_x = final_report without_x
  | Raise e, Raise e' => e = e'
  | _, _ => False
  end.
Proof.
  assert (name sample_more.unplanned
            ∉ (name <$> sections sample_more.state_abc_unplanned)) as Hx by by_evaluation.
  split; [exact Hx|].
  exact (X7_compile_ignores_unplanned sample_more.state_abc_unplanned
           [set_content (lit "beta costs $5") (sample.planned "B" "second" true)]
           [set_content (lit "gamma") (sample.planned "C" "third" false);
            set_content (lit "alpha") (sample.planned "A" "first" true)]
           sample_more.unplanned Hx eq_refl).
Defined.

(** ** The fan-outs and the run *)

Section run_more.
Context (P : Prompts) (R : Rendering) (W : World).

(** With no response at all, [search_web] still loads the tokenizer before it
    gives the no-results literal. *)
Lemma search_web_no_results wrapper tiktoken search_queries :
  run_search_queries wrapper (map query_text search_queries) 4 true = Return [] ->
  search_web R wrapper tiktoken search_queries
  = (encoding ← tiktoken; Return NO_SEARCH_RESULTS).
Proof. unfold search_web. cbv zeta. intros ->. by destruct tiktoken. Qed.

Lemma write_section_one chat_openai s source_str r :
  write_section P chat_openai s source_str = Return r ->
  exists c, r = [set_content c s].
Proof.
  unfold write_section. destruct (get_llm chat_openai) as [llm|e].
  - cbv zeta. destruct (invoke llm _) as [c|e]; [|done]. intros [= <-]. by eexists.
  - intros [= <-]. by eexists.
Qed.

Lemma write_final_sections_one chat_openai s context r :
  write_final_sections P chat_openai s context = Return r ->
  exists c, r = [set_content c s].
Proof.
  unfold write_final_sections. cbv zeta.
  destruct (get_llm chat_openai) as [llm|e]; [|done].
  destruct (invoke llm _) as [c|e]; [|done]. intros [= <-]. by eexists.
Qed.

Lemma section_builder_one s r :
  section_builder P R W s = Return r -> exists c, r = [set_content c s].
Proof.
  unfold section_builder.
  destruct (generate_queries _ _ _) as [search_queries|e]; [|done]. simpl.
  destruct (search_web _ _ _) as [source_str|e]; [|done]. simpl.
  apply write_section_one.
Qed.

#[local] Arguments fan_out : simpl never.

(** The run when the plan is known. *)
Lemma reporter_agent_planned topic planned :
  generate_report_plan P R (ChatOpenAI W AtPlan) (TavilySearchAPIWrapper W AtPlan)
    (encoding_for_model W AtPlan) topic
  = Return planned ->
  reporter_agent P R W topic
  = match filter (fun s => research s = true) planned with
    | [] => Return None
    | sends =>
        researched ← fan_out (earliest W) (section_builder P R W) sends;
        match filter (fun s => research s = false) planned with
        | [] => Return None
        | sends' =>
            finals ←
              fan_out (earliest W)
                (fun s => write_final_sections P (ChatOpenAI W (AtFinal s)) s
                            (format_sections (arrival W researched))) sends';
            state ←
              compile_final_report
                {| topic := topic; sections := planned;
                   completed_sections := arrival W researched ++ arrival W finals;
                   report_sections_from_research := format_sections (arrival W researched);
                   final_report := None |};
            Return (final_report state)
        end
    end.
Proof. intros Hplan. unfold reporter_agent. by rewrite Hplan. Qed.

(** When the two fan-outs return, so does the compile step, with the dict's
    content on every planned section. *)
Lemma compile_after_fan_outs_report topic planned context researched finals :
  (forall l, arrival W l ≡ₚ l) ->
  fan_out (earliest W) (section_builder P R W) (filter (fun s => research s = true) planned)
  = Return researched ->
  fan_out (earliest W) (fun s => write_final_sections P (ChatOpenAI W (AtFinal s)) s context)
    (filter (fun s => research s = false) planned)
  = Return finals ->
  exists state',
    compile_final_report
      {| topic := topic; sections := planned;
         completed_sections := arrival W researched ++ arrival W finals;
         report_sections_from_research := context; final_report := None |}
    = Return state' /\
    final_report state'
    = Some (escape_dollars (join (NL ++ NL)
              ((fun s => default []
                           (content_by_name (arrival W researched ++ arrival W finals)
                              !! name s)) <$> planned))).
Proof.
  intros Harrival Hresearched Hfinals.
  destruct (compile_after_fan_outs P R W topic planned context researched finals
              Harrival Hresearched Hfinals) as [state' Hcompile].
  exists state'. split; [done|].
  apply compile_final_report_Return in Hcompile as [Hassign ->]. simpl in Hassign.
  apply assign_contents_Return_inv in Hassign as ->.
  by rewrite <- list_fmap_compose.
Qed.
End run_more.

(** X8: the two conditional edges split the plan: every planned section is
    sent to exactly one of the two fan-outs, the researched ones to the
    section builder and the others to the final writer. *)
Theorem X8_plan_split_between_fan_outs (state : ReportState) :
  parallelize_section_writing state ++ parallelize_final_section_writing state
    ≡ₚ sections state
  /\ (forall s, s ∈ parallelize_section_writing state -> research s = true)
  /\ (forall s, s ∈ parallelize_final_section_writing state -> research s = false).
Proof.
  unfold parallelize_section_writing, parallelize_final_section_writing.
  split; [|split].
  - induction (sections state) as [|s l IH]; [done|].
    destruct (research s) eqn:Hs.
    + rewrite filter_cons_True, filter_cons_False by (by rewrite Hs).
      simpl. by rewrite IH.
    + rewrite filter_cons_False, filter_cons_True by (by rewrite Hs).
      rewrite <- Permutation_middle. by rewrite IH.
  - by intros s [? _]%list_elem_of_filter.
  - by intros s [? _]%list_elem_of_filter.
Qed.

(** X9: a branch of a fan-out that returns contributes exactly one section,
    the one it was sent, with a new content and nothing else changed. *)
Theorem X9_branch_returns_its_section (P : Prompts) (R : Rendering) (W : World)
    (s : ReportSection) (context : str) (r : list ReportSection) :
  section_builder P R W s = Return r
  \/ write_final_sections P (ChatOpenAI W (AtFinal s)) s context = Return r ->
  exists c, r = [set_content c s].
Proof.
  intros [Hr|Hr]; [by eapply section_builder_one|by eapply write_final_sections_one].
Qed.

Lemma X9_branch_returns_its_section_witness :
  section_builder sample.prompts sample.rendering sample.world
    (sample.planned "Battery Supply Chains" "batteries" true)
  = Return [set_content (lit "On Battery Supply Chains: about $5")
              (sample.planned "Battery Supply Chains" "batteries" true)] /\
  exists c,
    [set_content (lit "On Battery Supply Chains: about $5")
       (sample.planned "Battery Supply Chains" "batteries" true)]
    = [set_content c (sample.planned "Battery Supply Chains" "batteries" true)].
Proof.
  assert (section_builder sample.prompts sample.rendering sample.world
            (sample.planned "Battery Supply Chains" "batteries" true)
          = Return [set_content (lit "On Battery Supply Chains: about $5")
                      (sample.planned "Battery Supply Chains" "batteries" true)])
    as Hr by by vm_compute.
  split; [exact Hr|].
  exact (X9_branch_returns_its_section sample.prompts sample.rendering sample.world
           (sample.planned "Battery Supply Chains" "batteries" true) [] _
           (or_introl Hr)).
Defined.

#[local] Arguments fan_out : simpl never.

(** X10: when the plan has sections of both kinds and every branch of the two
    fan-outs returns, the run returns a report and raises nothing: the
    compile step finds every planned name, and the report is the escaped
    join, in planned order, of the contents the dict has for the planned
    names. The final writers get the completed research sections, formatted,
    as their context. *)
Theorem X10_run_returns_report (P : Prompts) (R : Rendering) (W : World)
    (topic : str) (planned researched finals : list ReportSection) :
  (forall l, arrival W l ≡ₚ l) ->
  generate_report_plan P R (ChatOpenAI W AtPlan) (TavilySearchAPIWrapper W AtPlan)
    (encoding_for_model W AtPlan) topic
  = Return planned ->
  filter (fun s => research s = true) planned <> [] ->
  filter (fun s => research s = false) planned <> [] ->
  fan_out (earliest W) (section_builder P R W) (filter (fun s => research s = true) planned)
  = Return researched ->
  fan_out (earliest W)
    (fun s => write_final_sections P (ChatOpenAI W (AtFinal s)) s
                (format_sections (arrival W researched)))
    (filter (fun s => research s = false) planned)
  = Return finals ->
  reporter_agent P R W topic
  = Return (Some (escape_dollars (join (NL ++ NL)
             ((fun s => default []
                          (content_by_name (arrival W researched ++ arrival W finals)
                             !! name s)) <$> planned)))).
Proof.
  intros Harrival Hplan Hsome Hsome' Hresearched Hfinals.
  rewrite (reporter_agent_planned P R W topic planned Hplan).
  destruct (compile_after_fan_outs_report P R W topic planned
              (format_sections (arrival W researched)) researched finals
              Harrival Hresearched Hfinals) as (state' & Hcompile & Hreport).
  destruct (filter (fun s => research s = true) planned) as [|s1 sends]; [done|].
  rewrite Hresearched. simpl.
  destruct (filter (fun s => research s = false) planned) as [|s2 sends']; [done|].
  rewrite Hfinals. simpl. rewrite Hcompile. simpl. by rewrite Hreport.
Qed.

Lemma X10_run_returns_report_witness :
  (forall l, arrival sample.world l ≡ₚ l) /\
  generate_report_plan sample.prompts sample.rendering
    (ChatOpenAI sample.world AtPlan) (TavilySearchAPIWrapper sample.world AtPlan)
    (encoding_for_model sample.world AtPlan) sample.topic_ev
  = Return sample.plan_ev /\
  reporter_agent sample.prompts sample.rendering sample.world sample.topic_ev
  = Return (Some (lit "Closing Introduction: about \$5" ++ NL ++ NL
                  ++ lit "On Battery Supply Chains: about \$5" ++ NL ++ NL
                  ++ lit "On Charging Infrastructure: about \$5" ++ NL ++ NL
                  ++ lit "Closing Conclusion: about \$5")).
Proof.
  assert (forall l, arrival sample.world l ≡ₚ l) as Harrival
    by (intros l; apply reverse_Permutation).
  split; [exact Harrival|]. split; [by vm_compute|].
  rewrite (X10_run_returns_report sample.prompts sample.rendering sample.world
             sample.topic_ev sample.plan_ev
             [set_content (lit "On Battery Supply Chains: about $5")
                (sample.planned "Battery Supply Chains" "batteries" true);
              set_content (lit "On Charging Infrastructure: about $5")
                (sample.planned "Charging Infrastructure" "chargers" true)]
             [set_content (lit "Closing Introduction: about $5")
                (sample.planned "Introduction" "overview" false);
              set_content (lit "Closing Conclusion: about $5")
                (sample.planned "Conclusion" "summary" false)]
             Harrival).
  - by vm_compute.
  - by vm_compute.
  - discriminate.
  - discriminate.
  - by vm_compute.
  - by vm_compute.
Defined.

(** X11: the compile step is reached only through both fan-outs: when the
    plan has no section to research, or has no other section once the
    researched ones are written, the run ends without a report and without an
    error, and [run_agent] is left with the empty string. *)
Theorem X11_run_without_both_kinds_has_no_report (P : Prompts) (R : Rendering)
    (W : World) (topic : str) (planned : list ReportSection) :
  generate_report_plan P R (ChatOpenAI W AtPlan) (TavilySearchAPIWrapper W AtPlan)
    (encoding_for_model W AtPlan) topic
  = Return planned ->
  filter (fun s => research s = true) planned = []
  \/ (filter (fun s => research s = false) planned = []
      /\ exists researched,
           fan_out (earliest W) (section_builder P R W)
             (filter (fun s => research s = true) planned)
           = Return researched) ->
  reporter_agent P R W topic = Return None
  /\ run_agent P R W true true topic = Some [].
Proof.
  intros Hplan Hkinds.
  assert (reporter_agent P R W topic = Return None) as Hrun.
  { rewrite (reporter_agent_planned P R W topic planned Hplan).
    destruct Hkinds as [->|[Hfinal [researched Hresearched]]]; [done|].
    destruct (filter (fun s => research s = true) planned) as [|s1 sends]; [done|].
    rewrite Hresearched. simpl. by rewrite Hfinal. }
  split; [done|]. unfold run_agent. simpl. by rewrite Hrun.
Qed.

Lemma X11_run_without_both_kinds_has_no_report_witness :
  generate_report_plan sample.prompts sample.rendering
    (ChatOpenAI (sample_more.world_with_plan sample_more.plan_final_only) AtPlan)
    (TavilySearchAPIWrapper (sample_more.world_with_plan sample_more.plan_final_only) AtPlan)
    (encoding_for_model (sample_more.world_with_plan sample_more.plan_final_only) AtPlan)
    sample.topic_ev
  = Return sample_more.plan_final_only /\
  filter (fun s => research s = true) sample_more.plan_final_only = [] /\
  reporter_agent sample.prompts sample.rendering
    (sample_more.world_with_plan sample_more.plan_final_only) sample.topic_ev
  = Return None /\
  run_agent sample.prompts sample.rendering
    (sample_more.world_with_plan sample_more.plan_final_only) true true sample.topic_ev
  = Some [].
Proof.
  assert (generate_report_plan sample.prompts sample.rendering
            (ChatOpenAI (sample_more.world_with_plan sample_more.plan_final_only) AtPlan)
            (TavilySearchAPIWrapper
               (sample_more.world_with_plan sample_more.plan_final_only) AtPlan)
            (encoding_for_model
               (sample_more.world_with_plan sample_more.plan_final_only) AtPlan)
            sample.topic_ev
          = Return sample_more.plan_final_only) as Hplan by by vm_compute.
  split; [exact Hplan|]. split; [reflexivity|].
  exact (X11_run_without_both_kinds_has_no_report sample.prompts sample.rendering
           (sample_more.world_with_plan sample_more.plan_final_only) sample.topic_ev
           sample_more.plan_final_only Hplan (or_introl eq_refl)).
Defined.

(** X12: a research section for which no chat model can be constructed,
    neither to generate its queries nor to write it, still completes, with
    the error placeholder as content and whatever the search client does,
    provided the tokenizer can be loaded when the search is formatted; when
    it cannot, that exception leaves the branch. *)
Theorem X12_section_builder_without_chat_model (P : Prompts) (R : Rendering)
    (W : World) (s : ReportSection) :
  raises (ChatOpenAI W (AtQueries s)) ->
  raises (ChatOpenAI W (AtWrite s)) ->
  (forall encoding,
     encoding_for_model W (AtSearch s) = Return encoding ->
     section_builder P R W s
     = Return [set_content (lit "Error: Could not generate content due to API issues.") s])
  /\ (forall e,
        encoding_for_model W (AtSearch s) = Raise e ->
        section_builder P R W s = Raise e).
Proof.
  intros [e He] [e' He']. unfold section_builder. rewrite He, He'. simpl.
  assert (run_search_queries (TavilySearchAPIWrapper W (AtSearch s)) (map query_text []) 4
            true = Return []) as Hnone
    by (by destruct (TavilySearchAPIWrapper W (AtSearch s))).
  rewrite (search_web_no_results R _ _ [] Hnone).
  split; [intros encoding ->|intros e0 ->]; done.
Qed.

Lemma X12_section_builder_without_chat_model_witness :
  raises (ChatOpenAI sample_more.world_no_section_llm
            (AtQueries (sample.planned "Battery Supply Chains" "batteries" true))) /\
  section_builder sample.prompts sample.rendering sample_more.world_no_section_llm
    (sample.planned "Battery Supply Chains" "batteries" true)
  = Return [set_content (lit "Error: Could not generate content due to API issues.")
              (sample.planned "Battery Supply Chains" "batteries" true)].
Proof.
  assert (raises (ChatOpenAI sample_more.world_no_section_llm
                    (AtQueries (sample.planned "Battery Supply Chains" "batteries" true))))
    as Hq by (eexists; reflexivity).
  assert (raises (ChatOpenAI sample_more.world_no_section_llm
                    (AtWrite (sample.planned "Battery Supply Chains" "batteries" true))))
    as Hw by (eexists; reflexivity).
  split; [exact Hq|].
  exact (proj1 (X12_section_builder_without_chat_model sample.prompts sample.rendering
                  sample_more.world_no_section_llm
                  (sample.planned "Battery Supply Chains" "batteries" true) Hq Hw)
           sample.encoding eq_refl).
Defined.

(** X13: when the tokenizer can be loaded, [search_web] gives the literal
    "No search results found." as the context if the search client cannot be
    constructed, if there is no query, and if no query gets a response; when
    the tokenizer cannot be loaded, [search_web] raises that exception
    whatever the client and the queries are. *)
Theorem X13_search_web_without_results (R : Rendering) :
  (forall e encoding search_queries,
     search_web R (Raise e) (Return encoding) search_queries
     = Return (lit "No search results found.")) /\
  (forall wrapper encoding,
     search_web R wrapper (Return encoding) [] = Return (lit "No search results found.")) /\
  (forall tavily_search encoding search_queries,
     (forall query, query ∈ search_queries ->
        response_of tavily_search 4 true (query_text query) = None) ->
     search_web R (Return tavily_search) (Return encoding) search_queries
     = Return (lit "No search results found.")) /\
  (forall wrapper e search_queries,
     search_web R wrapper (Raise e) search_queries = Raise e).
Proof.
  split; [|split; [|split]].
  - intros e encoding qs. by rewrite (search_web_no_results R (Raise e) _ qs).
  - intros wrapper encoding. rewrite (search_web_no_results R wrapper _ []); [done|].
    by destruct wrapper.
  - intros ts encoding qs Hnone. rewrite search_web_no_results; [done|].
    rewrite run_search_queries_client. f_equal.
    induction qs as [|q qs IH]; [done|]. simpl.
    rewrite (Hnone q) by left. apply IH. intros q' Hq'. apply Hnone. by right.
  - intros wrapper e qs. unfold search_web. cbv zeta.
    destruct (run_search_queries_total wrapper (map query_text qs) 4 true) as [docs ->].
    done.
Qed.

Lemma X13_search_web_without_results_witness :
  (forall query, query ∈ [ {| agent.search_query := Some (lit "ev") |} ] ->
     response_of sample_more.failing_search 4 true (query_text query) = None) /\
  search_web sample.rendering (Return sample_more.failing_search) (Return sample.encoding)
    [ {| agent.search_query := Some (lit "ev") |} ]
  = Return (lit "No search results found.").
Proof.
  assert (forall query, query ∈ [ {| agent.search_query := Some (lit "ev") |} ] ->
            response_of sample_more.failing_search 4 true (query_text query) = None)
    as Hnone by (intros query _; reflexivity).
  split; [exact Hnone|].
  exact (proj1 (proj2 (proj2 (X13_search_web_without_results sample.rendering)))
           sample_more.failing_search sample.encoding _ Hnone).
Defined.

(** Formatting a list in two parts, with the second part numbered behind the
    first, gives the text of the whole list. *)
Lemma format_sections_app (l1 l2 : list ReportSection) :
  format_sections (l1 ++ l2)
  = format_sections l1 ++ format_sections_from (1 + N.of_nat (length l1)) l2.
Proof.
  unfold format_sections. generalize 1%N as idx.
  induction l1 as [|s l1 IH]; intros idx.
  - simpl. by rewrite N.add_0_r.
  - cbn [app format_sections_from length]. rewrite IH, <- app_assoc, Nat2N.inj_succ.
    do 2 f_equal. f_equal. lia.
Qed.

(** X14: [format_sections] numbers the blocks from 1 in the order of the
    list. The block of the section at position [i], counted from 0, comes
    right behind the text of the sections before it; it is the banner of
    sixty equals signs, "Section", the number [i + 1] and the name, the
    banner again, then the description, the research flag and the content,
    with "[Not yet written]" for an empty content; the blocks of the later
    sections follow it. *)
Theorem X14_format_sections_numbering (sections : list ReportSection) (i : nat)
    (section : ReportSection) :
  sections !! i = Some section ->
  format_sections (take (S i) sections)
  = format_sections (take i sections)
    ++ NL ++ replicate 60 61 ++ NL
    ++ lit "Section " ++ decimal (N.of_nat (S i)) ++ lit ": " ++ name section ++ NL
    ++ replicate 60 61 ++ NL
    ++ lit "Description:" ++ NL
    ++ description section ++ NL
    ++ lit "Requires Research:" ++ NL
    ++ (if research section then lit "True" else lit "False") ++ NL
    ++ NL
    ++ lit "Content:" ++ NL
    ++ match content section with
       | [] => lit "[Not yet written]"
       | _ :: _ => content section
       end ++ NL
    ++ NL
  /\ exists later,
       format_sections sections = format_sections (take (S i) sections) ++ later.
Proof.
  intros Hi. split.
  - rewrite (take_S_r _ _ _ Hi), format_sections_app.
    rewrite length_take_le by (apply lookup_lt_Some in Hi; lia).
    f_equal. cbn [format_sections_from]. rewrite app_nil_r.
    unfold format_section, BANNER.
    replace (1 + N.of_nat i) with (N.of_nat (S i)) by lia.
    by destruct (content section).
  - exists (format_sections_from (1 + N.of_nat (length (take (S i) sections)))
              (drop (S i) sections)).
    by rewrite <- format_sections_app, take_drop.
Qed.

Lemma X14_format_sections_numbering_witness :
  sample.plan_abc !! 1%nat = Some (sample.planned "B" "second" true) /\
  format_sections (take 2 sample.plan_abc)
  = format_sections (take 1 sample.plan_abc)
    ++ NL ++ lit "============================================================" ++ NL
    ++ lit "Section 2: B" ++ NL
    ++ lit "============================================================" ++ NL
    ++ lit "Description:" ++ NL
    ++ lit "second" ++ NL
    ++ lit "Requires Research:" ++ NL
    ++ lit "True" ++ NL
    ++ NL
    ++ lit "Content:" ++ NL
    ++ lit "[Not yet written]" ++ NL
    ++ NL.
Proof.
  split; [reflexivity|].
  rewrite (proj1 (X14_format_sections_numbering sample.plan_abc 1
                    (sample.planned "B" "second" true) eq_refl)).
  by vm_compute.
Defined.

(** ** The search aggregator: flattening, the dict of unique sources, the text *)

Section aggregator_more.
Context (R : Rendering).
Implicit Types (l responses : list pyval) (acc u : list (pyval * list (str * pyval))).

Lemma add_response_shift d sources_list :
  add_response d sources_list
  = items ← add_response d []; Return (sources_list ++ items).
Proof.
  unfold add_response. destruct (dict_get RESULTS d) as [results|]; [|done].
  by destruct (py_iter results).
Qed.

(** The sources collected so far are a prefix of the result. *)
Lemma add_responses_shift responses sources_list :
  add_responses responses sources_list
  = items ← add_responses responses []; Return (sources_list ++ items).
Proof.
  revert sources_list.
  induction responses as [|response responses IH]; intros sources_list.
  { simpl. by rewrite app_nil_r. }
  assert (forall r,
            add_responses responses (sources_list ++ r)
            = items ← add_responses responses r; Return (sources_list ++ items)) as Hstep.
  { intros r. rewrite (IH (sources_list ++ r)), (IH r).
    destruct (add_responses responses []) as [items|e]; [|done].
    simpl. by rewrite app_assoc. }
  destruct response as [| | | |l'|d]; simpl; try apply IH.
  - apply (Hstep l').
  - rewrite (add_response_shift d sources_list).
    destruct (add_response d []) as [r|e]; [|done]. simpl. apply Hstep.
Qed.

Lemma add_responses_app responses responses' sources_list :
  add_responses (responses ++ responses') sources_list
  = sources_list' ← add_responses responses sources_list;
    add_responses responses' sources_list'.
Proof.
  revert sources_list.
  induction responses as [|response responses IH]; intros sources_list; [done|].
  destruct response as [| | | |l'|d]; simpl; try apply IH.
  destruct (add_response d sources_list) as [r|e]; [|done]. simpl. apply IH.
Qed.

(** Deduplicating the unique sources again gives them back. *)
Lemma deduplicate_again l acc u :
  deduplicate l acc = Return u ->
  exists u', u = acc ++ u' /\ deduplicate (PDict <$> u'.*2) acc = Return u.
Proof.
  revert acc. induction l as [|source l IH]; intros acc Hd.
  { injection Hd as <-. exists []. by rewrite app_nil_r. }
  destruct (source_url source) as [url|] eqn:Hurl.
  - destruct (source_url_Some _ _ Hurl) as (d & -> & Hd').
    rewrite (deduplicate_url _ _ _ _ Hd') in Hd.
    destruct (hashable url) eqn:Hh; [|done].
    destruct (key_in url (acc.*1)) eqn:Hin; [by apply IH in Hd|].
    apply IH in Hd as (u' & -> & Hagain). exists ((url, d) :: u'). split.
    + by rewrite <- app_assoc.
    + rewrite !fmap_cons. cbn [snd].
      by rewrite (deduplicate_url _ _ _ _ Hd'), Hh, Hin.
  - rewrite deduplicate_skip in Hd by done. by apply IH.
Qed.

(** Every unique source comes from the list, under its own url, and there are
    no more of them than sources. *)
Lemma deduplicate_sound l acc u :
  deduplicate l acc = Return u ->
  (forall url d, (url, d) ∈ u ->
     (url, d) ∈ acc \/ (PDict d ∈ l /\ dict_get URL d = Some url))
  /\ (length u <= length acc + length l)%nat.
Proof.
  revert acc. induction l as [|source l IH]; intros acc Hd.
  { injection Hd as <-. split; [by left|simpl; lia]. }
  destruct (source_url source) as [url|] eqn:Hurl.
  - destruct (source_url_Some _ _ Hurl) as (d & -> & Hd').
    rewrite (deduplicate_url _ _ _ _ Hd') in Hd.
    destruct (hashable url) eqn:Hh; [|done].
    destruct (key_in url (acc.*1)) eqn:Hin.
    + apply IH in Hd as [Hfrom Hlen]. split; [|simpl; lia].
      intros k d' Hk. destruct (Hfrom k d' Hk) as [?|[? ?]]; [by left|right].
      split; [by right|done].
    + apply IH in Hd as [Hfrom Hlen]. split.
      * intros k d' Hk. destruct (Hfrom k d' Hk) as [Hacc|[? ?]].
        -- apply elem_of_app in Hacc as [?|Hnew]; [by left|right].
           apply list_elem_of_singleton in Hnew as [= -> ->]. split; [left|done].
        -- right. split; [by right|done].
      * rewrite length_app in Hlen. simpl in *. lia.
  - rewrite deduplicate_skip in Hd by done.
    apply IH in Hd as [Hfrom Hlen]. split; [|simpl; lia].
    intros k d' Hk. destruct (Hfrom k d' Hk) as [?|[? ?]]; [by left|right].
    split; [by right|done].
Qed.

(** The loop raises only on a url that cannot be a key. *)
Lemma deduplicate_Raise l acc e :
  deduplicate l acc = Raise e ->
  exists source url, source ∈ l /\ source_url source = Some url /\ hashable url = false.
Proof.
  revert acc. induction l as [|source l IH]; intros acc Hd; [done|].
  destruct (source_url source) as [url|] eqn:Hurl.
  - destruct (source_url_Some _ _ Hurl) as (d & -> & Hd').
    rewrite (deduplicate_url _ _ _ _ Hd') in Hd.
    destruct (hashable url) eqn:Hh.
    + destruct (key_in url (acc.*1)); apply IH in Hd as (s & k & Hs & Hk & Hhk);
        exists s, k; (split; [by right|done]).
    + exists (PDict d), url. split; [left|done].
  - rewrite deduplicate_skip in Hd by done.
    apply IH in Hd as (s & k & Hs & Hk & Hhk). exists s, k. split; [by right|done].
Qed.

(** The blocks are appended to the text. *)
Lemma format_sources_prefix encoding max_tokens raw sources formatted_text text :
  format_sources R encoding max_tokens raw sources formatted_text = Return text ->
  exists blocks, text = formatted_text ++ blocks.
Proof.
  intros (blocks & _ & ->)%format_sources_blocks. by eexists.
Qed.

(** Without the raw content the token limit is not used. *)
Lemma format_sources_max_tokens encoding m m' sources formatted_text :
  format_sources R encoding m false sources formatted_text
  = format_sources R encoding m' false sources formatted_text.
Proof.
  revert formatted_text. induction sources as [|source sources IH]; intros formatted_text;
    [done|].
  simpl. apply IH.
Qed.

Lemma lstrip_app_keep x c y :
  isspace c = false -> exists x', lstrip (x ++ c :: y) = x' ++ c :: y.
Proof.
  intros Hc. induction x as [|a x [x' IH]]; simpl.
  - rewrite Hc. by exists [].
  - destruct (isspace a); [by exists x'|by exists (a :: x)].
Qed.

(** Stripping keeps a prefix that starts and ends with something else than
    white space. *)
Lemma strip_keeps_prefix c h c' rest :
  isspace c = false -> isspace c' = false ->
  exists rest', strip ((c :: h ++ [c']) ++ rest) = (c :: h ++ [c']) ++ rest'.
Proof.
  intros Hc Hc'. unfold strip.
  assert (lstrip ((c :: h ++ [c']) ++ rest) = (c :: h ++ [c']) ++ rest) as ->
    by (simpl; by rewrite Hc).
  unfold rstrip.
  replace ((c :: h ++ [c']) ++ rest) with ((c :: h) ++ c' :: rest)
    by (simpl; by rewrite <- app_assoc).
  rewrite reverse_app, (reverse_cons rest c'), <- app_assoc.
  change ([c'] ++ reverse (c :: h)) with (c' :: reverse (c :: h)).
  destruct (lstrip_app_keep (reverse rest) c' (reverse (c :: h)) Hc') as [x' ->].
  exists (reverse x').
  rewrite reverse_app, reverse_cons, reverse_involutive.
  simpl. by rewrite <- !app_assoc.
Qed.
End aggregator_more.

(** X15: flattening works batch by batch: a response that is one dict is
    flattened like the list holding just that dict, and the sources of a list
    of responses are the sources of its first part followed by those of its
    second part (an error in the first part comes first). *)
Theorem X15_flatten_sources_batchwise :
  (forall d, flatten_sources (PDict d) = flatten_sources (PList [PDict d])) /\
  (forall responses responses',
     flatten_sources (PList (responses ++ responses'))
     = sources ← flatten_sources (PList responses);
       sources' ← flatten_sources (PList responses');
       Return (sources ++ sources')).
Proof.
  split.
  - intros d. simpl. by destruct (add_response d []).
  - intros responses responses'. simpl. rewrite add_responses_app.
    destruct (add_responses responses []) as [sources|e]; [|done]. simpl.
    apply add_responses_shift.
Qed.

(** X16: the unique sources are a fixed point of the deduplication: run on
    them again, in their order, the loop returns the same dict. *)
Theorem X16_deduplicate_unique_sources_again
    (sources_list : list pyval) (unique_sources : list (pyval * list (str * pyval))) :
  deduplicate sources_list [] = Return unique_sources ->
  deduplicate (PDict <$> unique_sources.*2) [] = Return unique_sources.
Proof.
  intros (u' & -> & Hagain)%deduplicate_again. by rewrite app_nil_l in *.
Qed.

Lemma X16_deduplicate_unique_sources_again_witness :
  deduplicate [sample.source "A" "http://a"; sample.source "B" "http://b";
               sample.source "A2" "http://a"; PStr (lit "stray")] []
  = Return [(PStr (lit "http://a"),
             [(lit "title", PStr (lit "A")); (URL, PStr (lit "http://a"));
              (lit "content", PStr (lit "text"))]);
            (PStr (lit "http://b"),
             [(lit "title", PStr (lit "B")); (URL, PStr (lit "http://b"));
              (lit "content", PStr (lit "text"))])] /\
  deduplicate [sample.source "A" "http://a"; sample.source "B" "http://b"] []
  = Return [(PStr (lit "http://a"),
             [(lit "title", PStr (lit "A")); (URL, PStr (lit "http://a"));
              (lit "content", PStr (lit "text"))]);
            (PStr (lit "http://b"),
             [(lit "title", PStr (lit "B")); (URL, PStr (lit "http://b"));
              (lit "content", PStr (lit "text"))])].
Proof.
  assert (deduplicate [sample.source "A" "http://a"; sample.source "B" "http://b";
                       sample.source "A2" "http://a"; PStr (lit "stray")] []
          = Return [(PStr (lit "http://a"),
                     [(lit "title", PStr (lit "A")); (URL, PStr (lit "http://a"));
                      (lit "content", PStr (lit "text"))]);
                    (PStr (lit "http://b"),
                     [(lit "title", PStr (lit "B")); (URL, PStr (lit "http://b"));
                      (lit "content", PStr (lit "text"))])]) as Hd by reflexivity.
  split; [exact Hd|].
  exact (X16_deduplicate_unique_sources_again _ _ Hd).
Defined.

(** X17: the deduplication invents nothing: every unique source is a dict of
    the flattened list, kept under its own ['url'], and there are at most as
    many unique sources as sources. *)
Theorem X17_deduplicate_keeps_sources_of_the_list
    (sources_list : list pyval) (unique_sources : list (pyval * list (str * pyval))) :
  deduplicate sources_list [] = Return unique_sources ->
  (forall url d, (url, d) ∈ unique_sources ->
     PDict d ∈ sources_list /\ dict_get URL d = Some url)
  /\ (length unique_sources <= length sources_list)%nat.
Proof.
  intros [Hfrom Hlen]%deduplicate_sound. split; [|done].
  intros url d Hin. destruct (Hfrom url d Hin) as [Hnil|?]; [|done].
  by apply elem_of_nil in Hnil.
Qed.

Lemma X17_deduplicate_keeps_sources_of_the_list_witness :
  deduplicate [sample.source "A" "http://a"; sample.source "A2" "http://a"] []
  = Return [(PStr (lit "http://a"),
             [(lit "title", PStr (lit "A")); (URL, PStr (lit "http://a"));
              (lit "content", PStr (lit "text"))])] /\
  (1 <= 2)%nat.
Proof.
  assert (deduplicate [sample.source "A" "http://a"; sample.source "A2" "http://a"] []
          = Return [(PStr (lit "http://a"),
                     [(lit "title", PStr (lit "A")); (URL, PStr (lit "http://a"));
                      (lit "content", PStr (lit "text"))])]) as Hd by reflexivity.
  split; [exact Hd|].
  exact (proj2 (X17_deduplicate_keeps_sources_of_the_list _ _ Hd)).
Defined.

(** X18: whenever the flattened list is not empty and
    [format_search_query_results] returns, the text starts with the header
    "Content from web search:"; in particular it is not empty and not the
    no-results literal. *)
Theorem X18_formatted_text_starts_with_header (R : Rendering)
    (tiktoken : result Encoding) (search_response : pyval) (max_tokens : Z)
    (include_raw_content : bool) (source : pyval) (sources_list : list pyval)
    (text : str) :
  flatten_sources search_response = Return (source :: sources_list) ->
  format_search_query_results R tiktoken search_response max_tokens include_raw_content
  = Return text ->
  exists rest, text = lit "Content from web search:" ++ rest.
Proof.
  intros Hflat. destruct tiktoken as [encoding|e]; [|done].
  rewrite (format_nonempty R _ _ _ _ _ _ Hflat).
  destruct (deduplicate _ _) as [unique_sources|e]; [|done]. simpl.
  destruct (format_sources _ _ _ _ _ _) as [formatted_text|e] eqn:Hf; [|done].
  simpl. intros [= <-].
  apply format_sources_prefix in Hf as [blocks ->].
  unfold CONTENT_HEADER. rewrite <- app_assoc.
  apply (strip_keeps_prefix 67 (lit "ontent from web search") 58); reflexivity.
Qed.

Lemma X18_formatted_text_starts_with_header_witness :
  flatten_sources sample.batch
  = Return [sample.source "A" "http://a"; sample.source "B" "http://b";
            sample.source "A2" "http://a"; PStr (lit "stray")] /\
  exists text rest,
    format_search_query_results sample.rendering (Return sample.encoding) sample.batch
      2500%Z true
    = Return text
    /\ text = lit "Content from web search:" ++ rest.
Proof.
  split; [reflexivity|].
  destruct (format_search_query_results sample.rendering (Return sample.encoding)
              sample.batch 2500%Z true)
    as [text|e] eqn:Hformat; [|by vm_compute in Hformat].
  exists text.
  destruct (X18_formatted_text_starts_with_header sample.rendering
              (Return sample.encoding) sample.batch 2500%Z true _ _ text eq_refl Hformat)
    as [rest Hrest].
  by exists rest.
Defined.

(** X19: without the raw content the token limit plays no part: the text is
    the same for every [max_tokens]. *)
Theorem X19_max_tokens_unused_without_raw_content (R : Rendering)
    (tiktoken : result Encoding) (search_response : pyval) (max_tokens max_tokens' : Z) :
  format_search_query_results R tiktoken search_response max_tokens false
  = format_search_query_results R tiktoken search_response max_tokens' false.
Proof.
  destruct tiktoken as [encoding|e]; [|done].
  destruct (flatten_sources search_response) as [[|source l]|e] eqn:Hflat.
  - by rewrite !format_empty.
  - rewrite !(format_nonempty R _ _ _ _ _ _ Hflat).
    destruct (deduplicate (source :: l) []) as [unique_sources|e]; [|done].
    cbn [mbind result_bind].
    by rewrite (format_sources_max_tokens R encoding max_tokens max_tokens').
  - unfold format_search_query_results. simpl. by rewrite Hflat.
Qed.

(** X20: what [run_search_queries] asks the search client for. A string is
    searched as it is; a [SearchQuery] of util.py is searched by its
    [search_query]; anything else is searched by its [str()], so that [None]
    (the default of the field in agent.py) is searched as the word "None";
    and the queries are independent of each other: the responses of a list
    are those of its first part followed by those of its second part. *)
Theorem X20_run_search_queries_query_text (tavily_search : TavilySearch)
    (num_results : Z) (include_raw_content : bool) :
  (forall s,
     run_search_queries (Return tavily_search) [QStr s] num_results include_raw_content
     = Return match raw_results_async tavily_search s num_results include_raw_content with
              | Task (Return doc) => [doc]
              | _ => []
              end) /\
  (forall s,
     run_search_queries (Return tavily_search) [QSearchQuery {| util.search_query := s |}]
       num_results include_raw_content
     = run_search_queries (Return tavily_search) [QStr s] num_results include_raw_content) /\
  (forall text,
     run_search_queries (Return tavily_search) [QObject text]
       num_results include_raw_content
     = run_search_queries (Return tavily_search) [QStr text] num_results
         include_raw_content) /\
  run_search_queries (Return tavily_search) [QNone] num_results include_raw_content
  = run_search_queries (Return tavily_search) [QStr (lit "None")] num_results
      include_raw_content /\
  (forall search_queries search_queries',
     run_search_queries (Return tavily_search) (search_queries ++ search_queries')
       num_results include_raw_content
     = docs ← run_search_queries (Return tavily_search) search_queries num_results
                include_raw_content;
       docs' ← run_search_queries (Return tavily_search) search_queries' num_results
                 include_raw_content;
       Return (docs ++ docs')).
Proof.
  split; [|split; [|split; [|split]]]; intros; rewrite ?run_search_queries_client;
    try done.
  - unfold response_of. simpl.
    by destruct (raw_results_async tavily_search s num_results include_raw_content)
      as [e|[doc|e]].
  - simpl. by rewrite omap_app.
Qed.

(** ** The caller of the workflow *)

Lemma key_set_ensure_key environ session :
  app.key_set (app.ensure_key environ session)
  = app.key_set environ || app.key_set session.
Proof.
  unfold app.ensure_key.
  destruct (app.key_set environ) eqn:He; simpl; [done|].
  destruct (app.key_set session) eqn:Hs; by rewrite ?He, ?Hs.
Qed.

(** X21: [process_report] returns [True], and puts the report on the result
    queue, exactly when each of the two API keys is in the environment or in
    the session state and the run yields a final report that is not empty; in
    every other case (a key missing, an exception of the run, no report, the
    empty report) it returns [False] and puts nothing on the queue. *)
Theorem X21_process_report_outcome (P : Prompts) (R : Rendering) (W : World)
    (environ_openai environ_tavily session_openai session_tavily : option str)
    (topic : str) :
  app.process_report P R W environ_openai environ_tavily session_openai session_tavily
    topic
  = if (app.key_set environ_openai || app.key_set session_openai)
       && (app.key_set environ_tavily || app.key_set session_tavily)
    then match reporter_agent P R W topic with
         | Return (Some (c :: rest)) => (true, Some (c :: rest))
         | _ => (false, None)
         end
    else (false, None).
Proof.
  unfold app.process_report. cbv zeta. rewrite !key_set_ensure_key.
  unfold run_agent.
  destruct (app.key_set environ_openai || app.key_set session_openai); [|done].
  destruct (app.key_set environ_tavily || app.key_set session_tavily); [|done].
  simpl. by destruct (reporter_agent P R W topic) as [[[|c rest]|]|e].
Qed.

(** X22: when the planning fails, [process_report] returns [False] and puts
    nothing on the result queue, whatever the keys: the empty report of a
    degraded run counts as a failure. *)
Theorem X22_process_report_after_failed_planning (P : Prompts) (R : Rendering)
    (W : World)
    (environ_openai environ_tavily session_openai session_tavily : option str)
    (topic : str) :
  generate_report_plan P R (ChatOpenAI W AtPlan) (TavilySearchAPIWrapper W AtPlan)
    (encoding_for_model W AtPlan) topic
  = Return [] ->
  app.process_report P R W environ_openai environ_tavily session_openai session_tavily
    topic
  = (false, None).
Proof.
  intros Hplan. unfold app.process_report, run_agent. cbv zeta.
  rewrite (reporter_agent_empty_plan P R W topic Hplan).
  by destruct (app.key_set (app.ensure_key environ_openai session_openai)),
       (app.key_set (app.ensure_key environ_tavily session_tavily)).
Qed.

Lemma X22_process_report_after_failed_planning_witness :
  generate_report_plan sample.prompts sample.rendering
    (ChatOpenAI sample.world_no_planner AtPlan)
    (TavilySearchAPIWrapper sample.world_no_planner AtPlan)
    (encoding_for_model sample.world_no_planner AtPlan) sample.topic_ev
  = Return [] /\
  app.process_report sample.prompts sample.rendering sample.world_no_planner
    (Some (lit "sk-openai")) None None (Some (lit "tvly-key")) sample.topic_ev
  = (false, None).
Proof.
  assert (generate_report_plan sample.prompts sample.rendering
            (ChatOpenAI sample.world_no_planner AtPlan)
            (TavilySearchAPIWrapper sample.world_no_planner AtPlan)
            (encoding_for_model sample.world_no_planner AtPlan) sample.topic_ev
          = Return []) as Hplan by reflexivity.
  split; [exact Hplan|].
  exact (X22_process_report_after_failed_planning sample.prompts sample.rendering
           sample.world_no_planner (Some (lit "sk-openai")) None None
           (Some (lit "tvly-key")) sample.topic_ev Hplan).
Defined.

(** ** The paths of the stored reports *)

Section storage_paths.
Implicit Types (s new topic ts user_id filename : str) (c x : N).

Lemma replace_char_cons c new d s :
  replace [c] new (d :: s)
  = if decide (c = d) then new ++ replace [c] new s else d :: replace [c] new s.
Proof.
  rewrite replace_unfold by done. simpl. by case_decide.
Qed.

(** After [s.replace(c, new)] the character [c] is gone, unless [new] brings
    it back, and no character comes in that was in neither. *)
Lemma replace_char_gone c new s : c ∉ new -> c ∉ replace [c] new s.
Proof.
  intros Hnew. induction s as [|d s IH]; [by rewrite replace_nil; [apply not_elem_of_nil|]|].
  rewrite replace_char_cons. case_decide.
  - by apply not_elem_of_app.
  - apply not_elem_of_cons. by split.
Qed.

Lemma replace_char_absent c new x s : x ∉ s -> x ∉ new -> x ∉ replace [c] new s.
Proof.
  intros Hs Hnew. induction s as [|d s IH]; [by rewrite replace_nil; [apply not_elem_of_nil|]|].
  apply not_elem_of_cons in Hs as [Hd Hs].
  rewrite replace_char_cons. case_decide.
  - apply not_elem_of_app. split; [done|by apply IH].
  - apply not_elem_of_cons. split; [done|by apply IH].
Qed.

Lemma replace_char_length c e s : length (replace [c] [e] s) = length s.
Proof.
  induction s as [|d s IH]; [done|].
  rewrite replace_char_cons. case_decide; simpl; by rewrite IH.
Qed.

Lemma contains_char c s : storage.contains [c] s = true <-> c ∈ s.
Proof.
  induction s as [|d s IH]; simpl.
  - split; [done|by intros ?%elem_of_nil].
  - rewrite elem_of_cons, <- IH. case_decide; simpl.
    + split; [by left|done].
    + split; [by right|]. by intros [?|?].
Qed.

Lemma safe_topic_no_space topic : 32 ∉ storage.safe_topic topic.
Proof.
  apply (replace_char_absent 47 [95] 32); [|by_evaluation].
  apply (replace_char_gone 32 [95]). by_evaluation.
Qed.

Lemma safe_topic_no_slash topic : 47 ∉ storage.safe_topic topic.
Proof. apply (replace_char_gone 47 [95]). by_evaluation. Qed.

Lemma file_name_no_slash topic ts : 47 ∉ ts -> 47 ∉ storage.file_name topic ts.
Proof.
  intros Hts. unfold storage.file_name. rewrite !not_elem_of_app.
  split; [apply safe_topic_no_slash|]. split; [by_evaluation|].
  split; [done|by_evaluation].
Qed.
End storage_paths.

(** X23: the topic as it enters the file name of a stored report has no
    space and no slash, and is as long as the topic. *)
Theorem X23_safe_topic_has_no_space_no_slash (topic : str) :
  (32 ∉ storage.safe_topic topic)
  /\ (47 ∉ storage.safe_topic topic)
  /\ length (storage.safe_topic topic) = length topic.
Proof.
  split; [apply safe_topic_no_space|]. split; [apply safe_topic_no_slash|].
  unfold storage.safe_topic.
  by rewrite (replace_char_length 47 95), (replace_char_length 32 95).
Qed.

(** X24: what [save_report] stores can be found again: with a time stamp
    that has no slash, [get_report_content] and [delete_report] resolve the
    file name of a saved report, given with its user, to the path
    [save_report] returned, and resolve that path to itself whoever the user
    is; and the metadata path of [delete_report] is the one [save_report]
    wrote the metadata to. *)
Theorem X24_saved_report_path_round_trip (user_id topic ts : str) :
  47 ∉ ts ->
  storage.resolve_path user_id (storage.file_name topic ts)
  = storage.file_path user_id topic ts
  /\ (forall other_user,
        storage.resolve_path other_user (storage.file_path user_id topic ts)
        = storage.file_path user_id topic ts)
  /\ storage.meta_path user_id (storage.file_name topic ts)
     = storage.metadata_path user_id topic ts.
Proof.
  intros Hts.
  assert (storage.resolve_path user_id (storage.file_name topic ts)
          = storage.file_path user_id topic ts) as Hresolve.
  { unfold storage.resolve_path.
    destruct (storage.contains (lit "/") (storage.file_name topic ts)) eqn:Hc.
    - apply (contains_char 47) in Hc. by apply file_name_no_slash in Hc.
    - unfold storage.file_path, storage.user_folder. by rewrite <- app_assoc. }
  split; [done|]. split.
  - intros other_user. unfold storage.resolve_path.
    destruct (storage.contains (lit "/") (storage.file_path user_id topic ts)) eqn:Hc;
      [done|].
    assert (storage.contains (lit "/") (storage.file_path user_id topic ts) = true)
      as Hslash; [|congruence].
    apply (contains_char 47). unfold storage.file_path, storage.user_folder.
    apply elem_of_app. left. apply elem_of_app. right. by_evaluation.
  - unfold storage.meta_path. rewrite Hresolve.
    unfold storage.file_path, storage.metadata_path. by rewrite <- !app_assoc.
Qed.

Lemma X24_saved_report_path_round_trip_witness :
  (47 ∉ lit "20250101_120000") /\
  storage.resolve_path (lit "user-1")
    (storage.file_name (lit "EV charging / grid") (lit "20250101_120000"))
  = lit "user-1/EV_charging___grid_20250101_120000.md".
Proof.
  assert (47 ∉ lit "20250101_120000") as Hts by by_evaluation.
  split; [exact Hts|].
  rewrite (proj1 (X24_saved_report_path_round_trip (lit "user-1")
                    (lit "EV charging / grid") (lit "20250101_120000") Hts)).
  by vm_compute.
Defined.

(** ** Failures that end the run, and what makes the formatting fail *)

(** X25: one failing branch ends the whole run: when a planned research
    section's branch raises, the fan-out raises, its sibling branches
    contribute nothing, and the run raises instead of returning a report. *)
Theorem X25_failing_research_branch_ends_the_run (P : Prompts) (R : Rendering)
    (W : World) (topic : str) (planned : list ReportSection) (s : ReportSection) :
  generate_report_plan P R (ChatOpenAI W AtPlan) (TavilySearchAPIWrapper W AtPlan)
    (encoding_for_model W AtPlan) topic
  = Return planned ->
  s ∈ planned -> research s = true ->
  raises (section_builder P R W s) ->
  raises (reporter_agent P R W topic)
  /\ run_agent P R W true true topic = None.
Proof.
  intros Hplan Hs Hresearch Hraise.
  assert (raises (reporter_agent P R W topic)) as [e Hrun].
  { rewrite (reporter_agent_planned P R W topic planned Hplan).
    assert (s ∈ filter (fun s => research s = true) planned) as Hsend
      by (by apply list_elem_of_filter).
    destruct (fan_out_raises (earliest W) (section_builder P R W) _ s Hsend Hraise)
      as [e Hfan].
    destruct (filter (fun s => research s = true) planned) as [|s1 sends];
      [by apply elem_of_nil in Hsend|].
    rewrite Hfan. by exists e. }
  split; [by exists e|]. unfold run_agent. simpl. by rewrite Hrun.
Qed.

Lemma X25_failing_research_branch_ends_the_run_witness :
  raises (section_builder sample.prompts sample.rendering sample.world_writer_fails
            (sample.planned "Charging Infrastructure" "chargers" true)) /\
  raises (reporter_agent sample.prompts sample.rendering sample.world_writer_fails
            sample.topic_ev) /\
  run_agent sample.prompts sample.rendering sample.world_writer_fails true true
    sample.topic_ev = None.
Proof.
  assert (raises (section_builder sample.prompts sample.rendering sample.world_writer_fails
                    (sample.planned "Charging Infrastructure" "chargers" true)))
    as Hraise by (exists (ExternalError 1); by vm_compute).
  split; [exact Hraise|].
  apply (X25_failing_research_branch_ends_the_run sample.prompts sample.rendering
           sample.world_writer_fails sample.topic_ev sample.plan_ev
           (sample.planned "Charging Infrastructure" "chargers" true)).
  - by vm_compute.
  - by_evaluation.
  - reflexivity.
  - exact Hraise.
Defined.

(** X26: without the raw content, and on a response that flattens,
    [format_search_query_results] raises in two cases only: the tokenizer
    cannot be loaded, or the url of a source cannot be a key of the dict (it
    is a list or a dict); in every other case it returns a text. *)
Theorem X26_format_raises_without_raw_content (R : Rendering)
    (tiktoken : result Encoding) (search_response : pyval) (sources_list : list pyval)
    (max_tokens : Z) :
  flatten_sources search_response = Return sources_list ->
  (raises (format_search_query_results R tiktoken search_response max_tokens false)
   <-> raises tiktoken
       \/ exists source url,
            source ∈ sources_list /\ source_url source = Some url
            /\ hashable url = false)
  /\ (~ raises (format_search_query_results R tiktoken search_response max_tokens false)
      -> exists text,
           format_search_query_results R tiktoken search_response max_tokens false
           = Return text).
Proof.
  intros Hflat. split; [|destruct (format_search_query_results _ _ _ _ _) as [text|e];
                          [by eexists|intros []; by eexists]].
  destruct tiktoken as [encoding|e]; [|split; [left|]; by exists e].
  split.
  - intros [e He]. right. destruct sources_list as [|source l].
    { by rewrite format_empty in He. }
    rewrite (format_nonempty R _ _ _ _ _ _ Hflat) in He.
    destruct (deduplicate (source :: l) []) as [u|e'] eqn:Hd.
    + cbn [mbind result_bind] in He.
      by destruct (format_sources_without_raw R encoding max_tokens (u.*2) CONTENT_HEADER)
        as [text Htext]; rewrite Htext in He.
    + by apply deduplicate_Raise in Hd.
  - intros [[e He]|(source & url & Hin & Hurl & Hh)]; [done|].
    destruct sources_list as [|source' l]; [by apply elem_of_nil in Hin|].
    rewrite (format_nonempty R _ _ _ _ _ _ Hflat).
    destruct (deduplicate (source' :: l) []) as [u|e'] eqn:Hd; [|by exists e'].
    rewrite (deduplicate_Return_hashable _ _ _ Hd source url Hin Hurl) in Hh. done.
Qed.

Lemma X26_format_raises_without_raw_content_witness :
  flatten_sources (PList [PDict [(URL, PList [])]]) = Return [PDict [(URL, PList [])]] /\
  raises (format_search_query_results sample.rendering (Return sample.encoding)
            (PList [PDict [(URL, PList [])]]) 2500%Z false).
Proof.
  split; [reflexivity|].
  apply (proj1 (X26_format_raises_without_raw_content sample.rendering
                  (Return sample.encoding) (PList [PDict [(URL, PList [])]])
                  [PDict [(URL, PList [])]] 2500%Z eq_refl)).
  right. exists (PDict [(URL, PList [])]), (PList []).
  split; [left|]. split; reflexivity.
Defined.

Lemma X8_plan_split_between_fan_outs_witness :
  sample.planned "Conclusion" "summary" false
    ∈ parallelize_final_section_writing
        {| topic := sample.topic_ev; sections := sample.plan_ev;
           completed_sections := []; report_sections_from_research := [];
           final_report := None |} /\
  research (sample.planned "Conclusion" "summary" false) = false.
Proof.
  assert (sample.planned "Conclusion" "summary" false
            ∈ parallelize_final_section_writing
                {| topic := sample.topic_ev; sections := sample.plan_ev;
                   completed_sections := []; report_sections_from_research := [];
                   final_report := None |}) as Hin by by_evaluation.
  split; [exact Hin|].
  exact (proj2 (proj2 (X8_plan_split_between_fan_outs
                         {| topic := sample.topic_ev; sections := sample.plan_ev;
                            completed_sections := [];
                            report_sections_from_research := [];
                            final_report := None |}))
           (sample.planned "Conclusion" "summary" false) Hin).
Defined.
